(** * doc_ai: the document ingestion pipeline, embedded in Rocq

    A shallow embedding of the ETL core of the repository
    ([etl/pdf_chunking.py], [etl/llm_client.py], [etl/pdf_classifier.py],
    [etl/pdf_extractor.py], [etl/pdf_embedding.py],
    [pipelines/dlt_pipeline.py]) together with the properties of the
    specification that concern it.

    Conventions.
    - A Python [str] is a list of Unicode code points ([pystr]); a Python
      [int] is a [Z].
    - A call that may raise returns a [res]; a loop that may run forever
      takes a fuel argument and returns [None] when the fuel runs out.
    - External collaborators (the Unicode database, [json.loads], the
      OpenAI endpoint, [uuid.uuid4], pdfplumber, the thread pool's
      completion order, the embedding endpoint) are type classes. *)

From Stdlib Require Import ZArith NArith Ascii String List Lia Permutation.
From stdpp Require Import base list sorting gmap strings pretty.

Local Open Scope Z_scope.
Set Warnings "-register-all".

(** ** Python strings *)

Module PyStr.

(** A character is a code point, a string a list of them. *)
Abbreviation char := N (only parsing).
Abbreviation pystr := (list N) (only parsing).

(** A literal: the code points of an ASCII string. *)
Definition str (s : string) : pystr :=
  List.map N_of_ascii (list_ascii_of_string s).

(** A literal in which every apostrophe stands for a quotation mark
    (code point 34); used to write JSON texts. *)
Definition qstr (s : string) : pystr :=
  List.map (fun c => if N.eqb c 39 then 34%N else c) (str s).

(** [str.isspace] on one code point: the characters CPython treats as
    whitespace in [str.split()] and [str.strip()]. *)
Definition isspace (c : char) : bool :=
  ((9 <=? c) && (c <=? 13) || (28 <=? c) && (c <=? 32)
   || (c =? 133) || (c =? 160) || (c =? 5760)
   || (8192 <=? c) && (c <=? 8202)
   || (c =? 8232) || (c =? 8233) || (c =? 8239) || (c =? 8287)
   || (c =? 12288))%N.

Definition pystr_eqb (a b : pystr) : bool := bool_decide (a = b).

Fixpoint drop_while {A} (p : A -> bool) (l : list A) : list A :=
  match l with
  | [] => []
  | x :: l' => if p x then drop_while p l' else l
  end.

(** [s.lstrip()], [s.rstrip()], [s.strip()] *)
Definition lstrip (s : pystr) : pystr := drop_while isspace s.
Definition rstrip (s : pystr) : pystr := rev (drop_while isspace (rev s)).
Definition strip (s : pystr) : pystr := rstrip (lstrip s).

(** [s.strip(chars)] *)
Definition in_chars (chars : pystr) (c : char) : bool :=
  existsb (N.eqb c) chars.
Definition strip_chars (chars s : pystr) : pystr :=
  rev (drop_while (in_chars chars) (rev (drop_while (in_chars chars) s))).

(** [s.split()]: maximal runs of non-whitespace characters. *)
Fixpoint split_aux (cur : pystr) (s : pystr) : list pystr :=
  match s with
  | [] => match cur with [] => [] | _ => [cur] end
  | c :: s' =>
      if isspace c
      then match cur with
           | [] => split_aux [] s'
           | _ => cur :: split_aux [] s'
           end
      else split_aux (cur ++ [c]) s'
  end.
Definition split (s : pystr) : list pystr := split_aux [] s.

(** [sep.join(l)] *)
Fixpoint join (sep : pystr) (l : list pystr) : pystr :=
  match l with
  | [] => []
  | [x] => x
  | x :: l' => x ++ sep ++ join sep l'
  end.

(** [s.startswith(p)] *)
Fixpoint startswith (s p : pystr) : bool :=
  match p, s with
  | [], _ => true
  | _ :: _, [] => false
  | a :: p', b :: s' => N.eqb a b && startswith s' p'
  end.

(** [p in s] *)
Fixpoint contains (s p : pystr) : bool :=
  startswith s p ||
  match s with
  | [] => false
  | _ :: s' => contains s' p
  end.

(** [s.find(p)]: the lowest index where [p] occurs; [s.index(p)] raises
    where [find] gives [None]. *)
Fixpoint find (s p : pystr) : option Z :=
  if startswith s p then Some 0
  else match s with
       | [] => None
       | _ :: s' => Z.succ <$> find s' p
       end.

(** [s.rfind(p)]: the highest index where [p] occurs. *)
Fixpoint rfind (s p : pystr) : option Z :=
  match s with
  | [] => if startswith s p then Some 0 else None
  | _ :: s' =>
      match rfind s' p with
      | Some i => Some (Z.succ i)
      | None => if startswith s p then Some 0 else None
      end
  end.

(** [s.replace(old, new)]: occurrences are replaced from the left and do
    not overlap; [skip] counts the characters of a matched occurrence
    still to be dropped. *)
Fixpoint replace_aux (old new : pystr) (skip : nat) (s : pystr) : pystr :=
  match s with
  | [] => []
  | c :: s' =>
      match skip with
      | S k => replace_aux old new k s'
      | O =>
          if startswith s old
          then new ++ replace_aux old new (Nat.pred (length old)) s'
          else c :: replace_aux old new O s'
      end
  end.
Definition replace (s old new : pystr) : pystr :=
  match old with
  | [] => new ++ flat_map (fun c => c :: new) s
  | _ => replace_aux old new O s
  end.

(** Python slicing [l[i:j]] with its treatment of negative and
    out-of-range indices. *)
Definition norm_index (len i : Z) : Z :=
  if i <? 0 then Z.max (i + len) 0 else Z.min i len.
Definition py_slice {A} (l : list A) (i j : Z) : list A :=
  let n := Z.of_nat (length l) in
  let a := norm_index n i in
  let b := norm_index n j in
  take (Z.to_nat (b - a)) (drop (Z.to_nat a) l).
(** [l[i:]] *)
Definition py_slice_from {A} (l : list A) (i : Z) : list A :=
  drop (Z.to_nat (norm_index (Z.of_nat (length l)) i)) l.

Definition len {A} (l : list A) : Z := Z.of_nat (length l).

(** ASCII characters and their lower-case forms. *)
Definition is_ascii (c : char) : bool := (c <? 128)%N.
Definition ascii_lower (c : char) : char :=
  if ((65 <=? c) && (c <=? 90))%N then (c + 32)%N else c.

(** The newline character as a string. *)
Definition NL : pystr := [10%N].

(** [str(n)] for an [int]. *)
Definition str_of_int (n : Z) : pystr := str (pretty n).

End PyStr.
Import PyStr.

(** ** Exceptions and external collaborators *)

(** The exceptions the modelled code raises or lets through, by class;
    messages are kept only where the code inspects them. *)
Inductive exn :=
| ValueError
| RuntimeError
| KeyError
| TypeError
| JSONDecodeError
| AttributeError
| ApiError (err : pystr)      (* raised by the OpenAI client; [err] is [str(e)] *)
| IOError (err : pystr).      (* raised by pdfplumber when a file cannot be read *)

(** The outcome of a call that returns or raises. *)
Inductive res (A : Type) :=
| Ok (a : A)
| Raise (e : exn).
Arguments Ok {A} a.
Arguments Raise {A} e.

#[global] Instance res_bind : MBind res := fun A B k r =>
  match r with
  | Ok a => k a
  | Raise e => Raise e
  end.

(** The part of the Unicode database the code consults: [str.isalnum] and
    [str.isdigit] on one character, [str.lower] on a string. Of
    [str.lower] only this is assumed: an ASCII prefix is lowered
    character by character, whatever follows it. *)
Class Unicode := {
  isalnum : char -> bool;
  isdigit : char -> bool;
  lower : pystr -> pystr;
  lower_ascii_prefix : forall p s : pystr,
    forallb is_ascii p = true ->
    exists t, lower (p ++ s) = List.map ascii_lower p ++ t;
}.

(** [uuid.uuid4()]: the n-th identifier drawn. *)
Class UuidSource := { uuid4 : nat -> pystr }.

(** A pdfplumber table: rows of cells, a cell may be [None]. *)
Definition Table := list (list (option pystr)).

(** A pdfplumber page: what [extract_text()] returns ([None] for a page
    without text) and what [extract_tables()] returns ([None] when the
    call raises). *)
Record Page := {
  extract_text : option pystr;
  extract_tables : option (list Table);
}.

(** The files: [pdfplumber.open(path).pages], and the texts that
    [pytesseract.image_to_string] reads from the images
    [convert_from_path(path, dpi=200)] renders. Either call may raise. *)
Class PdfFiles := {
  pdfplumber_open : pystr -> res (list Page);
  ocr_texts : pystr -> res (list pystr);
}.

(** A decoded JSON document, as [json.loads] builds it: a dict keeps its
    keys in insertion order. The type also serves for the Python values
    the pipeline passes around (chunk dicts, classifier verdicts). *)
Inductive json :=
| JNull
| JBool (b : bool)
| JInt (n : Z)
| JFloat (literal : pystr)
| JStr (s : pystr)
| JList (l : list json)
| JDict (d : list (pystr * json)).

(** [json.loads(s)]; [None] when it raises. *)
Class JsonDecoder := { json_loads : pystr -> option json }.

(** [key in d], [d[key]] and [d[key] = v] on a dict. *)
Fixpoint dict_get (d : list (pystr * json)) (key : pystr) : option json :=
  match d with
  | [] => None
  | (k, v) :: d' => if pystr_eqb k key then Some v else dict_get d' key
  end.
Definition dict_has (d : list (pystr * json)) (key : pystr) : bool :=
  match dict_get d key with Some _ => true | None => false end.
Fixpoint dict_set (d : list (pystr * json)) (key : pystr) (v : json)
  : list (pystr * json) :=
  match d with
  | [] => [(key, v)]
  | (k, w) :: d' =>
      if pystr_eqb k key then (k, v) :: d' else (k, w) :: dict_set d' key v
  end.

(** The OpenAI endpoint: what [client.responses.create(model, input)]
    does at the given attempt (counted from 0) of one [ask_llm] call on
    the given prompt: it returns a response with this [output_text], or
    raises an exception [e] with this [str(e)]. *)
Inductive create_outcome :=
| Response (output_text : pystr)
| Fails (err : pystr).
Class OpenAIClient := { responses_create : pystr -> nat -> create_outcome }.

(** The texts of [etl/prompts.py]. *)
Class Prompts := {
  PDF_CLASSIFICATION_PROMPT : pystr;
  CONSTRUCTION_PROCESS_PROMPT : pystr;
  COSTING_EXTRACTION_PAGE_PROMPT : pystr;
  PROJECT_SCHEDULE_PROMPT : pystr;
  REGULATORY_RULES_PROMPT : pystr;
}.

(** [concurrent.futures.as_completed]: the futures in the order in which
    they complete, which is some rearrangement of the submitted ones. *)
Class ThreadPool := {
  as_completed : forall {A : Type}, list A -> list A;
  as_completed_perm : forall (A : Type) (l : list A), as_completed l ≡ₚ l;
}.

(** The embedding endpoint ([OpenAIEmbeddings.embed_documents]). *)
Class Embeddings := {
  vector : Type;
  embed_documents : list json -> list vector;
}.

(** ** etl/pdf_chunking.py *)

Module pdf_chunking.

(** The metadata dict built in [chunk_page_text]. *)
Record Metadata := {
  pdf_type : pystr;
  page_number : Z;
  local_chunk_index : Z;
  global_chunk_index : Z;
}.

(** The chunk dict built by [make_chunk]. *)
Record Chunk := {
  id : pystr;
  text : pystr;
  metadata : Metadata;
}.

Section chunking.
Context `{!Unicode, !UuidSource}.

(** [make_chunk(text, metadata)]; [u] counts the identifiers drawn so
    far. The metadata dict is never empty, so [metadata or {}] is
    [metadata]. *)
Definition make_chunk (u : nat) (text : pystr) (metadata : Metadata)
  : Chunk * nat :=
  ({| id := uuid4 u; text := strip text; metadata := metadata |}, S u).

Definition clean_cell (cell : option pystr) : pystr :=
  strip (replace (default [] cell) NL (str " ")).

(** [for idx, row in enumerate(cleaned): if any(cell for cell in row):
    header_idx = idx; break] *)
Fixpoint first_nonempty_row (idx : nat) (rows : list (list pystr)) : nat :=
  match rows with
  | [] => O
  | row :: rows' =>
      if existsb (fun cell => negb (pystr_eqb cell [])) row then idx
      else first_nonempty_row (S idx) rows'
  end.

Definition md_line (row : list pystr) : pystr :=
  str "| " ++ join (str " | ") row ++ str " |".

(** [table_to_markdown(table)] *)
Definition table_to_markdown (table : Table) : pystr :=
  match table with
  | [] => []
  | _ =>
      let cleaned := List.map (List.map clean_cell) table in
      let header_idx := first_nonempty_row O cleaned in
      let header := nth header_idx cleaned [] in
      let body := drop (S header_idx) cleaned in
      let max_cols := list_max (List.map (@length pystr) cleaned) in
      let norm r := r ++ repeat [] (max_cols - length r)%nat in
      let header := norm header in
      let body := List.map norm body in
      let lines :=
        [md_line header; md_line (repeat (str "---") (length header))]
        ++ List.map md_line body in
      join NL lines
  end.

(** The markdown of the tables of a page, numbered from [t_idx]. *)
Fixpoint md_tables_from (t_idx : Z) (page_number : Z) (tables : list Table)
  : list pystr :=
  match tables with
  | [] => []
  | tbl :: tables' =>
      let md := table_to_markdown tbl in
      let rest := md_tables_from (t_idx + 1) page_number tables' in
      match strip md with
      | [] => rest
      | _ =>
          (str "### Table " ++ str_of_int t_idx ++ str " (page "
           ++ str_of_int page_number ++ str ")" ++ NL
           ++ md) :: rest
      end
  end.

(** [extract_page_content(page, page_number, include_tables,
    max_text_chars)] *)
Definition extract_page_content (page : Page) (page_number : Z)
    (include_tables : bool) (max_text_chars : Z) : pystr :=
  let text := strip (default [] (extract_text page)) in
  let text :=
    if negb (max_text_chars =? 0) && (max_text_chars <? len text)
    then py_slice text 0 max_text_chars else text in
  let tables_markdown :=
    if include_tables then
      let tables := default [] (extract_tables page) in
      join (NL ++ NL) (md_tables_from 1 page_number tables)
    else [] in
  let parts :=
    (match text with [] => [] | _ => [text] end)
    ++ (match tables_markdown with [] => [] | _ => [tables_markdown] end) in
  strip (join (NL ++ NL) parts).

(** The [while start < len(words)] loop of [chunk_page_text]; one unit
    of fuel per iteration, [None] when the fuel runs out. *)
Fixpoint chunk_loop (fuel : nat) (words : list pystr) (pdf_type : pystr)
    (page_number chunk_size_words overlap_words : Z)
    (start local_index global_index : Z) (chunks : list Chunk) (u : nat)
  : option (list Chunk * nat) :=
  if start <? len words then
    match fuel with
    | O => None
    | S fuel' =>
        let end_ := Z.min (start + chunk_size_words) (len words) in
        let text_block := join (str " ") (py_slice words start end_) in
        let metadata :=
          {| pdf_type := pdf_type; page_number := page_number;
             local_chunk_index := local_index;
             global_chunk_index := global_index |} in
        let '(c, u) := make_chunk u text_block metadata in
        let chunks := chunks ++ [c] in
        let local_index := local_index + 1 in
        let global_index := global_index + 1 in
        if end_ =? len words then Some (chunks, u)
        else
          chunk_loop fuel' words pdf_type page_number chunk_size_words
            overlap_words (Z.max 0 (end_ - overlap_words))
            local_index global_index chunks u
    end
  else Some (chunks, u).

(** [chunk_page_text(page_text, pdf_type, page_number, chunk_size_words,
    overlap_words, global_chunk_start_index)] *)
Definition chunk_page_text (fuel : nat) (page_text pdf_type : pystr)
    (page_number chunk_size_words overlap_words
       global_chunk_start_index : Z) (u : nat)
  : option (list Chunk * nat) :=
  let words := split page_text in
  match words with
  | [] => Some ([], u)
  | _ =>
      chunk_loop fuel words pdf_type page_number chunk_size_words
        overlap_words 0 0 global_chunk_start_index [] u
  end.

(** The [for page_idx, page in enumerate(pdf.pages, start=1)] loop of
    [chunk_pdf]. *)
Fixpoint chunk_pages (fuel : nat) (pages : list Page) (page_idx : Z)
    (pdf_type : pystr) (chunk_size_words overlap_words : Z)
    (include_tables : bool) (chunks : list Chunk)
    (global_chunk_index : Z) (u : nat) : option (list Chunk * nat) :=
  match pages with
  | [] => Some (chunks, u)
  | page :: pages' =>
      let page_text :=
        extract_page_content page page_idx include_tables 8000 in
      if negb (existsb isalnum page_text) then
        chunk_pages fuel pages' (page_idx + 1) pdf_type chunk_size_words
          overlap_words include_tables chunks global_chunk_index u
      else
        match chunk_page_text fuel page_text pdf_type page_idx
                chunk_size_words overlap_words global_chunk_index u with
        | None => None
        | Some (page_chunks, u) =>
            chunk_pages fuel pages' (page_idx + 1) pdf_type
              chunk_size_words overlap_words include_tables
              (chunks ++ page_chunks)
              (global_chunk_index + len page_chunks) u
        end
  end.

(** [chunk_pdf(pdf_path, pdf_type, chunk_size_words, overlap_words,
    include_tables)] on the pages of the opened PDF. *)
Definition chunk_pdf (fuel : nat) (pages : list Page) (pdf_type : pystr)
    (chunk_size_words overlap_words : Z) (include_tables : bool)
    (u : nat) : option (list Chunk * nat) :=
  chunk_pages fuel pages 1 pdf_type chunk_size_words overlap_words
    include_tables [] 0 u.

(** [chunk_document]: the same call. *)
Definition chunk_document := chunk_pdf.

End chunking.

End pdf_chunking.

(** ** etl/llm_client.py *)

Module llm_client.

Definition PRIMARY_MODEL : pystr := str "gpt-4.1".

Section llm.
Context `{!Unicode, !OpenAIClient}.

(** The test on [err = str(e)] that decides a retry. *)
Definition is_transient (err : pystr) : bool :=
  contains err (str "429") || contains err (str "503")
  || contains (lower err) (str "rate limit")
  || contains (lower err) (str "temporarily").

(** [for attempt in range(max_retries)], from [attempt] on with
    [remaining] iterations left. Returns the outcome and the waits
    passed to [time.sleep], in order. *)
Fixpoint ask_llm_from (prompt : pystr) (remaining : nat) (attempt : Z)
  : res pystr * list Z :=
  match remaining with
  | O => (Raise RuntimeError, [])
  | S remaining' =>
      match responses_create prompt (Z.to_nat attempt) with
      | Response output_text => (Ok output_text, [])
      | Fails err =>
          if is_transient err then
            let wait := Z.min (2 ^ attempt) 15 in
            let '(r, sleeps) :=
              ask_llm_from prompt remaining' (attempt + 1) in
            (r, wait :: sleeps)
          else (Raise (ApiError err), [])
      end
  end.

(** [ask_llm(prompt, max_retries)] with its sleeps. *)
Definition ask_llm_trace (prompt : pystr) (max_retries : Z)
  : res pystr * list Z :=
  ask_llm_from prompt (Z.to_nat max_retries) 0.

(** [ask_llm(prompt, max_retries)] *)
Definition ask_llm (prompt : pystr) (max_retries : Z) : res pystr :=
  fst (ask_llm_trace prompt max_retries).

End llm.

End llm_client.

(** ** etl/pdf_classifier.py *)

Module pdf_classifier.
Import llm_client.

(** [re.sub(r"[ ]{2,}", " ", text)] *)
Fixpoint squeeze_spaces (s : pystr) : pystr :=
  match s with
  | [] => []
  | c :: s' =>
      match s' with
      | c' :: _ =>
          if (c =? 32)%N && (c' =? 32)%N then squeeze_spaces s'
          else c :: squeeze_spaces s'
      | [] => [c]
      end
  end.

(** [re.sub(r"\n{3,}", "\n\n", text)] *)
Fixpoint squeeze_newlines (s : pystr) : pystr :=
  match s with
  | [] => []
  | c :: s' =>
      match s' with
      | c' :: c'' :: _ =>
          if (c =? 10)%N && (c' =? 10)%N && (c'' =? 10)%N
          then squeeze_newlines s'
          else c :: squeeze_newlines s'
      | _ => c :: squeeze_newlines s'
      end
  end.

(** [clean_text(text)] *)
Definition clean_text (text : pystr) : pystr :=
  let text := replace text [0%N] [] in
  let text := squeeze_spaces text in
  let text := squeeze_newlines text in
  strip text.

Section classifier.
Context `{!Unicode, !OpenAIClient, !PdfFiles, !JsonDecoder, !Prompts}.

Definition MAX_CHARS : Z := 25000.

(** [extract_text(pdf_path)] *)
Definition extract_text_of (pdf_path : pystr) : pystr :=
  let extracted :=
    match pdfplumber_open pdf_path with
    | Ok pages =>
        strip (join NL
                 (List.map (fun p => default [] (extract_text p)) pages))
    | Raise _ => []
    end in
  let extracted :=
    if len extracted <? 100 then
      match ocr_texts pdf_path with
      | Ok texts => strip (join NL texts)
      | Raise _ => extracted
      end
    else extracted in
  let extracted := clean_text extracted in
  if MAX_CHARS <? len extracted
  then py_slice extracted 0 MAX_CHARS
       ++ NL ++ str "...[TRUNCATED]..."
  else extracted.

(** [classify_pdf(pdf_path)] *)
Definition classify_pdf (pdf_path : pystr) : res pystr :=
  let content := extract_text_of pdf_path in
  let prompt :=
    replace PDF_CLASSIFICATION_PROMPT (str "{{CONTENT}}") content in
  ask_llm prompt 6.

(** The cleaning of the raw response in [detect_pdf_type]. *)
Definition clean_response (raw_json : pystr) : pystr :=
  let cleaned := strip (strip_chars (str "```") (strip raw_json)) in
  strip (replace cleaned (str "json") []).

(** [detect_pdf_type] from the raw response on. *)
Definition parse_response (raw_json : pystr) : res json :=
  match json_loads (clean_response raw_json) with
  | Some parsed => Ok parsed
  | None => Raise JSONDecodeError
  end.

(** [detect_pdf_type(pdf_path)] *)
Definition detect_pdf_type (pdf_path : pystr) : res json :=
  raw_json ← classify_pdf pdf_path;
  parse_response raw_json.

End classifier.

End pdf_classifier.

(** ** etl/pdf_extractor.py *)

Module pdf_extractor.
Import llm_client.

Definition MAX_DOC_WORKERS : Z := 4.
Definition MAX_PAGE_WORKERS : Z := 4.

(** The dict returned by [extract_page_content]. *)
Record PageInfo := {
  page_number : Z;
  text : pystr;
  tables_markdown : pystr;
}.

(** The dict returned by [process_single_pdf]. *)
Record Extraction := {
  filename : pystr;
  pdf_type : pystr;
  classifier_info : json;
  structured_data : list json;
}.

(** [table_to_markdown]: the function of [pdf_chunking.py], defined
    again in this file with the same body. *)
Definition table_to_markdown := pdf_chunking.table_to_markdown.

(** The markdown of the tables of a page, numbered from [t_idx]. *)
Fixpoint md_tables_from (t_idx : Z) (tables : list Table) : list pystr :=
  match tables with
  | [] => []
  | tbl :: tables' =>
      let md := table_to_markdown tbl in
      let rest := md_tables_from (t_idx + 1) tables' in
      match strip md with
      | [] => rest
      | _ => (str "### Table " ++ str_of_int t_idx ++ NL ++ md) :: rest
      end
  end.

(** [extract_page_content(page, page_number)] *)
Definition extract_page_content (page : Page) (page_number : Z) : PageInfo :=
  let text := strip (default [] (extract_text page)) in
  let text := if 6000 <? len text then py_slice text 0 6000 else text in
  let tables := default [] (extract_tables page) in
  let md_tables := md_tables_from 1 tables in
  {| page_number := page_number;
     text := text;
     tables_markdown := join (NL ++ NL) md_tables |}.

(** [os.path.basename(path)] *)
Definition basename (path : pystr) : pystr :=
  match rfind path (str "/") with
  | Some i => py_slice_from path (i + 1)
  | None => path
  end.

Section extractor.
Context `{!Unicode, !OpenAIClient, !PdfFiles, !JsonDecoder, !Prompts,
          !ThreadPool}.

(** [PROMPT_MAP] *)
Definition PROMPT_MAP : list (pystr * pystr) :=
  [ (str "construction_process", CONSTRUCTION_PROCESS_PROMPT);
    (str "construction_costing", COSTING_EXTRACTION_PAGE_PROMPT);
    (str "project_schedule", PROJECT_SCHEDULE_PROMPT);
    (str "ura_circular", REGULATORY_RULES_PROMPT) ].

Fixpoint prompt_for (m : list (pystr * pystr)) (key : pystr)
  : option pystr :=
  match m with
  | [] => None
  | (k, v) :: m' => if pystr_eqb k key then Some v else prompt_for m' key
  end.

(** The text [safe_json_loads] hands to the first [json.loads]. *)
Definition strip_fences (raw : pystr) : pystr :=
  let s := strip raw in
  if startswith s (str "```") then
    let s := strip_chars (str "`") s in
    if startswith (lower s) (str "json") then lstrip (py_slice_from s 4)
    else s
  else s.

(** The substring from the first '[' to the last ']'; [None] where
    [s.index] or [s.rindex] raises. *)
Definition bracket_snippet (s : pystr) : option pystr :=
  match find s (str "[") with
  | None => None
  | Some start =>
      match rfind s (str "]") with
      | None => None
      | Some end_ => Some (py_slice s start (end_ + 1))
      end
  end.

(** [safe_json_loads(raw)] on the text an LLM call returned. *)
Definition safe_json_loads (raw : pystr) : json :=
  let s := strip_fences raw in
  match json_loads s with
  | Some v => v
  | None =>
      match bracket_snippet s with
      | Some snippet =>
          match json_loads snippet with
          | Some v => v
          | None => JList []
          end
      | None => JList []
      end
  end.

(** The prompt of one page. *)
Definition build_prompt (pdf_type prompt_template : pystr)
    (page_info : PageInfo) : pystr :=
  if pystr_eqb pdf_type (str "construction_costing") then
    replace
      (replace
         (replace prompt_template (str "{{PAGE_NUMBER}}")
            (str_of_int (page_number page_info)))
         (str "{{PAGE_TEXT}}") (text page_info))
      (str "{{PAGE_TABLES}}") (tables_markdown page_info)
  else
    let content_blocks :=
      [str "Page number: " ++ str_of_int (page_number page_info)]
      ++ (match text page_info with
          | [] => []
          | t => [str "PAGE TEXT:" ++ NL ++ t]
          end)
      ++ (match tables_markdown page_info with
          | [] => []
          | t => [str "PAGE TABLES (markdown):" ++ NL ++ t]
          end) in
    let page_block := join (NL ++ NL) content_blocks in
    strip prompt_template ++ NL ++ NL ++ page_block.

(** The tagging of one parsed object with its page number. *)
Definition tag_page (page_number : Z) (obj : json) : json :=
  match obj with
  | JDict d =>
      if dict_has d (str "page_number") then obj
      else JDict (dict_set d (str "page_number") (JInt page_number))
  | _ => obj
  end.

(** [_process_page_with_llm(pdf_type, prompt_template, page_info)] *)
Definition _process_page_with_llm (pdf_type prompt_template : pystr)
    (page_info : PageInfo) : res (Z * list json) :=
  let page_number := page_number page_info in
  let prompt := build_prompt pdf_type prompt_template page_info in
  llm_raw ← ask_llm prompt 6;
  match safe_json_loads llm_raw with
  | JList page_results =>
      let page_results :=
        if existsb (pystr_eqb pdf_type)
             [str "construction_process"; str "project_schedule";
              str "ura_circular"]
        then List.map (tag_page page_number) page_results
        else page_results in
      Ok (page_number, page_results)
  | _ => Ok (page_number, [])
  end.

(** The page filter of [process_single_pdf]: the pages handed to the
    LLM, numbered from [page_index]. *)
Fixpoint select_pages (pdf_type : pystr) (page_index : Z)
    (pages : list Page) : list PageInfo :=
  match pages with
  | [] => []
  | page :: pages' =>
      let page_info := extract_page_content page page_index in
      let rest := select_pages pdf_type (page_index + 1) pages' in
      let text := text page_info in
      let tables_md := tables_markdown page_info in
      if pystr_eqb text [] && pystr_eqb tables_md [] then rest
      else if pystr_eqb pdf_type (str "construction_costing")
              && negb (existsb isdigit (text ++ tables_md)) then rest
      else page_info :: rest
  end.

(** The loop over [as_completed(future_to_page)]: each completed
    future stores its result, or a default empty list when it
    raised. *)
Definition collect_page (pdf_type prompt_template : pystr)
    (all_results_by_page : gmap Z (list json)) (page_info : PageInfo)
  : gmap Z (list json) :=
  match _process_page_with_llm pdf_type prompt_template page_info with
  | Ok (pn, items) => <[pn := items]> all_results_by_page
  | Raise _ =>
      match all_results_by_page !! page_number page_info with
      | Some _ => all_results_by_page
      | None => <[page_number page_info := []]> all_results_by_page
      end
  end.

(** [sorted(all_results_by_page.keys())] *)
Definition sorted_keys (m : gmap Z (list json)) : list Z :=
  merge_sort Z.le (map_to_list m).*1.

(** The flattening in page order. *)
Definition flatten (all_results_by_page : gmap Z (list json))
  : list json :=
  flat_map (fun pn => default [] (all_results_by_page !! pn))
    (sorted_keys all_results_by_page).

(** [classifier["pdf_type"]] followed by the [PROMPT_MAP] lookup. *)
Definition lookup_template (classifier : json) : res (pystr * pystr) :=
  match classifier with
  | JDict d =>
      match dict_get d (str "pdf_type") with
      | None => Raise KeyError
      | Some (JStr pdf_type) =>
          match prompt_for PROMPT_MAP pdf_type with
          | Some prompt_template => Ok (pdf_type, prompt_template)
          | None => Raise ValueError
          end
      | Some (JList _) | Some (JDict _) => Raise TypeError
      | Some _ => Raise ValueError
      end
  | _ => Raise TypeError
  end.

(** [process_single_pdf(pdf_path, classifier)] *)
Definition process_single_pdf (pdf_path : pystr) (classifier : json)
  : res Extraction :=
  '(pdf_type, prompt_template) ← lookup_template classifier;
  pages ← pdfplumber_open pdf_path;
  let pages_to_process := select_pages pdf_type 1 pages in
  structured ←
    match pages_to_process with
    | [] => Ok []
    | [page_info] =>
        '(page_number, items) ←
          _process_page_with_llm pdf_type prompt_template page_info;
        Ok (flatten (<[page_number := items]> ∅))
    | _ =>
        let all_results_by_page :=
          fold_left (collect_page pdf_type prompt_template)
            (as_completed pages_to_process) ∅ in
        Ok (flatten all_results_by_page)
    end;
  Ok {| filename := basename pdf_path;
        pdf_type := pdf_type;
        classifier_info := classifier;
        structured_data := structured |}.

(** The classification loop of [process_many_pdfs]. *)
Fixpoint classify_all (pdf_paths : list pystr)
  : res (list (pystr * json)) :=
  match pdf_paths with
  | [] => Ok []
  | path :: paths' =>
      classifier ← pdf_classifier.detect_pdf_type path;
      jobs ← classify_all paths';
      Ok ((path, classifier) :: jobs)
  end.

(** The loop over [as_completed(future_to_path)]: a result is
    appended, an exception is logged. *)
Definition collect_doc (results : list Extraction) (job : pystr * json)
  : list Extraction :=
  match process_single_pdf (fst job) (snd job) with
  | Ok r => results ++ [r]
  | Raise _ => results
  end.

(** [process_many_pdfs(pdf_paths)] *)
Definition process_many_pdfs (pdf_paths : list pystr)
  : res (list Extraction) :=
  jobs ← classify_all pdf_paths;
  match jobs with
  | [(path, classifier)] =>
      r ← process_single_pdf path classifier;
      Ok [r]
  | [] =>
      (* ThreadPoolExecutor(max_workers=0) *)
      Raise ValueError
  | _ => Ok (fold_left collect_doc (as_completed jobs) [])
  end.

End extractor.

End pdf_extractor.

(** ** The vector store *)

(** One [collection.add(ids, embeddings, documents, metadatas)] call. *)
Record ChromaAdd `{!Embeddings} := {
  ids : list json;
  embeddings : list vector;
  documents : list json;
  metadatas : list json;
}.

(** What a persistence call did: the texts of each embedding call, the
    [collection.add] calls, in order, and the chunk dicts as the call
    leaves them. *)
Record StoreTrace `{!Embeddings} := {
  embed_calls : list (list json);
  added : list ChromaAdd;
  chunks_after : list (list (pystr * json));
}.

(** ** pipelines/dlt_pipeline.py *)

Module dlt_pipeline.

Section persistence.
Context `{!UuidSource, !Embeddings}.

(** One iteration of [for c in chunks]: the chunk as the iteration
    leaves it, whether it is appended to [cleaned], and the number of
    identifiers drawn. [c["text"].strip()] raises on a text that is
    not a string. *)
Definition prepare_chunk (document_id : pystr) (c : list (pystr * json))
    (u : nat) : res (list (pystr * json) * bool * nat) :=
  let '(c, u) :=
    if dict_has c (str "id") then (c, u)
    else (dict_set c (str "id") (JStr (uuid4 u)), S u) in
  let c :=
    match dict_get c (str "metadata") with
    | Some (JDict _) => c
    | _ => dict_set c (str "metadata") (JDict [])
    end in
  let metadata :=
    match dict_get c (str "metadata") with
    | Some (JDict m) => m
    | _ => []
    end in
  let c :=
    dict_set c (str "metadata")
      (JDict (dict_set metadata (str "document_id") (JStr document_id))) in
  match dict_get c (str "text") with
  | None => Ok (c, false, u)
  | Some (JStr t) =>
      Ok (c, negb (pystr_eqb (strip t) []), u)
  | Some _ => Raise AttributeError
  end.

(** The loop [for c in chunks]: the chunks as mutated, and [cleaned]. *)
Fixpoint prepare_chunks (document_id : pystr)
    (chunks : list (list (pystr * json))) (u : nat)
  : res (list (list (pystr * json)) * list (list (pystr * json)) * nat) :=
  match chunks with
  | [] => Ok ([], [], u)
  | c :: chunks' =>
      '(c, keep, u) ← prepare_chunk document_id c u;
      '(after, cleaned, u) ← prepare_chunks document_id chunks' u;
      Ok (c :: after, if keep : bool then c :: cleaned else cleaned, u)
  end.

Definition field (key : pystr) (c : list (pystr * json)) : json :=
  default JNull (dict_get c key).

(** [store_chunks_in_chroma_with_doc_id(chunks, document_id)]; the
    vectors of the embedding endpoint are plain lists, which the
    [v.values] step leaves as they are. *)
Definition store_chunks_in_chroma_with_doc_id
    (chunks : list (list (pystr * json))) (document_id : pystr) (u : nat)
  : res (StoreTrace * nat) :=
  '(after, cleaned, u) ← prepare_chunks document_id chunks u;
  match cleaned with
  | [] =>
      Ok ({| embed_calls := []; added := []; chunks_after := after |}, u)
  | _ =>
      let ids := List.map (field (str "id")) cleaned in
      let texts := List.map (field (str "text")) cleaned in
      let metadatas := List.map (field (str "metadata")) cleaned in
      let vectors := embed_documents texts in
      Ok ({| embed_calls := [texts];
             added := [ {| ids := ids; embeddings := vectors;
                           documents := texts;
                           metadatas := metadatas |} ];
             chunks_after := after |}, u)
  end.

End persistence.

End dlt_pipeline.

(** ** etl/pdf_embedding.py *)

Module pdf_embedding.

(** [range(0, stop, step)] for [stop >= 0]; a zero step raises. *)
Definition range_from_0 (stop step : Z) : res (list Z) :=
  if step =? 0 then Raise ValueError
  else if step <? 0 then Ok []
  else Ok (List.map (fun k => Z.of_nat k * step)
             (seq 0 (Z.to_nat ((stop + step - 1) / step)))).

Section embedding.
Context `{!Embeddings}.

(** [c[key]] for each chunk; a missing key raises [KeyError]. *)
Fixpoint fields (key : pystr) (chunks : list (list (pystr * json)))
  : res (list json) :=
  match chunks with
  | [] => Ok []
  | c :: chunks' =>
      match dict_get c key with
      | None => Raise KeyError
      | Some v => vs ← fields key chunks'; Ok (v :: vs)
      end
  end.

(** The batched embedding loop: the texts of each call made and the
    vectors gathered. *)
Fixpoint embed_batches (texts : list json) (total batch_size : Z)
    (starts : list Z) : res (list (list json) * list vector) :=
  match starts with
  | [] => Ok ([], [])
  | start :: starts' =>
      let end_ := Z.min (start + batch_size) total in
      let batch_texts := py_slice texts start end_ in
      let batch_vectors := embed_documents batch_texts in
      if negb (len batch_vectors =? len batch_texts) then Raise ValueError
      else
        '(calls, all_vectors) ←
          embed_batches texts total batch_size starts';
        Ok (batch_texts :: calls, batch_vectors ++ all_vectors)
  end.

(** [store_chunks_in_chroma(chunks, collection_name, batch_size)];
    the trace and the ["stored"] count returned. *)
Definition store_chunks_in_chroma (chunks : list (list (pystr * json)))
    (batch_size : Z) : res (StoreTrace * Z) :=
  match chunks with
  | [] =>
      Ok ({| embed_calls := []; added := []; chunks_after := chunks |}, 0)
  | _ =>
      ids ← fields (str "id") chunks;
      texts ← fields (str "text") chunks;
      let metadatas :=
        List.map (fun c => default (JDict []) (dict_get c (str "metadata")))
          chunks in
      let total := len texts in
      starts ← range_from_0 total batch_size;
      '(calls, all_vectors) ← embed_batches texts total batch_size starts;
      Ok ({| embed_calls := calls;
             added := [ {| ids := ids; embeddings := all_vectors;
                           documents := texts;
                           metadatas := metadatas |} ];
             chunks_after := chunks |}, len chunks)
  end.

End embedding.

End pdf_embedding.

(** ** pipelines/dlt_pipeline.py: the relational side and the wrapper *)

Module dlt_pipeline_loader.

(** One [pipeline.run(rows, table_name=..., write_disposition=...)]
    call. *)
Record Run := {
  rows : list json;
  table_name : pystr;
  write_disposition : pystr;
}.

(** What a run does: it returns a load info with these [loads_ids], or
    it raises. *)
Inductive run_outcome :=
| Loaded (loads_ids : list pystr)
| RunFails (e : exn).

(** The dlt pipeline with its destination: what a run does after the
    runs made before it on the pipeline. *)
Class DltPipeline := { pipeline_run : list Run -> Run -> run_outcome }.

(** [datetime.utcnow().isoformat()] at the time of the call. *)
Class Clock := { utcnow_isoformat : pystr }.

(** The exceptions of this file: those of the ETL code and the
    [IndexError] of [loads_ids[0]]. *)
Inductive load_exn :=
| IndexError
| Other (e : exn).

(** The outcome of a call of this file. *)
Inductive outcome (A : Type) :=
| Returns (a : A)
| Raises (e : load_exn).
Arguments Returns {A} a.
Arguments Raises {A} e.

(** [isinstance(r, dict)] *)
Definition is_dict (r : json) : bool :=
  match r with
  | JDict _ => true
  | _ => false
  end.

(** [normalize_parsed_data(parsed_data)] *)
Definition normalize_parsed_data (parsed_data : json) : list json :=
  let parsed_data :=
    match parsed_data with
    | JDict d =>
        match dict_get d (str "structured_data") with
        | Some v => v
        | None => JList [parsed_data]
        end
    | _ => parsed_data
    end in
  let parsed_data :=
    match parsed_data with
    | JList l => l
    | _ => [parsed_data]
    end in
  List.filter is_dict parsed_data.

(** [r.get(key)] and [r.get(key, default)]; on a value that is not a
    dict the attribute does not exist. *)
Definition get_default (r : json) (key : pystr) (default_ : json)
  : res json :=
  match r with
  | JDict d => Ok (default default_ (dict_get d key))
  | _ => Raise AttributeError
  end.
Definition get (r : json) (key : pystr) : res json := get_default r key JNull.

(** The elements a [for] loop goes through: those of a list, the
    characters of a string, the keys of a dict; any other value is not
    iterable. *)
Definition iterate (v : json) : res (list json) :=
  match v with
  | JList l => Ok l
  | JStr s => Ok (List.map (fun c => JStr [c]) s)
  | JDict d => Ok (List.map (fun kv => JStr kv.1) d)
  | _ => Raise TypeError
  end.

(** The row of one cost item; [None] for an item that is skipped. *)
Definition cost_row (document_id : pystr) (item : json) : option json :=
  match item with
  | JDict d =>
      let get_ key := default JNull (dict_get d key) in
      Some (JDict [ (str "document_id", JStr document_id);
                    (str "item_name", get_ (str "item_name"));
                    (str "quantity", get_ (str "quantity"));
                    (str "unit_price_yen", get_ (str "unit_price"));
                    (str "total_cost_yen", get_ (str "total_cost"));
                    (str "cost_type", get_ (str "cost_type")) ])
  | _ => None
  end.

(** The loops [for block in parsed_data: for item in
    block.get("items", [])] of the costing branch. *)
Fixpoint cost_rows (document_id : pystr) (parsed_data : list json)
  : res (list json) :=
  match parsed_data with
  | [] => Ok []
  | block :: parsed_data' =>
      items ← get_default block (str "items") (JList []);
      items ← iterate items;
      rows ← cost_rows document_id parsed_data';
      Ok (omap (cost_row document_id) items ++ rows)
  end.

(** The loop [for t in parsed_data] of the schedule branch. *)
Fixpoint task_rows (document_id : pystr) (parsed_data : list json)
  : res (list json) :=
  match parsed_data with
  | [] => Ok []
  | t :: parsed_data' =>
      task_name ← get t (str "task_name");
      duration_days ← get t (str "duration_days");
      start_date ← get t (str "start_date");
      finish_date ← get t (str "finish_date");
      rows ← task_rows document_id parsed_data';
      Ok (JDict [ (str "document_id", JStr document_id);
                  (str "task_name", task_name);
                  (str "duration_days", duration_days);
                  (str "start_date", start_date);
                  (str "finish_date", finish_date) ] :: rows)
  end.

(** The loop [for r in parsed_data] of the circular branch. *)
Fixpoint rule_rows (document_id : pystr) (parsed_data : list json)
  : res (list json) :=
  match parsed_data with
  | [] => Ok []
  | r :: parsed_data' =>
      rule_summary ← get r (str "rule_summary");
      measurement_basis ← get r (str "measurement_basis");
      rows ← rule_rows document_id parsed_data';
      Ok (JDict [ (str "document_id", JStr document_id);
                  (str "rule_summary", rule_summary);
                  (str "measurement_basis", measurement_basis) ] :: rows)
  end.

(** What [load_document_into_system] did: the runs of the pipeline, in
    order, and what was done on the vector store ([None] when that
    step was not reached or raised before it embedded anything). *)
Record SystemTrace `{!Embeddings} := {
  runs : list Run;
  chroma : option StoreTrace;
}.

Section loader.
Context `{!UuidSource, !Embeddings, !DltPipeline, !Clock}.

(** [pipeline.run(rows, table_name=table, write_disposition="append")]
    after the runs [log]; the run is logged, whether it raises or
    not. *)
Definition run (log : list Run) (rows : list json) (table : pystr)
  : outcome (list pystr) * list Run :=
  let r := {| rows := rows; table_name := table;
              write_disposition := str "append" |} in
  (match pipeline_run log r with
   | Loaded loads_ids => Returns loads_ids
   | RunFails e => Raises (Other e)
   end, log ++ [r]).

(** [load_document_record(pipeline, pdf_name, pdf_type)] *)
Definition load_document_record (log : list Run) (pdf_name pdf_type : pystr)
  : outcome pystr * list Run :=
  let rows :=
    [ JDict [ (str "pdf_name", JStr pdf_name);
              (str "pdf_type", JStr pdf_type);
              (str "created_at", JStr utcnow_isoformat) ] ] in
  let '(load_info, log) := run log rows (str "documents_master") in
  match load_info with
  | Raises e => (Raises e, log)
  | Returns [] => (Raises IndexError, log)
  | Returns (document_id :: _) => (Returns document_id, log)
  end.

(** [if rows: pipeline.run(rows, table_name=table,
    write_disposition="append")] *)
Definition run_rows (log : list Run) (rows : res (list json))
    (table : pystr) : outcome unit * list Run :=
  match rows with
  | Raise e => (Raises (Other e), log)
  | Ok [] => (Returns tt, log)
  | Ok rows =>
      let '(load_info, log) := run log rows table in
      (match load_info with
       | Returns _ => Returns tt
       | Raises e => Raises e
       end, log)
  end.

(** [load_structured_data(pipeline, pdf_type, document_id,
    parsed_data)] *)
Definition load_structured_data (log : list Run)
    (pdf_type document_id : pystr) (parsed_data : json)
  : outcome unit * list Run :=
  let parsed_data := normalize_parsed_data parsed_data in
  if pystr_eqb pdf_type (str "construction_costing") then
    run_rows log (cost_rows document_id parsed_data) (str "cost_items")
  else if pystr_eqb pdf_type (str "project_schedule") then
    run_rows log (task_rows document_id parsed_data) (str "project_tasks")
  else if pystr_eqb pdf_type (str "ura_circular") then
    run_rows log (rule_rows document_id parsed_data)
      (str "regulatory_rules")
  else (Returns tt, log).

(** [load_document_into_system(pdf_name, pdf_type, parsed_data,
    chunks)]; [get_dlt_pipeline()] gives a pipeline without runs. *)
Definition load_document_into_system (pdf_name pdf_type : pystr)
    (parsed_data : json) (chunks : list (list (pystr * json))) (u : nat)
  : outcome pystr * SystemTrace * nat :=
  let '(r, log) := load_document_record [] pdf_name pdf_type in
  match r with
  | Raises e => (Raises e, {| runs := log; chroma := None |}, u)
  | Returns document_id =>
      let '(r, log) :=
        load_structured_data log pdf_type document_id parsed_data in
      match r with
      | Raises e => (Raises e, {| runs := log; chroma := None |}, u)
      | Returns _ =>
          match dlt_pipeline.store_chunks_in_chroma_with_doc_id chunks
                  document_id u with
          | Raise e =>
              (Raises (Other e), {| runs := log; chroma := None |}, u)
          | Ok (trace, u) =>
              (Returns document_id,
               {| runs := log; chroma := Some trace |}, u)
          end
      end
  end.

End loader.

End dlt_pipeline_loader.

(** ** pipelines/prefect_pdf_flow.py *)

Module prefect_pdf_flow.
Import dlt_pipeline_loader.

(** The dict [process_single_pdf] returns, as a value. *)
Definition extraction_dict (r : pdf_extractor.Extraction) : json :=
  JDict [ (str "filename", JStr (pdf_extractor.filename r));
          (str "pdf_type", JStr (pdf_extractor.pdf_type r));
          (str "classifier_info", pdf_extractor.classifier_info r);
          (str "structured_data", JList (pdf_extractor.structured_data r)) ].

(** The dict [make_chunk] returns, as a value. *)
Definition chunk_dict (c : pdf_chunking.Chunk) : list (pystr * json) :=
  let m := pdf_chunking.metadata c in
  [ (str "id", JStr (pdf_chunking.id c));
    (str "text", JStr (pdf_chunking.text c));
    (str "metadata",
     JDict [ (str "pdf_type", JStr (pdf_chunking.pdf_type m));
             (str "page_number", JInt (pdf_chunking.page_number m));
             (str "local_chunk_index",
              JInt (pdf_chunking.local_chunk_index m));
             (str "global_chunk_index",
              JInt (pdf_chunking.global_chunk_index m)) ]) ].

(** [v[key]] for a string key: a missing key raises [KeyError], a value
    that is not a dict raises [TypeError]. *)
Definition subscript (v : json) (key : pystr) : res json :=
  match v with
  | JDict d =>
      match dict_get d key with
      | Some x => Ok x
      | None => Raise KeyError
      end
  | _ => Raise TypeError
  end.

(** The normalisation at the start of [task_3_load]. *)
Definition task_3_normalize (parsed_data : json) : json :=
  let parsed_data :=
    match parsed_data with
    | JDict d =>
        match dict_get d (str "structured_data") with
        | Some v => v
        | None => JList [parsed_data]
        end
    | _ => parsed_data
    end in
  match parsed_data with
  | JList _ => parsed_data
  | _ => JList [parsed_data]
  end.

(** What a run of the flow did: its result, and what
    [load_document_into_system] did when it was reached. *)
Record FlowRun `{!Embeddings} := {
  result : outcome json;
  system : option SystemTrace;
}.

Section flow.
Context `{!Unicode, !UuidSource, !OpenAIClient, !PdfFiles, !JsonDecoder,
          !Prompts, !ThreadPool, !Embeddings, !DltPipeline, !Clock}.

(** [task_1_classify(pdf_path)] *)
Definition task_1_classify (pdf_path : pystr) : res json :=
  pdf_classifier.detect_pdf_type pdf_path.

(** [task_2_extract(pdf_path, classifier)] *)
Definition task_2_extract (pdf_path : pystr) (classifier : json)
  : res json :=
  pdf_type ← subscript classifier (str "pdf_type");
  parsed_output ← pdf_extractor.process_single_pdf pdf_path classifier;
  Ok (extraction_dict parsed_output).

(** [chunk_document(pdf_path, pdf_type)] with its default parameters,
    on the file at [pdf_path]. *)
Definition chunk_document_at (fuel : nat) (pdf_path pdf_type : pystr)
    (u : nat) : option (res (list pdf_chunking.Chunk * nat)) :=
  match pdfplumber_open pdf_path with
  | Raise e => Some (Raise e)
  | Ok pages =>
      match pdf_chunking.chunk_document fuel pages pdf_type 400 50 true u
      with
      | Some r => Some (Ok r)
      | None => None
      end
  end.

(** [task_3_load(pdf_path, pdf_type, parsed_data)] *)
Definition task_3_load (fuel : nat) (pdf_path pdf_type : pystr)
    (parsed_data : json) (u : nat) : option FlowRun :=
  let parsed_data := task_3_normalize parsed_data in
  match chunk_document_at fuel pdf_path pdf_type u with
  | None => None
  | Some (Raise e) =>
      Some {| result := Raises (Other e); system := None |}
  | Some (Ok (chunks, u)) =>
      let '(r, trace, _) :=
        load_document_into_system (pdf_extractor.basename pdf_path)
          pdf_type parsed_data (List.map chunk_dict chunks) u in
      Some {| result :=
                match r with
                | Returns document_id => Returns (JStr document_id)
                | Raises e => Raises e
                end;
              system := Some trace |}
  end.

(** [pdf_ingestion_flow(pdf_path)]; the tasks run in the flow, one
    after the other, and an exception of a task ends the flow. The
    [pdf_type] that reaches [task_3_load] is a string: for any other
    value [process_single_pdf] has raised before. *)
Definition pdf_ingestion_flow (fuel : nat) (pdf_path : pystr) (u : nat)
  : option FlowRun :=
  let before :=
    classifier ← task_1_classify pdf_path;
    parsed_data ← task_2_extract pdf_path classifier;
    pdf_type ← subscript classifier (str "pdf_type");
    Ok (pdf_type, parsed_data) in
  match before with
  | Raise e => Some {| result := Raises (Other e); system := None |}
  | Ok (JStr pdf_type, parsed_data) =>
      match task_3_load fuel pdf_path pdf_type parsed_data u with
      | None => None
      | Some run =>
          Some {| result :=
                    match result run with
                    | Returns document_id =>
                        Returns (JDict [(str "document_id", document_id)])
                    | Raises e => Raises e
                    end;
                  system := system run |}
      end
  | Ok _ => Some {| result := Raises (Other TypeError); system := None |}
  end.

End flow.

End prefect_pdf_flow.

(** ** Reference collaborators

    Concrete instances of the external collaborators, on which the
    embedding can be run: ASCII character classes, a decoder for a
    fragment of JSON, canned files and LLM endpoints. *)

Module Mock.

Definition is_ascii_digit (c : char) : bool := ((48 <=? c) && (c <=? 57))%N.
Definition is_ascii_alpha (c : char) : bool :=
  ((65 <=? c) && (c <=? 90) || (97 <=? c) && (c <=? 122))%N.

(** The Unicode database restricted to ASCII. *)
Definition unicode : Unicode :=
  {| isalnum c := is_ascii_alpha c || is_ascii_digit c;
     isdigit := is_ascii_digit;
     lower := List.map ascii_lower;
     lower_ascii_prefix := fun p s _ =>
       ex_intro _ (List.map ascii_lower s) (List.map_app ascii_lower p s) |}.

Definition uuids : UuidSource :=
  {| uuid4 n := str "uuid-" ++ str_of_int (Z.of_nat n) |}.

(** *** A decoder for a fragment of JSON

    [null], [true], [false], integers, strings (with the one-letter
    escapes), arrays and objects; a repeated key keeps its first
    position and its last value, as in a Python dict. Floats and
    [\u] escapes are outside the fragment and are refused. *)

Definition json_ws (c : char) : bool :=
  ((c =? 32) || (c =? 9) || (c =? 10) || (c =? 13))%N.
Definition skip_ws (s : pystr) : pystr := drop_while json_ws s.

(** The characters of a string literal after its opening quote. *)
Fixpoint parse_string (s : pystr) : option (pystr * pystr) :=
  match s with
  | [] => None
  | 34%N :: r => Some ([], r)
  | 92%N :: e :: r =>
      let unescaped :=
        if (e =? 34)%N then Some 34%N
        else if (e =? 92)%N then Some 92%N
        else if (e =? 47)%N then Some 47%N
        else if (e =? 98)%N then Some 8%N
        else if (e =? 102)%N then Some 12%N
        else if (e =? 110)%N then Some 10%N
        else if (e =? 114)%N then Some 13%N
        else if (e =? 116)%N then Some 9%N
        else None in
      match unescaped, parse_string r with
      | Some c, Some (t, r') => Some (c :: t, r')
      | _, _ => None
      end
  | c :: r =>
      if (c <? 32)%N then None
      else match parse_string r with
           | Some (t, r') => Some (c :: t, r')
           | None => None
           end
  end.

Fixpoint digits_value (acc : Z) (ds : pystr) : Z :=
  match ds with
  | [] => acc
  | d :: ds' => digits_value (10 * acc + (Z.of_N d - 48)) ds'
  end.

Fixpoint take_while {A} (p : A -> bool) (l : list A) : list A :=
  match l with
  | [] => []
  | x :: l' => if p x then x :: take_while p l' else []
  end.

(** An integer literal; a fraction or an exponent after it is refused. *)
Definition parse_int (s : pystr) : option (json * pystr) :=
  let '(neg, s) :=
    match s with
    | 45%N :: r => (true, r)
    | _ => (false, s)
    end in
  let ds := take_while is_ascii_digit s in
  let r := drop_while is_ascii_digit s in
  match ds with
  | [] => None
  | d :: ds' =>
      if (d =? 48)%N && negb (pystr_eqb ds' []) then None
      else
        match r with
        | c :: _ =>
            if (c =? 46)%N || (c =? 101)%N || (c =? 69)%N then None
            else Some (JInt (if neg then - digits_value 0 ds
                             else digits_value 0 ds), r)
        | [] => Some (JInt (if neg then - digits_value 0 ds
                            else digits_value 0 ds), r)
        end
  end.

Fixpoint parse_value (fuel : nat) (s : pystr) : option (json * pystr) :=
  match fuel with
  | O => None
  | S fuel' =>
      match skip_ws s with
      | 110%N :: 117%N :: 108%N :: 108%N :: r => Some (JNull, r)
      | 116%N :: 114%N :: 117%N :: 101%N :: r => Some (JBool true, r)
      | 102%N :: 97%N :: 108%N :: 115%N :: 101%N :: r =>
          Some (JBool false, r)
      | 34%N :: r =>
          match parse_string r with
          | Some (t, r') => Some (JStr t, r')
          | None => None
          end
      | 91%N :: r =>
          match skip_ws r with
          | 93%N :: r' => Some (JList [], r')
          | _ =>
              match parse_elements fuel' r with
              | Some (l, r') => Some (JList l, r')
              | None => None
              end
          end
      | 123%N :: r =>
          match skip_ws r with
          | 125%N :: r' => Some (JDict [], r')
          | _ =>
              match parse_members fuel' r with
              | Some (d, r') =>
                  Some (JDict (fold_left (fun d kv => dict_set d kv.1 kv.2)
                                 d []), r')
              | None => None
              end
          end
      | s' => parse_int s'
      end
  end
with parse_elements (fuel : nat) (s : pystr)
  : option (list json * pystr) :=
  match fuel with
  | O => None
  | S fuel' =>
      match parse_value fuel' s with
      | Some (v, r) =>
          match skip_ws r with
          | 44%N :: r' =>
              match parse_elements fuel' r' with
              | Some (l, r'') => Some (v :: l, r'')
              | None => None
              end
          | 93%N :: r' => Some ([v], r')
          | _ => None
          end
      | None => None
      end
  end
with parse_members (fuel : nat) (s : pystr)
  : option (list (pystr * json) * pystr) :=
  match fuel with
  | O => None
  | S fuel' =>
      match skip_ws s with
      | 34%N :: r =>
          match parse_string r with
          | Some (k, r1) =>
              match skip_ws r1 with
              | 58%N :: r2 =>
                  match parse_value fuel' r2 with
                  | Some (v, r3) =>
                      match skip_ws r3 with
                      | 44%N :: r4 =>
                          match parse_members fuel' r4 with
                          | Some (d, r5) => Some ((k, v) :: d, r5)
                          | None => None
                          end
                      | 125%N :: r4 => Some ([(k, v)], r4)
                      | _ => None
                      end
                  | None => None
                  end
              | _ => None
              end
          | None => None
          end
      | _ => None
      end
  end.

Definition loads (s : pystr) : option json :=
  match parse_value (2 * length s + 2) s with
  | Some (v, r) =>
      match skip_ws r with
      | [] => Some v
      | _ => None
      end
  | None => None
  end.

Definition json_decoder : JsonDecoder := {| json_loads := loads |}.

(** Short stand-ins for the prompt texts. *)
Definition prompts : Prompts :=
  {| PDF_CLASSIFICATION_PROMPT := str "Classify: {{CONTENT}}";
     CONSTRUCTION_PROCESS_PROMPT := str "Extract the process steps.";
     COSTING_EXTRACTION_PAGE_PROMPT :=
       str "Costs of page {{PAGE_NUMBER}}: {{PAGE_TEXT}} {{PAGE_TABLES}}";
     PROJECT_SCHEDULE_PROMPT := str "Extract the tasks.";
     REGULATORY_RULES_PROMPT := str "Extract the rules." |}.

(** A pool whose futures complete in the reverse of the submission
    order. *)
Definition reversing_pool : ThreadPool :=
  {| as_completed := fun A l => rev l;
     as_completed_perm := fun A l => Permutation_sym (Permutation_rev l) |}.

(** An embedding endpoint that returns one vector per text. *)
Definition embeddings : Embeddings :=
  {| vector := Z; embed_documents := List.map (fun _ => 0) |}.

(** An endpoint that returns the same text to every call. *)
Definition canned_client (output_text : pystr) : OpenAIClient :=
  {| responses_create := fun _ _ => Response output_text |}.

(** Files that all have the given pages; no OCR. *)
Definition files_with (pages : list Page) : PdfFiles :=
  {| pdfplumber_open := fun _ => Ok pages;
     ocr_texts := fun _ => Raise (IOError (str "no rasterizer")) |}.

(** A page with text only. *)
Definition text_page (s : string) : Page :=
  {| extract_text := Some (str s); extract_tables := Some [] |}.

(** A page without text and tables. *)
Definition blank_page : Page :=
  {| extract_text := None; extract_tables := Some [] |}.

End Mock.

(** * Properties *)

(** ** The chunker *)

Module chunking_properties.
Import pdf_chunking.

(** The least integer not below [a / b], for [b > 0]. *)
Definition ceil_div (a b : Z) : Z := - ((- a) / b).

Lemma ceil_div_spec a b q :
  0 < b -> (ceil_div a b = q <-> b * (q - 1) < a <= b * q).
Proof.
  intros Hb. unfold ceil_div. split.
  - intros <-. pose proof (Z.div_mod (- a) b ltac:(lia)).
    pose proof (Z.mod_pos_bound (- a) b Hb). nia.
  - intros [H1 H2]. assert ((- a) / b = - q) as ->; [|lia].
    symmetry. apply (Z.div_unique _ _ _ (b * q - a)); lia.
Qed.

Definition global_indices (chunks : list Chunk) : list Z :=
  List.map (fun c => global_chunk_index (metadata c)) chunks.
Definition local_indices (chunks : list Chunk) : list Z :=
  List.map (fun c => local_chunk_index (metadata c)) chunks.
Definition page_numbers (chunks : list Chunk) : list Z :=
  List.map (fun c => page_number (metadata c)) chunks.

(** The run [start, start + 1, ..., start + n - 1]. *)
Definition run (start : Z) (n : nat) : list Z :=
  List.map (fun i => start + Z.of_nat i) (seq 0 n).

Lemma run_S start n : run start (S n) = start :: run (start + 1) n.
Proof.
  unfold run. simpl. f_equal; [lia|].
  rewrite <- seq_shift, List.map_map. apply List.map_ext. intros; lia.
Qed.

Lemma run_app start n m :
  run start (n + m) = run start n ++ run (start + Z.of_nat n) m.
Proof.
  revert start. induction n as [|n IH]; intros start.
  - replace (start + Z.of_nat 0) with start by lia. reflexivity.
  - change (S n + m)%nat with (S (n + m)). rewrite !run_S, IH. simpl.
    do 3 f_equal. lia.
Qed.

Lemma len_snoc {A} (l : list A) (x : A) : len (l ++ [x]) = len l + 1.
Proof. unfold len. rewrite length_app. simpl. lia. Qed.

Lemma len_app {A} (l1 l2 : list A) : len (l1 ++ l2) = len l1 + len l2.
Proof. unfold len. rewrite length_app. lia. Qed.

Section with_env.
Context `{!Unicode, !UuidSource}.

(** What every finished run of the window loop produces: the chunks
    are appended to the ones already there, they all carry the page
    number, and their local and global indices count up by one from
    the values the loop was entered with. *)
Lemma chunk_loop_shape words pt pn size overlap :
  forall fuel start li gi acc u res u',
    chunk_loop fuel words pt pn size overlap start li gi acc u
      = Some (res, u') ->
    exists new,
      res = acc ++ new
      /\ u' = (u + length new)%nat
      /\ global_indices new = run gi (length new)
      /\ local_indices new = run li (length new)
      /\ Forall (fun c => page_number (metadata c) = pn) new.
Proof.
  induction fuel as [|fuel IH]; intros start li gi acc u res u' Hc;
    simpl in Hc; destruct (start <? len words) eqn:Hlt; try discriminate;
    try (inversion Hc; subst; exists []; rewrite app_nil_r;
         repeat split; simpl; auto; lia).
  destruct (Z.min (start + size) (len words) =? len words) eqn:Hend.
  - inversion Hc; subst. eexists [_].
    split; [reflexivity|]. split; [simpl; lia|].
    split; [unfold run; simpl; f_equal; lia|].
    split; [unfold run; simpl; f_equal; lia|]. repeat constructor.
  - apply IH in Hc as (new & -> & -> & Hg & Hl & Hp).
    eexists (_ :: new). rewrite <- app_assoc.
    split; [reflexivity|]. split; [simpl; lia|].
    split; [simpl; rewrite run_S; f_equal; exact Hg|].
    split; [simpl; rewrite run_S; f_equal; exact Hl|].
    constructor; [reflexivity | exact Hp].
Qed.

(** The number of windows for the default parameters. *)
Definition expected_count (n : Z) : Z :=
  if 400 <? n then ceil_div (n - 50) 350 else 1.

Lemma chunk_loop_default_count words pt pn :
  forall fuel start li gi acc u,
    0 <= start < len words ->
    len words - start <= Z.of_nat fuel ->
    exists res u',
      chunk_loop fuel words pt pn 400 50 start li gi acc u
        = Some (res, u')
      /\ len res = len acc + expected_count (len words - start).
Proof.
  induction fuel as [|fuel IH]; intros start li gi acc u Hs Hf; [lia|].
  simpl. destruct (Z.ltb_spec start (len words)) as [_|]; [|lia].
  destruct (Z.eqb_spec (Z.min (start + 400) (len words)) (len words))
    as [Hend|Hend].
  - do 2 eexists; split; [reflexivity|]. rewrite len_snoc.
    unfold expected_count.
    destruct (Z.ltb_spec 400 (len words - start)); lia.
  - assert (Hmin : Z.min (start + 400) (len words) = start + 400) by lia.
    rewrite Hmin.
    replace (Z.max 0 (start + 400 - 50)) with (start + 350) by lia.
    edestruct (IH (start + 350) (li + 1) (gi + 1)) as (res & u' & -> & Hlen);
      [lia | lia |].
    do 2 eexists; split; [reflexivity|]. rewrite Hlen, len_snoc.
    clear IH Hlen. unfold expected_count.
    destruct (Z.ltb_spec 400 (len words - start)); [|lia].
    destruct (Z.ltb_spec 400 (len words - (start + 350))).
    + assert (ceil_div (len words - start - 50) 350
              = 1 + ceil_div (len words - (start + 350) - 50) 350); [|lia].
      apply ceil_div_spec; [lia|].
      pose proof (proj1 (ceil_div_spec (len words - (start + 350) - 50)
                          350 _ ltac:(lia)) eq_refl). lia.
    + assert (ceil_div (len words - start - 50) 350 = 2); [|lia].
      apply ceil_div_spec; lia.
Qed.

(** C1: for a page text with at least one whitespace-separated word,
    [chunk_page_text] with [chunk_size_words = 400] and
    [overlap_words = 50] returns (given fuel for one iteration per
    word) exactly [ceil((n - 50) / 350)] chunks when the word count
    [n] exceeds 400 and exactly one chunk otherwise, and the
    [global_chunk_index] values of the chunks are the contiguous run
    that starts at [global_chunk_start_index]. *)
Theorem chunk_page_text_default_count
    (page_text pdf_type : pystr) (page_number start_index : Z)
    (u fuel : nat) :
  let n := len (split page_text) in
  0 < n ->
  n <= Z.of_nat fuel ->
  exists chunks u',
    chunk_page_text fuel page_text pdf_type page_number 400 50
      start_index u = Some (chunks, u')
    /\ len chunks = (if 400 <? n then ceil_div (n - 50) 350 else 1)
    /\ global_indices chunks = run start_index (length chunks).
Proof.
  intros n Hn Hf. unfold chunk_page_text. subst n.
  destruct (split page_text) as [|w ws] eqn:Hw;
    [unfold len in Hn; simpl in Hn; lia|].
  destruct (chunk_loop_default_count (w :: ws) pdf_type page_number
              fuel 0 0 start_index [] u) as (res & u' & Hrun & Hlen);
    [lia | lia |].
  exists res, u'. split; [exact Hrun|].
  apply chunk_loop_shape in Hrun as (new & -> & _ & Hg & _).
  simpl in *. split; [|exact Hg].
  rewrite Hlen. unfold expected_count. rewrite Z.sub_0_r. reflexivity.
Qed.

(** With [0 < chunk_size_words <= overlap_words] and more words than
    one window holds, the window never moves: the loop does not
    finish, whatever the fuel. *)
Lemma chunk_loop_stuck words pt pn size overlap :
  0 < size <= overlap -> size < len words ->
  forall fuel li gi acc u,
    chunk_loop fuel words pt pn size overlap 0 li gi acc u = None.
Proof.
  intros Hso Hn. induction fuel as [|fuel IH]; intros li gi acc u; simpl;
    destruct (Z.ltb_spec 0 (len words)); try lia; [reflexivity|].
  destruct (Z.eqb_spec (Z.min (0 + size) (len words)) (len words)); [lia|].
  replace (Z.max 0 (Z.min (0 + size) (len words) - overlap)) with 0 by lia.
  apply IH.
Qed.

(** C2 (the code at the failing input): on the two-word page ["a b"]
    with [chunk_size_words = 1] and [overlap_words = 1] the window
    loop of [chunk_page_text] never finishes: no amount of fuel
    yields a chunk list, and no error is raised. *)
Theorem chunk_page_text_overlap_eq_size_diverges
    (pdf_type : pystr) (page_number start_index : Z) (u fuel : nat) :
  chunk_page_text fuel (str "a b") pdf_type page_number 1 1
    start_index u = None.
Proof.
  unfold chunk_page_text.
  change (split (str "a b")) with [str "a"; str "b"].
  apply chunk_loop_stuck; unfold len; simpl; lia.
Qed.

(** With [overlap_words < chunk_size_words] the window moves forward
    by at least one word per iteration. *)
Lemma chunk_loop_total words pt pn size overlap :
  overlap < size ->
  forall fuel start li gi acc u,
    0 <= start ->
    len words - start <= Z.of_nat fuel ->
    exists res u',
      chunk_loop fuel words pt pn size overlap start li gi acc u
        = Some (res, u').
Proof.
  intros Hso.
  induction fuel as [|fuel IH]; intros start li gi acc u Hs Hf; simpl;
    destruct (Z.ltb_spec start (len words)); try lia; eauto.
  destruct (Z.eqb_spec (Z.min (start + size) (len words)) (len words));
    eauto.
  apply IH; lia.
Qed.

Lemma chunk_page_text_total page_text pt pn size overlap g u fuel :
  overlap < size ->
  len (split page_text) <= Z.of_nat fuel ->
  exists res u',
    chunk_page_text fuel page_text pt pn size overlap g u = Some (res, u').
Proof.
  intros Hso Hf. unfold chunk_page_text.
  destruct (split page_text) eqn:Hw; eauto.
  apply chunk_loop_total; auto; lia.
Qed.

(** What [chunk_page_text] returns, when it returns. *)
Lemma chunk_page_text_shape fuel page_text pt pn size overlap g u res u' :
  chunk_page_text fuel page_text pt pn size overlap g u = Some (res, u') ->
  global_indices res = run g (length res)
  /\ local_indices res = run 0 (length res)
  /\ Forall (fun c => page_number (metadata c) = pn) res.
Proof.
  unfold chunk_page_text. destruct (split page_text).
  - intros [= <- <-]. repeat split. constructor.
  - intros Hc. apply chunk_loop_shape in Hc as (new & -> & _ & Hg & Hl & Hp).
    auto.
Qed.

(** The chunks of page [p]. *)
Definition on_page (p : Z) (chunks : list Chunk) : list Chunk :=
  List.filter (fun c => page_number (metadata c) =? p) chunks.

Lemma on_page_app p l1 l2 :
  on_page p (l1 ++ l2) = on_page p l1 ++ on_page p l2.
Proof. apply List.filter_app. Qed.

Lemma on_page_all p l :
  Forall (fun c => page_number (metadata c) = p) l -> on_page p l = l.
Proof.
  induction 1 as [|c l Hc _ IH]; simpl; [reflexivity|].
  rewrite Hc, Z.eqb_refl. f_equal. exact IH.
Qed.

Lemma on_page_none p l :
  Forall (fun c => page_number (metadata c) <> p) l -> on_page p l = [].
Proof.
  induction 1 as [|c l Hc _ IH]; simpl; [reflexivity|].
  destruct (Z.eqb_spec (page_number (metadata c)) p); [contradiction|].
  exact IH.
Qed.

(** The text [chunk_pdf] chunks for the page at position [i] (from 0)
    of the document. *)
Definition page_text_at (include_tables : bool) (first_idx : Z)
    (i : nat) (page : Page) : pystr :=
  extract_page_content page (first_idx + Z.of_nat i) include_tables 8000.

(** The invariant of the page loop of [chunk_pdf], for the chunks
    [new] it appends while going through [pages], numbered from
    [idx], with the global counter at [g]. *)
Record pages_invariant (include_tables : bool) (pages : list Page)
    (idx g : Z) (new : list Chunk) : Prop := {
  inv_global : global_indices new = run g (length new);
  inv_from : Forall (fun c => idx <= page_number (metadata c)) new;
  inv_order : StronglySorted Z.le (page_numbers new);
  inv_local : forall p,
    local_indices (on_page p new) = run 0 (length (on_page p new));
  inv_empty : forall (i : nat) page,
    pages !! i = Some page ->
    existsb isalnum (page_text_at include_tables idx i page) = false ->
    on_page (idx + Z.of_nat i) new = [];
}.

Lemma page_numbers_app_sorted idx l1 l2 :
  Forall (fun c => page_number (metadata c) = idx) l1 ->
  Forall (fun c => idx + 1 <= page_number (metadata c)) l2 ->
  StronglySorted Z.le (page_numbers l2) ->
  StronglySorted Z.le (page_numbers (l1 ++ l2)).
Proof.
  intros H1 H2 Hs. induction H1 as [|c l Hc Hl IH]; simpl; [exact Hs|].
  constructor; [exact IH|].
  unfold page_numbers. rewrite List.map_app. apply Forall_app. split.
  - apply Forall_forall. intros x Hx. apply list_elem_of_In in Hx.
    apply in_map_iff in Hx as (c' & <- & Hin).
    rewrite Forall_forall in Hl. apply list_elem_of_In in Hin.
    specialize (Hl _ Hin). simpl in Hl. lia.
  - apply Forall_forall. intros x Hx. apply list_elem_of_In in Hx.
    apply in_map_iff in Hx as (c' & <- & Hin).
    rewrite Forall_forall in H2. apply list_elem_of_In in Hin.
    specialize (H2 _ Hin). simpl in H2. lia.
Qed.

Lemma chunk_pages_invariant pt size overlap incl fuel :
  forall pages idx acc g u res u',
    chunk_pages fuel pages idx pt size overlap incl acc g u
      = Some (res, u') ->
    exists new, res = acc ++ new /\ pages_invariant incl pages idx g new.
Proof.
  induction pages as [|page pages IH]; intros idx acc g u res u' Hc;
    simpl in Hc.
  - inversion Hc; subst. exists []. rewrite app_nil_r. split; [easy|].
    split; simpl; try constructor; try easy.
  - destruct (existsb isalnum (extract_page_content page idx incl 8000))
      eqn:Halnum; simpl in Hc.
    + destruct (chunk_page_text fuel _ pt idx size overlap g u)
        as [[page_chunks u1]|] eqn:Hp; [|discriminate].
      apply chunk_page_text_shape in Hp as (Hg & Hl & Hpn).
      apply IH in Hc as (new & -> & [Ig If Io Il Ie]).
      exists (page_chunks ++ new). rewrite app_assoc. split; [easy|].
      assert (Hnew : forall p, p <= idx ->
                Forall (fun c => page_number (metadata c) <> p) new).
      { intros p Hpi. eapply Forall_impl; [exact If|]. simpl. lia. }
      split.
      * unfold global_indices in *. rewrite List.map_app, length_app.
        rewrite run_app, Hg. f_equal. exact Ig.
      * apply Forall_app. split.
        -- eapply Forall_impl; [exact Hpn|]. simpl. lia.
        -- eapply Forall_impl; [exact If|]. simpl. lia.
      * apply (page_numbers_app_sorted idx); auto.
      * intros p. rewrite on_page_app.
        destruct (Z.eq_dec p idx) as [->|Hne].
        -- rewrite (on_page_none idx new) by (apply Hnew; lia).
           rewrite app_nil_r, on_page_all by exact Hpn. exact Hl.
        -- rewrite (on_page_none p page_chunks); [apply Il|].
           eapply Forall_impl; [exact Hpn|]. simpl. lia.
      * intros [|i] pg Hlook Hempty.
        -- simpl in Hlook. inversion Hlook; subst pg.
           unfold page_text_at in Hempty.
           replace (idx + Z.of_nat 0) with idx in Hempty by lia.
           congruence.
        -- simpl in Hlook. rewrite on_page_app.
           rewrite (on_page_none _ page_chunks).
           2:{ eapply Forall_impl; [exact Hpn|]. simpl. lia. }
           replace (idx + Z.of_nat (S i)) with (idx + 1 + Z.of_nat i)
             by lia.
           apply (Ie i pg Hlook). unfold page_text_at in *.
           replace (idx + 1 + Z.of_nat i) with (idx + Z.of_nat (S i))
             by lia. exact Hempty.
    + apply IH in Hc as (new & -> & [Ig If Io Il Ie]).
      exists new. split; [easy|]. split; auto.
      * eapply Forall_impl; [exact If|]. simpl. lia.
      * intros [|i] pg Hlook Hempty.
        -- apply on_page_none. eapply Forall_impl; [exact If|].
           simpl. lia.
        -- simpl in Hlook.
           replace (idx + Z.of_nat (S i)) with (idx + 1 + Z.of_nat i)
             by lia.
           apply (Ie i pg Hlook). unfold page_text_at in *.
           replace (idx + 1 + Z.of_nat i) with (idx + Z.of_nat (S i))
             by lia. exact Hempty.
Qed.

(** With [overlap_words < chunk_size_words], enough fuel for the
    longest page lets the page loop finish. *)
Lemma chunk_pages_total pt size overlap incl :
  overlap < size ->
  forall pages idx,
  exists fuel0, forall fuel acc g u,
    (fuel0 <= fuel)%nat ->
    exists res u',
      chunk_pages fuel pages idx pt size overlap incl acc g u
        = Some (res, u').
Proof.
  intros Hso. induction pages as [|page pages IH]; intros idx.
  - exists O. intros; simpl; eauto.
  - destruct (IH (idx + 1)) as (fuel1 & Hrest).
    set (words := split (extract_page_content page idx incl 8000)).
    exists (Nat.max (length words) fuel1). intros fuel acc g u Hfuel.
    simpl.
    destruct (existsb isalnum (extract_page_content page idx incl 8000));
      simpl.
    + destruct (chunk_page_text_total
                  (extract_page_content page idx incl 8000)
                  pt idx size overlap g u fuel Hso)
        as (pc & u1 & ->); [fold words; unfold len; lia|].
      apply Hrest. lia.
    + apply Hrest. lia.
Qed.

(** X28: when [chunk_pdf] returns, the [global_chunk_index] values of
    its chunks are 0, 1, 2, ... in the order of the list (strictly
    increasing, from 0, none repeated or skipped), the chunks come in
    page order, the [local_chunk_index] values of the chunks of each
    page are 0, 1, 2, ..., and a page whose extracted content, the
    string [extract_page_content] builds of its text and its tables
    with their generated headings, has no alphanumeric character
    contributes no chunk. With [overlap_words < chunk_size_words] it
    does return, given enough fuel. *)
Theorem chunk_pdf_indices (pages : list Page) (pdf_type : pystr)
    (chunk_size_words overlap_words : Z) (include_tables : bool) :
  (forall fuel u chunks u',
      chunk_pdf fuel pages pdf_type chunk_size_words overlap_words
        include_tables u = Some (chunks, u') ->
      global_indices chunks = run 0 (length chunks)
      /\ StronglySorted Z.le (page_numbers chunks)
      /\ (forall p,
            local_indices (on_page p chunks)
            = run 0 (length (on_page p chunks)))
      /\ (forall (i : nat) page,
            pages !! i = Some page ->
            existsb isalnum
              (extract_page_content page (1 + Z.of_nat i)
                 include_tables 8000) = false ->
            on_page (1 + Z.of_nat i) chunks = []))
  /\ (overlap_words < chunk_size_words ->
      forall u, exists fuel chunks u',
        chunk_pdf fuel pages pdf_type chunk_size_words overlap_words
          include_tables u = Some (chunks, u')).
Proof.
  split.
  - intros fuel u chunks u' Hc. unfold chunk_pdf in Hc.
    apply chunk_pages_invariant in Hc as (new & -> & [Ig If Io Il Ie]).
    simpl. auto.
  - intros Hso u.
    destruct (chunk_pages_total pdf_type chunk_size_words overlap_words
                include_tables Hso pages 1) as (fuel0 & Hf).
    exists fuel0. apply Hf. lia.
Qed.

End with_env.

(** A page of 401 one-letter words. *)
Definition page_401_words : pystr := concat (repeat (str "w ") 401).

(** C1 on a page of 401 words, from the global index 5: two chunks,
    with the indices 5 and 6. *)
Lemma chunk_page_text_default_count_witness :
  exists chunks u',
    @chunk_page_text Mock.uuids 401 page_401_words (str "other") 1 400 50
      5 0 = Some (chunks, u')
    /\ len chunks = 2
    /\ global_indices chunks = [5; 6].
Proof.
  destruct (@chunk_page_text_default_count Mock.uuids
              page_401_words (str "other") 1 5 0 401)
    as (chunks & u' & Hrun & Hlen & Hidx).
  - vm_compute. reflexivity.
  - vm_compute. discriminate.
  - exists chunks, u'. split; [exact Hrun|].
    assert (Hn : len (split page_401_words) = 401) by (vm_compute; reflexivity).
    rewrite Hn in Hlen. change (len chunks = 2) in Hlen.
    split; [exact Hlen|]. rewrite Hidx.
    assert (length chunks = 2%nat) as -> by (unfold len in Hlen; lia).
    reflexivity.
Defined.

(** A document of three pages, the second one blank: two words per
    chunk without overlap. *)
Definition three_pages : list Page :=
  [Mock.text_page "alpha beta gamma"; Mock.blank_page;
   Mock.text_page "delta epsilon"].

Lemma chunk_pdf_indices_witness :
  match @chunk_pdf Mock.unicode Mock.uuids 3 three_pages (str "other") 2 0
          true 0 with
  | Some (chunks, _) =>
      global_indices chunks = [0; 1; 2]
      /\ StronglySorted Z.le (page_numbers chunks)
      /\ local_indices (on_page 1 chunks)
         = run 0 (length (on_page 1 chunks))
      /\ on_page 2 chunks = []
  | None => False
  end.
Proof.
  destruct (@chunk_pdf Mock.unicode Mock.uuids 3 three_pages (str "other")
              2 0 true 0) as [[chunks u']|] eqn:Hc.
  - assert (Hlen : length chunks = 3%nat).
    { vm_compute in Hc. injection Hc as <- _. reflexivity. }
    destruct (@chunk_pdf_indices Mock.unicode Mock.uuids three_pages
                (str "other") 2 0 true) as [Hret _].
    destruct (Hret _ _ _ _ Hc) as (Hg & Ho & Hl & He).
    rewrite Hlen in Hg.
    split; [exact Hg|]. split; [exact Ho|]. split; [exact (Hl 1)|].
    apply (He 1%nat Mock.blank_page); reflexivity.
  - vm_compute in Hc. discriminate Hc.
Defined.

(** *** A page of blank cells *)

(** A page without text whose one table is a row of two empty
    cells. *)
Definition blank_grid_page : Page :=
  {| extract_text := None; extract_tables := Some [ [ [None; None] ] ] |}.

(** The characters of a page: those of its text and those of the cells
    of its tables. *)
Definition page_characters (page : Page) : pystr :=
  default [] (extract_text page)
  ++ concat (List.map (default [])
               (concat (concat (default [] (extract_tables page))))).

(** C3 (the code at the failing input): no character of the text and
    the tables of the page is alphanumeric, the page has none at all,
    and still [chunk_pdf] makes a chunk of it: the chunk holds the
    heading [### Table 1 (page 1)], which [extract_page_content] puts
    above the table and whose letters and digits pass the test for
    empty pages, and the bars and dashes of the empty grid. *)
Theorem chunk_pdf_chunks_blank_grid (U : UuidSource) (pdf_type : pystr)
    (u fuel : nat) :
  existsb (@isalnum Mock.unicode) (page_characters blank_grid_page) = false
  /\ @chunk_pdf Mock.unicode U (S fuel) [blank_grid_page] pdf_type 400 50
       true u
     = Some ([ {| id := uuid4 u;
                  text := str "### Table 1 (page 1) | | | | --- | --- |";
                  metadata :=
                    {| pdf_type := pdf_type; page_number := 1;
                       local_chunk_index := 0;
                       global_chunk_index := 0 |} |} ],
             S u).
Proof. split; [reflexivity|]. vm_compute. reflexivity. Qed.

End chunking_properties.

(** ** The LLM gateway *)

Module llm_properties.
Import llm_client.

(** The waits before the retries that follow the attempts
    [a, a + 1, ..., a + k - 1]: [min(2 ** attempt, 15)] each. *)
Definition waits (a : nat) (k : nat) : list Z :=
  List.map (fun i => Z.min (2 ^ Z.of_nat i) 15) (seq a k).

Section with_env.
Context `{!Unicode, !OpenAIClient}.

(** The attempts [a, ..., a + k - 1] on [prompt] all fail with an
    error that [is_transient] accepts. *)
Definition transient_run (prompt : pystr) (a k : nat) : Prop :=
  forall i, (a <= i < a + k)%nat ->
    exists err,
      responses_create prompt i = Fails err /\ is_transient err = true.

Lemma ask_llm_from_skip prompt :
  forall k a remaining,
    transient_run prompt a k ->
    ask_llm_from prompt (k + remaining) (Z.of_nat a)
    = (fst (ask_llm_from prompt remaining (Z.of_nat (a + k))),
       waits a k
       ++ snd (ask_llm_from prompt remaining (Z.of_nat (a + k)))).
Proof.
  induction k as [|k IH]; intros a remaining Hrun.
  - simpl. rewrite Nat.add_0_r. destruct (ask_llm_from _ _ _); reflexivity.
  - destruct (Hrun a ltac:(lia)) as (err & Hfail & Htr).
    change (S k + remaining)%nat with (S (k + remaining)).
    cbn [ask_llm_from]. rewrite Nat2Z.id, Hfail, Htr.
    replace (Z.of_nat a + 1) with (Z.of_nat (S a)) by lia.
    rewrite IH by (intros i Hi; apply Hrun; lia).
    replace (S a + k)%nat with (a + S k)%nat by lia.
    reflexivity.
Qed.

(** C6: [ask_llm] goes on to the next attempt exactly after an error
    that carries one of the markers 429, 503, "rate limit" or
    "temporarily" (the last two in any letter case), sleeping
    [min(2 ** attempt, 15)] seconds before it. After [k] such
    failures, a response at attempt [k] is returned, any other error
    at attempt [k] is raised as it is and nothing later is tried,
    and when all [max_retries] attempts failed in that way a
    [RuntimeError] is raised, which is none of the errors of the
    client. *)
Theorem ask_llm_retry_policy (prompt : pystr) (max_retries : Z)
    (k : nat) :
  transient_run prompt 0 k ->
  (forall err,
      is_transient err
      = contains err (str "429") || contains err (str "503")
        || contains (lower err) (str "rate limit")
        || contains (lower err) (str "temporarily"))
  /\ (Z.of_nat k < max_retries ->
      forall output_text,
        responses_create prompt k = Response output_text ->
        ask_llm_trace prompt max_retries = (Ok output_text, waits 0 k))
  /\ (Z.of_nat k < max_retries ->
      forall err,
        responses_create prompt k = Fails err ->
        is_transient err = false ->
        ask_llm_trace prompt max_retries
        = (Raise (ApiError err), waits 0 k))
  /\ (Z.of_nat k = Z.max max_retries 0 ->
      ask_llm_trace prompt max_retries = (Raise RuntimeError, waits 0 k))
  /\ (forall err, RuntimeError <> ApiError err)
  /\ Forall (fun w => 1 <= w <= 15) (waits 0 k)
  /\ (forall i, (i < k)%nat ->
        nth i (waits 0 k) 0 = Z.min (2 ^ Z.of_nat i) 15).
Proof.
  intros Hrun. split; [reflexivity|].
  assert (Hsplit : forall rest : nat,
             Z.to_nat max_retries = (k + rest)%nat ->
             ask_llm_trace prompt max_retries
             = (fst (ask_llm_from prompt rest (Z.of_nat k)),
                waits 0 k ++ snd (ask_llm_from prompt rest (Z.of_nat k)))).
  { intros rest Hm. unfold ask_llm_trace. rewrite Hm.
    apply (ask_llm_from_skip prompt k 0 rest Hrun). }
  split; [|split; [|split; [|split; [|split]]]].
  - intros Hk output_text Hresp.
    rewrite (Hsplit (S (Z.to_nat max_retries - S k))) by lia.
    cbn [ask_llm_from]. rewrite Nat2Z.id, Hresp. simpl.
    rewrite app_nil_r. reflexivity.
  - intros Hk err Hfail Hnt.
    rewrite (Hsplit (S (Z.to_nat max_retries - S k))) by lia.
    cbn [ask_llm_from]. rewrite Nat2Z.id, Hfail, Hnt. simpl.
    rewrite app_nil_r. reflexivity.
  - intros Hk. rewrite (Hsplit O) by lia. simpl.
    rewrite app_nil_r. reflexivity.
  - discriminate.
  - unfold waits. apply Forall_forall. intros w Hw.
    apply list_elem_of_In, in_map_iff in Hw as (i & <- & _).
    pose proof (Z.pow_pos_nonneg 2 (Z.of_nat i) ltac:(lia) ltac:(lia)).
    lia.
  - intros i Hi. unfold waits.
    rewrite (nth_indep _ 0 (Z.min (2 ^ Z.of_nat 0) 15))
      by (rewrite length_map, length_seq; exact Hi).
    rewrite (map_nth (fun i => Z.min (2 ^ Z.of_nat i) 15)).
    rewrite seq_nth by exact Hi. reflexivity.
Qed.

End with_env.

(** An endpoint that is overloaded twice and then answers. *)
Definition flaky_client : OpenAIClient :=
  {| responses_create := fun _ attempt =>
       match attempt with
       | O => Fails (str "Error code: 429 - quota exceeded")
       | S O => Fails (str "Service Temporarily Unavailable")
       | _ => Response (str "[]")
       end |}.

Lemma ask_llm_retry_policy_witness :
  @ask_llm_trace Mock.unicode flaky_client (str "prompt") 6
  = (Ok (str "[]"), [1; 2]).
Proof.
  assert (Hrun : @transient_run Mock.unicode flaky_client (str "prompt") 0 2).
  { intros i Hi. destruct i as [|[|i]]; [| |lia]; eexists; split;
      reflexivity. }
  destruct (@ask_llm_retry_policy Mock.unicode flaky_client (str "prompt")
              6 2 Hrun) as (_ & Hok & _).
  apply Hok; [lia | reflexivity].
Defined.

End llm_properties.

(** ** Parsing of LLM responses *)

Module parsing_properties.
Import pdf_classifier pdf_extractor.

(** A verdict whose [reason] mentions the word json. *)
Definition verdict_text : pystr :=
  qstr "{'pdf_type': 'other', 'layout_type': 'text_pdf', 'flags': {}, 'reason': 'json schema dump'}".

(** C7 (the code at the failing input): the classifier response
    [verdict_text] is a valid JSON object, yet [detect_pdf_type]
    returns an object whose [reason] is not the one of the response:
    the cleaning deletes the word json from the whole text, not only a
    language tag at its start. *)
Theorem detect_pdf_type_rewrites_reason :
  Mock.loads verdict_text
  = Some (JDict [ (str "pdf_type", JStr (str "other"));
                  (str "layout_type", JStr (str "text_pdf"));
                  (str "flags", JDict []);
                  (str "reason", JStr (str "json schema dump")) ])
  /\ @detect_pdf_type Mock.unicode (Mock.canned_client verdict_text)
       (Mock.files_with [Mock.text_page "Bill of quantities"])
       Mock.json_decoder Mock.prompts (str "report.pdf")
     = Ok (JDict [ (str "pdf_type", JStr (str "other"));
                   (str "layout_type", JStr (str "text_pdf"));
                   (str "flags", JDict []);
                   (str "reason", JStr (str " schema dump")) ]).
Proof. split; vm_compute; reflexivity. Qed.

(** A cleaned response that does not decode makes [detect_pdf_type]
    raise the decoding error; a response that decodes is returned as
    decoded. *)
Lemma parse_response_spec `{!JsonDecoder} (raw_json : pystr) :
  parse_response raw_json
  = match json_loads (clean_response raw_json) with
    | Some parsed => Ok parsed
    | None => Raise JSONDecodeError
    end.
Proof. reflexivity. Qed.

(** *** Facts about the string operations *)

Lemma startswith_nil (s : pystr) : startswith s [] = true.
Proof. destruct s; reflexivity. Qed.

Lemma startswith_char (c x : char) (s : pystr) :
  startswith (x :: s) [c] = (c =? x)%N.
Proof. simpl. rewrite startswith_nil. apply andb_true_r. Qed.








(** Equations between concatenations of literals and variables. *)
Ltac list_eq :=
  cbv -[app]; cbn [app]; repeat (rewrite <- app_assoc; cbn [app]);
  reflexivity.

Lemma drop_while_app_all {A} (p : A -> bool) (pre : list A) (x : A)
    (l : list A) :
  forallb p pre = true -> p x = false ->
  drop_while p (pre ++ x :: l) = x :: l.
Proof.
  intros Hpre Hx. induction pre as [|y pre IH]; simpl in *.
  - rewrite Hx. reflexivity.
  - apply andb_prop in Hpre as [-> Hpre]. auto.
Qed.


Section with_env.
Context `{!Unicode, !OpenAIClient, !PdfFiles, !JsonDecoder, !Prompts,
          !ThreadPool}.

(** A body wrapped in a fence with the json tag. *)
Definition json_fenced (body : pystr) : pystr :=
  str "```json" ++ NL ++ body ++ NL ++ str "```".





End with_env.



End parsing_properties.

(** ** The structured extractor *)

Module extractor_properties.
Import pdf_extractor.

Definition page_numbers (l : list PageInfo) : list Z :=
  List.map page_number l.

Lemma elem_of_page_numbers (l : list PageInfo) (k : Z) :
  k ∈ page_numbers l <-> exists p, p ∈ l /\ page_number p = k.
Proof.
  unfold page_numbers. rewrite list_elem_of_In, in_map_iff.
  split; intros (p & H1 & H2).
  - exists p. rewrite list_elem_of_In. auto.
  - exists p. rewrite <- list_elem_of_In. auto.
Qed.

Section with_env.
Context `{!Unicode, !OpenAIClient, !PdfFiles, !JsonDecoder, !Prompts,
          !ThreadPool}.

(** The pages handed to the LLM keep their page numbers, which
    ascend strictly. *)
Lemma select_pages_ascending pdf_type :
  forall pages idx,
    Forall (fun p => idx <= page_number p)
      (select_pages pdf_type idx pages)
    /\ StronglySorted Z.lt (page_numbers (select_pages pdf_type idx pages)).
Proof.
  induction pages as [|page pages IH]; intros idx; simpl.
  - split; constructor.
  - destruct (IH (idx + 1)) as [Hfrom Hsorted].
    assert (Hfrom' : Forall (fun p => idx <= page_number p)
                       (select_pages pdf_type (idx + 1) pages)).
    { eapply Forall_impl; [exact Hfrom|]. simpl. lia. }
    repeat match goal with
           | |- context [if ?b then _ else _] => destruct b
           end; try (split; assumption).
    split.
    + constructor; [simpl; lia | exact Hfrom'].
    + simpl. constructor; [exact Hsorted|].
      apply Forall_forall. intros k Hk.
      apply elem_of_page_numbers in Hk as (p & Hp & <-).
      rewrite Forall_forall in Hfrom. specialize (Hfrom p Hp).
      simpl in Hfrom. lia.
Qed.

Lemma ascending_NoDup (l : list Z) : StronglySorted Z.lt l -> NoDup l.
Proof.
  induction 1 as [|x l Hs IH Hx]; constructor; [|exact IH].
  intros Hin. rewrite Forall_forall in Hx. specialize (Hx x Hin). lia.
Qed.

Lemma ascending_Sorted_le (l : list Z) :
  StronglySorted Z.lt l -> Sorted Z.le l.
Proof.
  intros Hs. apply StronglySorted_Sorted.
  induction Hs as [|x l Hs IH Hx]; constructor; [exact IH|].
  eapply Forall_impl; [exact Hx|]. simpl. lia.
Qed.

(** What one page contributes: the items of its LLM call, nothing
    when the call raises. *)
Definition page_items (pdf_type prompt_template : pystr)
    (p : PageInfo) : list json :=
  match _process_page_with_llm pdf_type prompt_template p with
  | Ok (_, items) => items
  | Raise _ => []
  end.

Lemma process_page_number pdf_type prompt_template p pn items :
  _process_page_with_llm pdf_type prompt_template p = Ok (pn, items) ->
  pn = page_number p.
Proof.
  unfold _process_page_with_llm.
  destruct (llm_client.ask_llm _ 6); simpl; [|discriminate].
  destruct (safe_json_loads _); intros [= <- _]; reflexivity.
Qed.

Lemma collect_page_fresh pdf_type prompt_template
    (m : gmap Z (list json)) p :
  m !! page_number p = None ->
  collect_page pdf_type prompt_template m p
  = <[page_number p := page_items pdf_type prompt_template p]> m.
Proof.
  intros Hfresh. unfold collect_page, page_items.
  destruct (_process_page_with_llm pdf_type prompt_template p)
    as [[pn items]|e] eqn:Hp.
  - apply process_page_number in Hp as ->. reflexivity.
  - rewrite Hfresh. reflexivity.
Qed.

(** The dict after the completion loop, whatever the order. *)
Lemma collect_pages_lookup pdf_type prompt_template :
  forall (order : list PageInfo) (acc : gmap Z (list json)),
    NoDup (page_numbers order) ->
    (forall p, p ∈ order -> acc !! page_number p = None) ->
    let m := fold_left (collect_page pdf_type prompt_template) order acc in
    (forall p, p ∈ order ->
       m !! page_number p = Some (page_items pdf_type prompt_template p))
    /\ (forall k, k ∉ page_numbers order -> m !! k = acc !! k).
Proof.
  induction order as [|p order IH]; intros acc Hnd Hfresh; simpl.
  - split; [intros p Hp; inversion Hp | reflexivity].
  - simpl in Hnd. apply NoDup_cons in Hnd as [Hp Hnd].
    rewrite collect_page_fresh by (apply Hfresh; left).
    destruct (IH (<[page_number p :=
                      page_items pdf_type prompt_template p]> acc) Hnd)
      as [Hin Hout].
    { intros q Hq. rewrite lookup_insert_ne.
      - apply Hfresh. now right.
      - intros Heq. apply Hp. apply elem_of_page_numbers. eauto. }
    split.
    + intros q Hq. apply elem_of_cons in Hq as [->|Hq]; [|auto].
      rewrite Hout by exact Hp. apply lookup_insert_eq.
    + intros k Hk. apply not_elem_of_cons in Hk as [Hne Hk].
      rewrite Hout by exact Hk. apply lookup_insert_ne. congruence.
Qed.

(** Flattening a dict that holds exactly the results of the pages
    [selected] gives their concatenation in page order. *)
Lemma flatten_in_page_order pdf_type prompt_template
    (selected : list PageInfo) (m : gmap Z (list json)) :
  StronglySorted Z.lt (page_numbers selected) ->
  (forall p, p ∈ selected ->
     m !! page_number p = Some (page_items pdf_type prompt_template p)) ->
  (forall k, k ∉ page_numbers selected -> m !! k = None) ->
  flatten m = flat_map (page_items pdf_type prompt_template) selected.
Proof.
  intros Hasc Hin Hout. unfold flatten.
  assert (Hkeys : sorted_keys m = page_numbers selected).
  { unfold sorted_keys. apply (Sorted_unique Z.le).
    - apply Sorted_merge_sort. apply _.
    - apply ascending_Sorted_le. exact Hasc.
    - rewrite merge_sort_Permutation.
      apply NoDup_Permutation.
      + apply NoDup_fst_map_to_list.
      + apply ascending_NoDup. exact Hasc.
      + intros k. rewrite list_elem_of_fmap. split.
        * intros ([k' v] & -> & Hkv). simpl.
          apply elem_of_map_to_list in Hkv.
          destruct (decide (k' ∈ page_numbers selected)) as [|Hno];
            [assumption|].
          rewrite (Hout _ Hno) in Hkv. discriminate.
        * intros Hk. apply elem_of_page_numbers in Hk as (p & Hp & <-).
          exists (page_number p, page_items pdf_type prompt_template p).
          split; [reflexivity|]. apply elem_of_map_to_list. auto. }
  rewrite Hkeys. unfold page_numbers. clear Hkeys Hasc Hout.
  induction selected as [|p selected IH]; simpl; [reflexivity|].
  rewrite (Hin p) by left. simpl. f_equal.
  apply IH. intros q Hq. apply Hin. now right.
Qed.

(** C4: the [structured_data] that [process_single_pdf] returns is
    the concatenation of the per-page result lists in strictly
    ascending page-number order, whatever order the thread pool
    completes the page calls in (the pool is any instance of
    [ThreadPool]). With no or several surviving pages it does
    return; with one it returns unless that page's call raises. *)
Theorem structured_data_in_page_order
    (pdf_path : pystr) (classifier : json)
    (pdf_type prompt_template : pystr) (pages : list Page) :
  lookup_template classifier = Ok (pdf_type, prompt_template) ->
  pdfplumber_open pdf_path = Ok pages ->
  let selected := select_pages pdf_type 1 pages in
  StronglySorted Z.lt (page_numbers selected)
  /\ (length selected <> 1%nat ->
      exists r,
        process_single_pdf pdf_path classifier = Ok r
        /\ structured_data r
           = flat_map (page_items pdf_type prompt_template) selected)
  /\ (forall r,
        process_single_pdf pdf_path classifier = Ok r ->
        structured_data r
        = flat_map (page_items pdf_type prompt_template) selected).
Proof.
  intros Htemplate Hopen selected.
  pose proof (proj2 (select_pages_ascending pdf_type pages 1)) as Hasc.
  fold selected in Hasc. split; [exact Hasc|].
  assert (Hpool : forall p1 p2 rest,
             selected = p1 :: p2 :: rest ->
             flatten (fold_left (collect_page pdf_type prompt_template)
                        (as_completed selected) ∅)
             = flat_map (page_items pdf_type prompt_template) selected).
  { intros p1 p2 rest _.
    pose proof (as_completed_perm _ selected) as Hperm.
    destruct (collect_pages_lookup pdf_type prompt_template
                (as_completed selected) ∅) as [Hin Hout].
    - unfold page_numbers. rewrite Hperm. apply ascending_NoDup, Hasc.
    - intros p _. apply lookup_empty.
    - apply (flatten_in_page_order pdf_type prompt_template); auto.
      + intros p Hp. apply Hin. rewrite Hperm. exact Hp.
      + intros k Hk. rewrite Hout; [apply lookup_empty|].
        unfold page_numbers in *. rewrite Hperm. exact Hk. }
  assert (Hone : forall p pn items,
             selected = [p] ->
             _process_page_with_llm pdf_type prompt_template p
             = Ok (pn, items) ->
             flatten (<[pn := items]> ∅)
             = flat_map (page_items pdf_type prompt_template) selected).
  { intros p pn items Hsel Hp.
    pose proof (process_page_number _ _ _ _ _ Hp) as ->.
    assert (Hitems : page_items pdf_type prompt_template p = items)
      by (unfold page_items; rewrite Hp; reflexivity).
    apply (flatten_in_page_order pdf_type prompt_template); auto.
    - intros q Hq. rewrite Hsel in Hq.
      apply list_elem_of_singleton in Hq as ->.
      rewrite lookup_insert_eq, Hitems. reflexivity.
    - intros k Hk. rewrite Hsel in Hk. simpl in Hk.
      apply not_elem_of_cons in Hk as [Hne _].
      rewrite lookup_insert_ne by congruence. apply lookup_empty. }
  unfold process_single_pdf. rewrite Htemplate. simpl.
  rewrite Hopen. simpl. fold selected.
  destruct selected as [|p1 [|p2 rest]] eqn:Hsel.
  - split; [intros _; eexists; split; reflexivity|].
    intros r [= <-]. reflexivity.
  - split; [intros Hlen; simpl in Hlen; congruence|].
    destruct (_process_page_with_llm pdf_type prompt_template p1)
      as [[pn items]|e] eqn:Hp; simpl; [|discriminate].
    intros r [= <-]. simpl. apply (Hone p1 pn items eq_refl Hp).
  - split.
    + intros _. eexists. split; [reflexivity|]. simpl.
      apply (Hpool p1 p2 rest eq_refl).
    + intros r [= <-]. simpl. apply (Hpool p1 p2 rest eq_refl).
Qed.

(** When every classification succeeds, the jobs pair each path with
    its verdict. *)
Lemma classify_all_ok (pdf_paths : list pystr) (jobs : list (pystr * json)) :
  Forall2 (fun path job =>
             job.1 = path /\ pdf_classifier.detect_pdf_type path = Ok job.2)
    pdf_paths jobs ->
  classify_all pdf_paths = Ok jobs.
Proof.
  induction 1 as [|path [path' c] paths jobs [Hp Hc] _ IH]; [reflexivity|].
  simpl in *. subst path'. rewrite Hc. simpl. rewrite IH. reflexivity.
Qed.

(** The first classification that raises ends the loop. *)
Lemma classify_all_raises (before after : list pystr) (path : pystr)
    (e : exn) :
  Forall (fun p => exists c, pdf_classifier.detect_pdf_type p = Ok c) before ->
  pdf_classifier.detect_pdf_type path = Raise e ->
  classify_all (before ++ path :: after) = Raise e.
Proof.
  intros Hbefore Hraise.
  induction Hbefore as [|p before [c Hc] _ IH]; simpl.
  - rewrite Hraise. reflexivity.
  - rewrite Hc. simpl. rewrite IH. reflexivity.
Qed.

(** What a document contributes to the results of the pool. *)
Definition extraction_of (job : pystr * json) : option Extraction :=
  match process_single_pdf job.1 job.2 with
  | Ok r => Some r
  | Raise _ => None
  end.

Lemma collect_docs (order : list (pystr * json)) :
  forall results,
    fold_left collect_doc order results = results ++ omap extraction_of order.
Proof.
  induction order as [|job order IH]; intros results; simpl.
  - rewrite app_nil_r. reflexivity.
  - rewrite IH. unfold collect_doc, extraction_of.
    destruct (process_single_pdf job.1 job.2); simpl.
    + rewrite <- app_assoc. reflexivity.
    + reflexivity.
Qed.

(** C10, as amended: in a run over two or more documents whose
    classifications all succeed, a document whose extraction raises is
    left out of the results and every other document is returned, in
    the order of completion; a classification that raises is not caught:
    the first one ends the whole run with its exception. *)
Theorem process_many_pdfs_isolates_extraction_failures
    (pdf_paths : list pystr) :
  (forall jobs,
      (2 <= length pdf_paths)%nat ->
      Forall2 (fun path job =>
                 job.1 = path
                 /\ pdf_classifier.detect_pdf_type path = Ok job.2)
        pdf_paths jobs ->
      exists results,
        process_many_pdfs pdf_paths = Ok results
        /\ results = omap extraction_of (as_completed jobs)
        /\ results ≡ₚ omap extraction_of jobs)
  /\ (forall before path after e,
        pdf_paths = before ++ path :: after ->
        Forall (fun p => exists c, pdf_classifier.detect_pdf_type p = Ok c)
          before ->
        pdf_classifier.detect_pdf_type path = Raise e ->
        process_many_pdfs pdf_paths = Raise e).
Proof.
  split.
  - intros jobs Hlen Hjobs. unfold process_many_pdfs.
    rewrite (classify_all_ok _ _ Hjobs). simpl.
    apply Forall2_length in Hjobs.
    destruct jobs as [|[p1 c1] [|job2 jobs]]; simpl in Hjobs; try lia.
    eexists. split; [reflexivity|]. rewrite collect_docs. simpl.
    split; [reflexivity|]. rewrite as_completed_perm. reflexivity.
  - intros before path after e -> Hbefore Hraise. unfold process_many_pdfs.
    rewrite (classify_all_raises _ _ _ _ Hbefore Hraise). reflexivity.
Qed.

End with_env.

(** *** Runs on canned documents *)

(** A verdict for the costing template. *)
Definition costing_verdict : json :=
  JDict [(str "pdf_type", JStr (str "construction_costing"))].

(** Three cost items, as a page response. *)
Definition three_items_text : pystr :=
  qstr "[{'item_name': 'cement'}, {'item_name': 'sand'}, {'item_name': 'steel'}]".

Definition three_items : list json :=
  [ JDict [(str "item_name", JStr (str "cement"))];
    JDict [(str "item_name", JStr (str "sand"))];
    JDict [(str "item_name", JStr (str "steel"))] ].

(** An endpoint that rejects every prompt that mentions the word
    unreadable with an error that is not transient, and answers the
    others with the three items. *)
Definition moody_client : OpenAIClient :=
  {| responses_create := fun prompt _ =>
       if contains prompt (str "unreadable")
       then Fails (str "Error code: 400 - invalid request")
       else Response three_items_text |}.

Definition good_page : Page := Mock.text_page "Cement 10 bags at 100".
Definition bad_page : Page := Mock.text_page "unreadable scan 2".

(** C5 (the code at the failing input): a costing document whose only
    surviving page makes the LLM call raise is fatal for
    [process_single_pdf], which re-raises the error of the page; the
    same page next to a good one is caught in the pool and contributes
    nothing. *)
Theorem single_page_failure_is_fatal :
  @process_single_pdf Mock.unicode moody_client
    (Mock.files_with [bad_page]) Mock.json_decoder Mock.prompts
    Mock.reversing_pool (str "docs/boq.pdf") costing_verdict
  = Raise (ApiError (str "Error code: 400 - invalid request"))
  /\ @process_single_pdf Mock.unicode moody_client
       (Mock.files_with [good_page; bad_page]) Mock.json_decoder
       Mock.prompts Mock.reversing_pool (str "docs/boq.pdf") costing_verdict
     = Ok {| filename := str "boq.pdf";
             pdf_type := str "construction_costing";
             classifier_info := costing_verdict;
             structured_data := three_items |}.
Proof. split; vm_compute; reflexivity. Qed.

(** C4 on a document of two good pages, the second of which completes
    first. *)
Lemma structured_data_in_page_order_witness :
  exists r,
    @process_single_pdf Mock.unicode moody_client
      (Mock.files_with [good_page; good_page]) Mock.json_decoder
      Mock.prompts Mock.reversing_pool (str "docs/boq.pdf") costing_verdict
    = Ok r
    /\ structured_data r = three_items ++ three_items.
Proof.
  destruct (@structured_data_in_page_order Mock.unicode moody_client
              (Mock.files_with [good_page; good_page]) Mock.json_decoder
              Mock.prompts Mock.reversing_pool (str "docs/boq.pdf")
              costing_verdict (str "construction_costing")
              (@COSTING_EXTRACTION_PAGE_PROMPT Mock.prompts)
              [good_page; good_page] eq_refl eq_refl)
    as (_ & Hret & _).
  destruct Hret as (r & Hr & Hdata); [vm_compute; discriminate|].
  exists r. split; [exact Hr|]. rewrite Hdata. vm_compute. reflexivity.
Defined.

(** Files by name: a garbled one, a scan whose only page the endpoint
    rejects, and a bill of quantities with one good page. *)
Definition named_files : PdfFiles :=
  {| pdfplumber_open := fun path =>
       if contains path (str "garbled")
       then Ok [Mock.text_page "garbled bytes"]
       else if contains path (str "scan") then Ok [bad_page]
       else Ok [good_page];
     ocr_texts := fun _ => Raise (IOError (str "no rasterizer")) |}.

(** An endpoint that classifies every document as costing, except the
    garbled one, for which it answers in prose; page prompts are
    answered as by [moody_client]. *)
Definition classifying_client : OpenAIClient :=
  {| responses_create := fun prompt attempt =>
       if contains prompt (str "Classify:") then
         if contains prompt (str "garbled")
         then Response (str "I cannot tell.")
         else Response (qstr "{'pdf_type': 'construction_costing'}")
       else @responses_create moody_client prompt attempt |}.

Definition boq_extraction : Extraction :=
  {| filename := str "boq.pdf";
     pdf_type := str "construction_costing";
     classifier_info := costing_verdict;
     structured_data := three_items |}.

(** C10 as stated fails: the classification of the first of two
    documents raises (the response is not JSON); [process_many_pdfs]
    raises that error and returns no result, although the second
    document classifies and extracts without error. *)
Lemma classification_failure_aborts_batch :
  @process_many_pdfs Mock.unicode classifying_client named_files
    Mock.json_decoder Mock.prompts Mock.reversing_pool
    [str "garbled.pdf"; str "boq.pdf"]
  = Raise JSONDecodeError
  /\ @pdf_classifier.detect_pdf_type Mock.unicode classifying_client
       named_files Mock.json_decoder Mock.prompts (str "boq.pdf")
     = Ok costing_verdict
  /\ @process_single_pdf Mock.unicode classifying_client named_files
       Mock.json_decoder Mock.prompts Mock.reversing_pool (str "boq.pdf")
       costing_verdict
     = Ok boq_extraction.
Proof. repeat split; vm_compute; reflexivity. Qed.

(** The amended C10 on two documents that both classify: the extraction
    of the scan raises, the bill of quantities is returned. *)
Lemma process_many_pdfs_isolates_extraction_failures_witness :
  @process_many_pdfs Mock.unicode classifying_client named_files
    Mock.json_decoder Mock.prompts Mock.reversing_pool
    [str "scan.pdf"; str "boq.pdf"]
  = Ok [boq_extraction].
Proof.
  destruct (@process_many_pdfs_isolates_extraction_failures Mock.unicode
              classifying_client named_files Mock.json_decoder Mock.prompts
              Mock.reversing_pool [str "scan.pdf"; str "boq.pdf"])
    as [Hok _].
  destruct (Hok [(str "scan.pdf", costing_verdict);
                 (str "boq.pdf", costing_verdict)])
    as (results & Hrun & Hresults & _).
  - simpl. lia.
  - repeat constructor; vm_compute; reflexivity.
  - rewrite Hrun, Hresults. vm_compute. reflexivity.
Defined.

End extractor_properties.

(** ** Chunk persistence *)

Module persistence_properties.
Import dlt_pipeline pdf_embedding.

Lemma dict_get_set_eq (d : list (list N * json)) (k : list N) (v : json) :
  dict_get (dict_set d k v) k = Some v.
Proof.
  induction d as [|[k' w] d IH]; simpl; unfold pystr_eqb.
  - rewrite bool_decide_eq_true_2 by reflexivity. reflexivity.
  - case_bool_decide as Hk; simpl; unfold pystr_eqb.
    + rewrite bool_decide_eq_true_2 by exact Hk. reflexivity.
    + rewrite bool_decide_eq_false_2 by exact Hk. exact IH.
Qed.

Lemma dict_get_set_ne (d : list (list N * json)) (k k' : list N) (v : json) :
  k <> k' -> dict_get (dict_set d k v) k' = dict_get d k'.
Proof.
  intros Hne. induction d as [|[k0 w] d IH]; simpl; unfold pystr_eqb.
  - rewrite bool_decide_eq_false_2 by exact Hne. reflexivity.
  - case_bool_decide as Hk; simpl; unfold pystr_eqb.
    + subst k0. rewrite !bool_decide_eq_false_2 by exact Hne. reflexivity.
    + rewrite IH. reflexivity.
Qed.

(** A chunk as the vector store receives it from
    [store_chunks_in_chroma_with_doc_id]: it has an id, a text that is
    not blank, and a metadata dict that carries the document id. *)
Definition stored_ok (document_id : list N) (c : list (list N * json))
  : Prop :=
  (exists i, dict_get c (str "id") = Some i)
  /\ (exists t, dict_get c (str "text") = Some (JStr t) /\ strip t <> [])
  /\ (exists m, dict_get c (str "metadata") = Some (JDict m)
               /\ dict_get m (str "document_id") = Some (JStr document_id)).

Section with_env.
Context `{!UuidSource, !Embeddings}.

Lemma prepare_chunk_spec document_id c u c' keep u' :
  prepare_chunk document_id c u = Ok (c', keep, u') ->
  (exists i, dict_get c' (str "id") = Some i
             /\ (dict_get c (str "id") = Some i
                 \/ dict_get c (str "id") = None /\ i = JStr (uuid4 u)))
  /\ dict_get c' (str "text") = dict_get c (str "text")
  /\ (exists m, dict_get c' (str "metadata") = Some (JDict m)
               /\ dict_get m (str "document_id") = Some (JStr document_id))
  /\ (keep = true <->
      exists t, dict_get c (str "text") = Some (JStr t) /\ strip t <> []).
Proof.
  unfold prepare_chunk.
  set (c1 := if dict_has c (str "id") then (c, u)
             else (dict_set c (str "id") (JStr (uuid4 u)), S u)).
  assert (Hid : (exists i, dict_get c1.1 (str "id") = Some i
                   /\ (dict_get c (str "id") = Some i
                       \/ dict_get c (str "id") = None
                          /\ i = JStr (uuid4 u)))
                /\ dict_get c1.1 (str "text") = dict_get c (str "text")
                /\ dict_get c1.1 (str "metadata")
                   = dict_get c (str "metadata")).
  { subst c1. unfold dict_has.
    destruct (dict_get c (str "id")) as [i|] eqn:Hi; simpl.
    - rewrite Hi. split; [exists i; auto | auto].
    - rewrite dict_get_set_eq, !dict_get_set_ne by discriminate.
      split; [eexists; split; [reflexivity | right; auto] | auto]. }
  destruct c1 as [c1 u1]. simpl in Hid. destruct Hid as (Hid & Htext & Hmeta).
  set (c2 := match dict_get c1 (str "metadata") with
             | Some (JDict _) => c1
             | _ => dict_set c1 (str "metadata") (JDict [])
             end).
  assert (H2 : dict_get c2 (str "id") = dict_get c1 (str "id")
               /\ dict_get c2 (str "text") = dict_get c1 (str "text")).
  { subst c2. destruct (dict_get c1 (str "metadata")) as [[]|];
      rewrite ?dict_get_set_ne by discriminate; auto. }
  destruct H2 as [Hid2 Htext2].
  set (c3 := dict_set c2 (str "metadata") _).
  assert (H3 : dict_get c3 (str "id") = dict_get c1 (str "id")
               /\ dict_get c3 (str "text") = dict_get c (str "text")
               /\ exists m, dict_get c3 (str "metadata") = Some (JDict m)
                            /\ dict_get m (str "document_id")
                               = Some (JStr document_id)).
  { subst c3. rewrite !dict_get_set_ne by discriminate.
    rewrite dict_get_set_eq. repeat split; try congruence.
    eexists. split; [reflexivity|]. apply dict_get_set_eq. }
  destruct H3 as (Hid3 & Htext3 & Hmeta3). rewrite <- Hid3 in Hid.
  destruct (dict_get c3 (str "text")) as [[]|] eqn:Ht;
    try discriminate; intros [= <- <- <-];
    (split; [exact Hid|]); (split; [congruence|]); (split; [exact Hmeta3|]).
  - rewrite <- Htext3. split.
    + intros Hkeep. eexists. split; [reflexivity|].
      unfold pystr_eqb in Hkeep. apply negb_true_iff in Hkeep.
      apply bool_decide_eq_false in Hkeep. exact Hkeep.
    + intros (t & [= <-] & Hne). unfold pystr_eqb.
      apply negb_true_iff, bool_decide_eq_false. exact Hne.
  - rewrite <- Htext3. split; [discriminate|]. intros (t & Habs & _).
    discriminate.
Qed.

Lemma prepare_chunks_spec document_id :
  forall chunks u after cleaned u',
    prepare_chunks document_id chunks u = Ok (after, cleaned, u') ->
    Forall (stored_ok document_id) cleaned
    /\ length after = length chunks.
Proof.
  induction chunks as [|c chunks IH]; intros u after cleaned u'; simpl.
  - intros [= <- <- <-]. split; [constructor | reflexivity].
  - destruct (prepare_chunk document_id c u) as [[[c' keep] u1]|] eqn:Hc;
      simpl; [|discriminate].
    destruct (prepare_chunks document_id chunks u1)
      as [[[after' cleaned'] u2]|] eqn:Hrest; simpl; [|discriminate].
    intros [= <- <- <-]. destruct (IH _ _ _ _ Hrest) as [Hok Hlen].
    split; [|simpl; congruence].
    apply prepare_chunk_spec in Hc as ((i & Hi & _) & Htext & Hmeta & Hkeep).
    destruct keep; [|exact Hok]. constructor; [|exact Hok].
    destruct (proj1 Hkeep eq_refl) as (t & Ht & Hne).
    split; [eauto|]. split; [|exact Hmeta].
    exists t. rewrite Htext. auto.
Qed.

(** What [store_chunks_in_chroma_with_doc_id] does hold of C9: every
    stored chunk has an id, a text that is not blank and the document
    id in its metadata, and the ids, vectors, texts and metadata of the
    stored chunks are written in one [collection.add]. The embedding,
    however, is a single call on all the texts. *)
Lemma store_with_doc_id_spec chunks document_id u trace u' :
  store_chunks_in_chroma_with_doc_id chunks document_id u
  = Ok (trace, u') ->
  exists cleaned,
    Forall (stored_ok document_id) cleaned
    /\ match cleaned with
       | [] => embed_calls trace = [] /\ added trace = []
       | _ =>
           let texts := List.map (field (str "text")) cleaned in
           embed_calls trace = [texts]
           /\ added trace
              = [ {| ids := List.map (field (str "id")) cleaned;
                     embeddings := embed_documents texts;
                     documents := texts;
                     metadatas :=
                       List.map (field (str "metadata")) cleaned |} ]
       end.
Proof.
  unfold store_chunks_in_chroma_with_doc_id.
  destruct (prepare_chunks document_id chunks u)
    as [[[after cleaned] u1]|] eqn:Hprep; simpl; [|discriminate].
  apply prepare_chunks_spec in Hprep as [Hok _].
  destruct cleaned as [|c cleaned]; intros [= <- <-]; simpl.
  - exists []. split; [constructor|]. simpl. auto.
  - exists (c :: cleaned). split; [exact Hok|]. simpl. auto.
Qed.

(** The length of a slice between bounds that are not negative. *)
Lemma py_slice_length {A} (l : list A) (i j : Z) :
  0 <= i -> 0 <= j -> len (py_slice l i j) <= Z.max 0 (j - i).
Proof.
  intros Hi Hj. unfold py_slice, len, norm_index.
  rewrite length_take, length_drop.
  destruct (Z.ltb_spec i 0); [lia|].
  destruct (Z.ltb_spec j 0); lia.
Qed.

Lemma embed_batches_bounded texts total batch_size :
  0 < batch_size -> 0 <= total ->
  forall starts calls vectors,
    Forall (fun start => 0 <= start) starts ->
    embed_batches texts total batch_size starts = Ok (calls, vectors) ->
    Forall (fun call => len call <= batch_size) calls.
Proof.
  intros Hbs Htotal. induction starts as [|start starts IH];
    intros calls vectors Hstarts; simpl.
  - intros [= <- <-]. constructor.
  - apply Forall_cons in Hstarts as [Hstart Hstarts].
    destruct (negb _); [discriminate|].
    destruct (embed_batches texts total batch_size starts)
      as [[calls' vectors']|] eqn:Hrest; simpl; [|discriminate].
    intros [= <- <-]. constructor; [|eapply IH; eauto].
    pose proof (py_slice_length texts start
                  (Z.min (start + batch_size) total) Hstart ltac:(lia)).
    lia.
Qed.

(** The sibling [store_chunks_in_chroma] does embed in batches: no
    embedding call receives more than [batch_size] texts. *)
Lemma store_chunks_in_chroma_batches chunks batch_size trace stored :
  0 < batch_size ->
  store_chunks_in_chroma chunks batch_size = Ok (trace, stored) ->
  Forall (fun call => len call <= batch_size) (embed_calls trace).
Proof.
  intros Hbs. unfold store_chunks_in_chroma.
  destruct chunks as [|c chunks]; [intros [= <- <-]; constructor|].
  cbv beta iota. generalize (c :: chunks). intros cs.
  destruct (fields (str "id") cs) as [ids|]; simpl; [|discriminate].
  destruct (fields (str "text") cs) as [texts|]; simpl; [|discriminate].
  unfold range_from_0.
  destruct (Z.eqb_spec batch_size 0); [lia|].
  destruct (Z.ltb_spec batch_size 0); [lia|]. simpl.
  destruct (embed_batches texts (len texts) batch_size _)
    as [[calls vectors]|] eqn:Hb; simpl; [|discriminate].
  intros [= <- <-]. simpl.
  assert (Htotal : 0 <= len texts) by (unfold len; lia).
  eapply (embed_batches_bounded texts (len texts) batch_size Hbs Htotal);
    [|exact Hb].
  apply Forall_forall. intros x Hx.
  apply list_elem_of_In, in_map_iff in Hx as (k & <- & _). lia.
Qed.

End with_env.

(** A chunk with an id, a text and empty metadata. *)
Definition plain_chunk : list (list N * json) :=
  [ (str "id", JStr (str "c"));
    (str "text", JStr (str "some text"));
    (str "metadata", JDict []) ].

(** C9 (the code at the failing input): for 65 chunks with text,
    [store_chunks_in_chroma_with_doc_id], the function that assigns ids,
    drops blank chunks and stamps the document id, makes one embedding
    call with all 65 texts; [store_chunks_in_chroma] on the same chunks
    with its default [batch_size = 64] makes two calls, with 64 texts
    and 1 text. *)
Theorem store_with_doc_id_embeds_in_one_call :
  match @store_chunks_in_chroma_with_doc_id Mock.uuids Mock.embeddings
          (repeat plain_chunk 65) (str "doc-1") 0 with
  | Ok (trace, _) =>
      List.map (@length json) (embed_calls trace) = [65%nat]
  | Raise _ => False
  end
  /\ match @store_chunks_in_chroma Mock.embeddings
             (repeat plain_chunk 65) 64 with
     | Ok (trace, _) =>
         List.map (@length json) (embed_calls trace) = [64%nat; 1%nat]
     | Raise _ => False
     end.
Proof. split; vm_compute; reflexivity. Qed.

End persistence_properties.
(** * Further properties of the code *)

(** ** Facts about the string operations *)

Module pystr_facts.

(** A word: not empty and free of whitespace. *)
Definition is_word (w : pystr) : Prop :=
  w <> [] /\ forallb (fun c => negb (isspace c)) w = true.

Lemma forallb_app_true {A} (p : A -> bool) (l1 l2 : list A) :
  forallb p (l1 ++ l2) = true <-> forallb p l1 = true /\ forallb p l2 = true.
Proof. rewrite forallb_app, andb_true_iff. reflexivity. Qed.

Lemma split_aux_words (s : pystr) :
  forall cur,
    forallb (fun c => negb (isspace c)) cur = true ->
    Forall is_word (split_aux cur s).
Proof.
  induction s as [|c s IH]; intros cur Hcur; simpl.
  - destruct cur; constructor; [|constructor]. split; [discriminate|exact Hcur].
  - destruct (isspace c) eqn:Hc.
    + destruct cur as [|x cur]; [apply IH; reflexivity|].
      constructor; [split; [discriminate|exact Hcur]|]. apply IH. reflexivity.
    + apply IH. apply forallb_app_true. split; [exact Hcur|].
      simpl. rewrite Hc. reflexivity.
Qed.

(** [s.split()] returns words. *)
Lemma split_words (s : pystr) : Forall is_word (split s).
Proof. apply split_aux_words. reflexivity. Qed.

Lemma split_aux_app_word (w : pystr) :
  forallb (fun c => negb (isspace c)) w = true ->
  forall cur rest, split_aux cur (w ++ rest) = split_aux (cur ++ w) rest.
Proof.
  induction w as [|c w IH]; intros Hw cur rest; simpl.
  - rewrite app_nil_r. reflexivity.
  - simpl in Hw. apply andb_prop in Hw as [Hc Hw].
    apply negb_true_iff in Hc. rewrite Hc, IH by exact Hw.
    rewrite <- app_assoc. reflexivity.
Qed.

(** Splitting what [" ".join] built from words gives the words back. *)
Lemma split_join_words (ws : list pystr) :
  Forall is_word ws -> split (join (str " ") ws) = ws.
Proof.
  unfold split. induction 1 as [|w ws [Hne Hw] Hws IH]; [reflexivity|].
  destruct ws as [|w' ws].
  - simpl. rewrite <- (app_nil_r w) at 1.
    rewrite split_aux_app_word by exact Hw. simpl.
    destruct w; [contradiction|reflexivity].
  - change (join (str " ") (w :: w' :: ws))
      with (w ++ 32%N :: join (str " ") (w' :: ws)).
    rewrite split_aux_app_word by exact Hw. cbn [app split_aux].
    change (isspace 32%N) with true. cbv iota.
    destruct w; [contradiction|]. rewrite IH. reflexivity.
Qed.

Lemma drop_while_false_head {A} (p : A -> bool) (x : A) (l : list A) :
  p x = false -> drop_while p (x :: l) = x :: l.
Proof. intros Hx. simpl. rewrite Hx. reflexivity. Qed.

Lemma lstrip_no_leading (x : N) (l : pystr) :
  isspace x = false -> lstrip (x :: l) = x :: l.
Proof. apply drop_while_false_head. Qed.

Lemma rstrip_no_trailing (l : pystr) (y : N) :
  isspace y = false -> rstrip (l ++ [y]) = l ++ [y].
Proof.
  intros Hy. unfold rstrip. rewrite rev_app_distr. change (rev [y]) with [y].
  cbn [app]. rewrite drop_while_false_head by exact Hy.
  change (y :: rev l) with (rev [y] ++ rev l).
  rewrite <- rev_app_distr, rev_involutive. reflexivity.
Qed.

(** The first and the last character of a text. *)
Definition first_char (s : pystr) : option N := head s.
Definition last_char (s : pystr) : option N := last s.

(** A text is tight when it neither starts nor ends with whitespace. *)
Definition tight (s : pystr) : Prop :=
  (forall c, head s = Some c -> isspace c = false)
  /\ (forall c, last s = Some c -> isspace c = false).

Lemma strip_tight_id (s : pystr) : tight s -> strip s = s.
Proof.
  intros [Hh Hl]. unfold strip.
  destruct s as [|x s]; [reflexivity|].
  rewrite lstrip_no_leading by (apply Hh; reflexivity).
  destruct (list.last (x :: s)) as [y|] eqn:Hy.
  - apply last_Some in Hy as (l' & Heq). rewrite Heq.
    apply rstrip_no_trailing. apply Hl. reflexivity.
  - apply last_None in Hy. discriminate.
Qed.

Lemma drop_while_tight_head {A} (p : A -> bool) (l : list A) (c : A) :
  head (drop_while p l) = Some c -> p c = false.
Proof.
  induction l as [|x l IH]; simpl; [discriminate|].
  destruct (p x) eqn:Hx; [exact IH|]. simpl. intros [= <-]. exact Hx.
Qed.

Lemma head_rev_last {A} (l : list A) : head (rev l) = last l.
Proof.
  induction l as [|x l IH] using rev_ind; [reflexivity|].
  rewrite rev_app_distr, last_snoc. reflexivity.
Qed.

Lemma last_rev_head {A} (l : list A) : last (rev l) = head l.
Proof. rewrite <- head_rev_last, rev_involutive. reflexivity. Qed.

Lemma drop_while_suffix {A} (p : A -> bool) (l : list A) :
  exists pre, l = pre ++ drop_while p l /\ forallb p pre = true.
Proof.
  induction l as [|x l (pre & Hpre & Hall)]; simpl.
  - exists []. split; reflexivity.
  - destruct (p x) eqn:Hx.
    + exists (x :: pre). simpl. rewrite Hx, Hall. split; [|reflexivity].
      f_equal. exact Hpre.
    + exists []. split; reflexivity.
Qed.

(** [s.strip()] cuts a prefix and a suffix of whitespace off [s]. *)
Lemma strip_decompose (s : pystr) :
  exists pre post,
    s = pre ++ strip s ++ post
    /\ forallb isspace pre = true /\ forallb isspace post = true.
Proof.
  unfold strip, lstrip, rstrip.
  destruct (drop_while_suffix isspace s) as (pre & Hpre & Hall).
  set (D := drop_while isspace s) in *.
  destruct (drop_while_suffix isspace (rev D)) as (post & Hpost & Hall').
  exists pre, (rev post). split; [|split].
  - rewrite Hpre at 1. f_equal.
    rewrite <- rev_app_distr, <- Hpost, rev_involutive. reflexivity.
  - exact Hall.
  - rewrite forallb_forall in *. intros x Hx. apply Hall'.
    apply in_rev. exact Hx.
Qed.

(** The result of [s.strip()] is tight. *)
Lemma strip_is_tight (s : pystr) : tight (strip s).
Proof.
  unfold strip, rstrip. split; intros c Hc.
  - rewrite head_rev_last in Hc.
    set (t := drop_while isspace (rev (lstrip s))) in *.
    destruct (drop_while_suffix isspace (rev (lstrip s))) as (pre & Hpre & _).
    fold t in Hpre.
    assert (Hlast : last (rev (lstrip s)) = Some c).
    { rewrite Hpre. destruct t as [|y t']; [discriminate|].
      rewrite last_app. simpl in Hc. change (last (y :: t')) with (list.last (y :: t')).
      rewrite Hc. reflexivity. }
    rewrite last_rev_head in Hlast.
    apply (drop_while_tight_head isspace s). exact Hlast.
  - rewrite last_rev_head in Hc.
    apply (drop_while_tight_head isspace (rev (lstrip s))). exact Hc.
Qed.

Lemma len_strip_le (s : pystr) : len (strip s) <= len s.
Proof.
  destruct (strip_decompose s) as (pre & post & Hs & _).
  unfold len. rewrite Hs at 2. rewrite !length_app. lia.
Qed.

End pystr_facts.

(** ** The texts and the identifiers of the chunks *)

Module chunk_text_properties.
Import pdf_chunking pystr_facts.

Lemma split_aux_nil_iff (s : pystr) :
  forall cur, split_aux cur s = [] <-> cur = [] /\ forallb isspace s = true.
Proof.
  induction s as [|c s IH]; intros cur; simpl.
  - destruct cur; split; try tauto; try discriminate. intros [[=] _].
  - destruct (isspace c) eqn:Hc; simpl.
    + destruct cur as [|x cur]; [apply IH|].
      split; [discriminate | intros [[=] _]].
    + rewrite IH. split; [|intros [_ [=]]].
      intros [Habs _]. destruct cur; discriminate.
Qed.

(** A text has no word exactly when it is made of whitespace. *)
Lemma split_nil_iff (s : pystr) : split s = [] <-> forallb isspace s = true.
Proof. unfold split. rewrite split_aux_nil_iff. tauto. Qed.

Lemma word_head (w : pystr) (c : N) :
  is_word w -> head w = Some c -> isspace c = false.
Proof.
  intros [_ Hw] Hc. destruct w as [|x w]; [discriminate|].
  simpl in *. injection Hc as ->. apply andb_prop in Hw as [Hx _].
  apply negb_true_iff. exact Hx.
Qed.

Lemma word_last (w : pystr) (c : N) :
  is_word w -> last w = Some c -> isspace c = false.
Proof.
  intros [_ Hw] Hc. apply last_Some in Hc as (l & ->).
  apply forallb_app_true in Hw as [_ Hw]. simpl in Hw.
  apply andb_prop in Hw as [Hx _]. apply negb_true_iff. exact Hx.
Qed.

Lemma join_cons_cons (sep x y : pystr) (l : list pystr) :
  join sep (x :: y :: l) = x ++ sep ++ join sep (y :: l).
Proof. reflexivity. Qed.

Lemma join_words_nonempty (sep : pystr) (ws : list pystr) :
  Forall is_word ws -> ws <> [] -> join sep ws <> [].
Proof.
  intros Hws Hne. destruct Hws as [|w ws [Hw _] Hws]; [contradiction|].
  destruct ws as [|w' ws]; [exact Hw|].
  rewrite join_cons_cons. destruct w; [contradiction|discriminate].
Qed.

Lemma last_app_nonempty {A} (l1 l2 : list A) :
  l2 <> [] -> last (l1 ++ l2) = last l2.
Proof.
  intros Hne. destruct l2 as [|x l2] using rev_ind; [contradiction|].
  rewrite app_assoc, !last_snoc. reflexivity.
Qed.

(** Words joined by single spaces neither start nor end with
    whitespace. *)
Lemma join_words_tight (ws : list pystr) :
  Forall is_word ws -> tight (join (str " ") ws).
Proof.
  induction 1 as [|w ws Hw Hws IH]; [split; discriminate|].
  destruct ws as [|w' ws].
  - split; intros c Hc; [eapply word_head | eapply word_last]; eauto.
  - rewrite join_cons_cons. split; intros c Hc.
    + apply (word_head w); [exact Hw|].
      destruct w as [|x w]; [destruct Hw; contradiction|exact Hc].
    + apply (proj2 IH).
      rewrite app_assoc, last_app_nonempty in Hc; [exact Hc|].
      apply join_words_nonempty; [exact Hws|discriminate].
Qed.

Lemma strip_join_words (ws : list pystr) :
  Forall is_word ws -> strip (join (str " ") ws) = join (str " ") ws.
Proof. intros Hws. apply strip_tight_id, join_words_tight, Hws. Qed.

Lemma py_slice_Forall {A} (P : A -> Prop) (l : list A) (i j : Z) :
  Forall P l -> Forall P (py_slice l i j).
Proof. intros Hl. unfold py_slice. apply Forall_take, Forall_drop, Hl. Qed.

(** A window that starts inside the list: [size] elements from
    [s] on, fewer at the end of the list. *)
Lemma window_take_drop {A} (l : list A) (s size : Z) :
  0 <= s < len l -> 0 < size ->
  py_slice l s (Z.min (s + size) (len l))
  = take (Z.to_nat size) (drop (Z.to_nat s) l).
Proof.
  intros Hs Hsize. unfold py_slice, norm_index, len in *.
  destruct (Z.ltb_spec s 0); [lia|].
  destruct (Z.ltb_spec (Z.min (s + size) (Z.of_nat (length l))) 0); [lia|].
  rewrite (Z.min_l s) by lia.
  destruct (Z.le_gt_cases (s + size) (Z.of_nat (length l))).
  - f_equal. lia.
  - rewrite !take_ge; [reflexivity| |]; rewrite length_drop; lia.
Qed.

Section with_env.
Context `{!Unicode, !UuidSource}.

(** The words and the form of a chunk text: between one and [size]
    consecutive words of the page, joined by single spaces. *)
Definition window_of (words : list pystr) (size : Z) (c : Chunk) : Prop :=
  exists s,
    0 <= s < len words
    /\ text c = join (str " ") (py_slice words s (Z.min (s + size) (len words))).

(** What holds of every finished run of the window loop, whatever the
    parameters: one identifier is drawn per chunk, in order, and every
    chunk text is a window of the words. *)
Lemma chunk_loop_chunks words pt pn size overlap :
  Forall is_word words ->
  forall fuel start li gi acc u res u',
    0 <= start ->
    chunk_loop fuel words pt pn size overlap start li gi acc u
      = Some (res, u') ->
    exists new,
      res = acc ++ new
      /\ u' = (u + length new)%nat
      /\ List.map id new = List.map uuid4 (seq u (length new))
      /\ Forall (window_of words size) new.
Proof.
  intros Hwords.
  induction fuel as [|fuel IH]; intros start li gi acc u res u' Hs Hc;
    simpl in Hc; destruct (Z.ltb_spec start (len words)) as [Hlt|Hge];
    try discriminate;
    try (inversion Hc; subst; exists []; rewrite app_nil_r;
         repeat split; simpl; auto; lia).
  set (end_ := Z.min (start + size) (len words)) in *.
  assert (Hwin : window_of words size
            {| id := uuid4 u;
               text := strip (join (str " ") (py_slice words start end_));
               metadata :=
                 {| pdf_type := pt; page_number := pn;
                    local_chunk_index := li; global_chunk_index := gi |} |}).
  { exists start. split; [lia|]. simpl.
    apply strip_join_words, py_slice_Forall, Hwords. }
  destruct (end_ =? len words).
  - inversion Hc; subst. eexists [_].
    split; [reflexivity|]. split; [simpl; lia|].
    split; [reflexivity|]. constructor; [exact Hwin|constructor].
  - apply IH in Hc as (new & -> & -> & Hid & Hw); [|lia].
    eexists (_ :: new). rewrite <- app_assoc.
    split; [reflexivity|]. split; [simpl; lia|].
    split; [simpl; f_equal; exact Hid|].
    constructor; [exact Hwin | exact Hw].
Qed.

Lemma chunk_page_text_chunks fuel page_text pt pn size overlap g u res u' :
  chunk_page_text fuel page_text pt pn size overlap g u = Some (res, u') ->
  u' = (u + length res)%nat
  /\ List.map id res = List.map uuid4 (seq u (length res))
  /\ Forall (window_of (split page_text) size) res.
Proof.
  unfold chunk_page_text. destruct (split page_text) as [|w ws] eqn:Hw.
  - intros [= <- <-]. simpl. split; [lia|]. split; [reflexivity|constructor].
  - intros Hc. apply chunk_loop_chunks in Hc as (new & -> & -> & Hid & Hwin);
      [auto | rewrite <- Hw; apply split_words | lia].
Qed.

(** A window of [size > 0] words is a text in normal form. *)
Definition normal_text (size : Z) (c : Chunk) : Prop :=
  text c = join (str " ") (split (text c))
  /\ 0 < len (split (text c)) <= size
  /\ strip (text c) = text c.

Lemma window_normal words size c :
  Forall is_word words -> 0 < size ->
  window_of words size c -> normal_text size c.
Proof.
  intros Hwords Hsize (s & Hs & Ht). unfold normal_text.
  rewrite window_take_drop in Ht by assumption.
  assert (Hsub : Forall is_word (take (Z.to_nat size) (drop (Z.to_nat s) words)))
    by (apply Forall_take, Forall_drop, Hwords).
  rewrite Ht, split_join_words by exact Hsub.
  split; [reflexivity|]. split; [|apply strip_join_words, Hsub].
  unfold len in *. rewrite length_take, length_drop. lia.
Qed.

Lemma chunk_pages_chunks pt size overlap incl fuel (P : Chunk -> Prop) :
  (forall page_text pn g u res u',
      chunk_page_text fuel page_text pt pn size overlap g u = Some (res, u') ->
      Forall P res) ->
  forall pages idx acc g u res u',
    chunk_pages fuel pages idx pt size overlap incl acc g u
      = Some (res, u') ->
    exists new,
      res = acc ++ new
      /\ u' = (u + length new)%nat
      /\ List.map id new = List.map uuid4 (seq u (length new))
      /\ Forall P new.
Proof.
  intros HP.
  induction pages as [|page pages IH]; intros idx acc g u res u' Hc;
    simpl in Hc.
  - inversion Hc; subst. exists []. rewrite app_nil_r. simpl.
    repeat split; auto.
  - destruct (existsb isalnum (extract_page_content page idx incl 8000));
      simpl in Hc; [|apply IH in Hc; exact Hc].
    destruct (chunk_page_text fuel _ pt idx size overlap g u)
      as [[page_chunks u1]|] eqn:Hp; [|discriminate].
    pose proof (HP _ _ _ _ _ _ Hp) as HPp.
    apply chunk_page_text_chunks in Hp as (-> & Hid & _).
    apply IH in Hc as (new & -> & -> & Hid' & HPn).
    exists (page_chunks ++ new). rewrite app_assoc, length_app.
    split; [reflexivity|]. split; [lia|].
    split; [|apply Forall_app; auto].
    rewrite List.map_app, seq_app, List.map_app, Hid, Hid'. reflexivity.
Qed.

Lemma chunk_pdf_normal (fuel : nat) (pages : list Page)
    (pdf_type : pystr) (chunk_size_words overlap_words : Z)
    (include_tables : bool) (u u' : nat) (chunks : list Chunk) :
  0 < chunk_size_words ->
  chunk_pdf fuel pages pdf_type chunk_size_words overlap_words
    include_tables u = Some (chunks, u') ->
  Forall (normal_text chunk_size_words) chunks.
Proof.
  intros Hsize Hc. unfold chunk_pdf in Hc.
  apply (chunk_pages_chunks _ _ _ _ _ (normal_text chunk_size_words)) in Hc
    as (new & -> & _ & _ & Hn); [exact Hn|].
  intros page_text pn g u0 res u0' Hp.
  apply chunk_page_text_chunks in Hp as (_ & _ & Hw).
  eapply Forall_impl; [exact Hw|]. intros c.
  apply window_normal; [apply split_words | exact Hsize].
Qed.

Lemma normal_text_nonempty (size : Z) (c : Chunk) :
  normal_text size c -> text c <> [] /\ strip (text c) <> [].
Proof.
  intros (Hj & Hl & Hs). rewrite Hs.
  assert (text c <> []); [|auto].
  intros Hnil. rewrite Hnil in Hl. unfold len in Hl. simpl in Hl. lia.
Qed.

(** No chunk of [chunk_pdf] is blank. *)
Lemma chunk_pdf_nonblank (fuel : nat) (pages : list Page)
    (pdf_type : pystr) (chunk_size_words overlap_words : Z)
    (include_tables : bool) (u u' : nat) (chunks : list Chunk) :
  0 < chunk_size_words ->
  chunk_pdf fuel pages pdf_type chunk_size_words overlap_words
    include_tables u = Some (chunks, u') ->
  Forall (fun c => strip (text c) <> []) chunks.
Proof.
  intros Hsize Hc. eapply Forall_impl; [eapply chunk_pdf_normal; eauto|].
  intros c Hn. apply (normal_text_nonempty _ _ Hn).
Qed.

(** X5: every chunk that [chunk_pdf] returns for a positive
    [chunk_size_words] has a text that is between one and
    [chunk_size_words] words joined by single spaces: it is never
    empty or blank, has no leading or trailing whitespace, and
    [strip()] leaves it as it is. *)
Theorem chunk_pdf_texts_normal (fuel : nat) (pages : list Page)
    (pdf_type : pystr) (chunk_size_words overlap_words : Z)
    (include_tables : bool) (u u' : nat) (chunks : list Chunk) :
  0 < chunk_size_words ->
  chunk_pdf fuel pages pdf_type chunk_size_words overlap_words
    include_tables u = Some (chunks, u') ->
  Forall (fun c =>
            text c = join (str " ") (split (text c))
            /\ 0 < len (split (text c)) <= chunk_size_words
            /\ strip (text c) = text c
            /\ text c <> []) chunks.
Proof.
  intros Hsize Hc. eapply Forall_impl; [eapply chunk_pdf_normal; eauto|].
  intros c Hn. destruct (normal_text_nonempty _ _ Hn) as [Hne _].
  destruct Hn as (Hj & Hl & Hs). auto.
Qed.

(** X6: [chunk_pdf] draws one identifier per chunk, in the order of the
    list: the ids of the chunks are consecutive draws of [uuid4], and
    they are pairwise distinct when the draws are. *)
Theorem chunk_pdf_ids (fuel : nat) (pages : list Page)
    (pdf_type : pystr) (chunk_size_words overlap_words : Z)
    (include_tables : bool) (u u' : nat) (chunks : list Chunk) :
  chunk_pdf fuel pages pdf_type chunk_size_words overlap_words
    include_tables u = Some (chunks, u') ->
  List.map id chunks = List.map uuid4 (seq u (length chunks))
  /\ u' = (u + length chunks)%nat
  /\ ((forall i j, uuid4 i = uuid4 j -> i = j) ->
      NoDup (List.map id chunks)).
Proof.
  intros Hc. unfold chunk_pdf in Hc.
  apply (chunk_pages_chunks _ _ _ _ _ (fun _ => True)) in Hc
    as (new & -> & -> & Hid & _).
  - simpl. split; [exact Hid|]. split; [reflexivity|].
    intros Hinj. rewrite Hid. apply NoDup_fmap_2; [|apply NoDup_seq].
    intros i j. apply Hinj.
  - intros. apply Forall_forall. auto.
Qed.

(** The words a list of chunks adds: all the words of the first
    chunk, and the words of each later chunk after the [overlap] ones
    it repeats. *)
Definition fresh_words (overlap : Z) (chunks : list Chunk) : list pystr :=
  match chunks with
  | [] => []
  | c :: rest =>
      split (text c)
      ++ flat_map (fun c => drop (Z.to_nat overlap) (split (text c))) rest
  end.

(** The window loop in closed form, for [overlap < size]: the chunk at
    position [k] holds the [size] words from [start + k * (size -
    overlap)] on, and for [0 <= overlap] the windows cover the words
    from [start] on. *)
Lemma chunk_loop_windows words pt pn size overlap :
  Forall is_word words -> 0 < size -> overlap < size ->
  forall fuel start li gi acc u res u',
    0 <= start ->
    chunk_loop fuel words pt pn size overlap start li gi acc u
      = Some (res, u') ->
    exists new,
      res = acc ++ new
      /\ (forall (k : nat) c,
            new !! k = Some c ->
            let s := start + Z.of_nat k * (size - overlap) in
            s < len words
            /\ text c
               = join (str " ")
                   (take (Z.to_nat size) (drop (Z.to_nat s) words)))
      /\ (0 <= overlap ->
          fresh_words overlap new = drop (Z.to_nat start) words).
Proof.
  intros Hwords Hsize Hso.
  induction fuel as [|fuel IH]; intros start li gi acc u res u' Hs Hc;
    simpl in Hc; destruct (Z.ltb_spec start (len words)) as [Hlt|Hge];
    try discriminate;
    try (inversion Hc; subst; exists []; rewrite app_nil_r;
         split; [reflexivity|]; split; [intros k c Hk; inversion Hk|];
         intros _; simpl; rewrite drop_ge by (unfold len in Hge; lia);
         reflexivity).
  rewrite window_take_drop in Hc by lia.
  rewrite strip_join_words in Hc by (apply Forall_take, Forall_drop, Hwords).
  set (c0 := {| id := uuid4 u;
                text := join (str " ")
                          (take (Z.to_nat size) (drop (Z.to_nat start) words));
                metadata :=
                  {| pdf_type := pt; page_number := pn;
                     local_chunk_index := li; global_chunk_index := gi |} |})
    in *.
  assert (Hsplit : split (text c0)
                   = take (Z.to_nat size) (drop (Z.to_nat start) words)).
  { simpl. apply split_join_words, Forall_take, Forall_drop, Hwords. }
  destruct (Z.eqb_spec (Z.min (start + size) (len words)) (len words))
    as [Hend|Hend].
  - inversion Hc; subst res u'. exists [c0]. split; [reflexivity|]. split.
    + intros [|k] c Hk; [|inversion Hk]. injection Hk as <-.
      replace (start + Z.of_nat 0 * (size - overlap)) with start by lia.
      split; [lia | reflexivity].
    + intros _. unfold fresh_words. cbn [flat_map]. rewrite app_nil_r, Hsplit.
      apply take_ge. rewrite length_drop. unfold len in *. lia.
  - assert (Hmin : Z.min (start + size) (len words) = start + size) by lia.
    rewrite Hmin in Hc.
    replace (Z.max 0 (start + size - overlap))
      with (start + (size - overlap)) in Hc by lia.
    apply IH in Hc as (new & -> & Hwin & Hcover); [|lia].
    exists (c0 :: new). rewrite <- app_assoc. split; [reflexivity|]. split.
    + intros [|k] c Hk.
      * injection Hk as <-.
        replace (start + Z.of_nat 0 * (size - overlap)) with start by lia.
        split; [lia | reflexivity].
      * simpl in Hk. apply Hwin in Hk.
        replace (start + Z.of_nat (S k) * (size - overlap))
          with (start + (size - overlap) + Z.of_nat k * (size - overlap))
          by lia.
        exact Hk.
    + intros Hov. specialize (Hcover Hov).
      destruct new as [|c1 new].
      { exfalso. simpl in Hcover. symmetry in Hcover.
        apply (f_equal (@length _)) in Hcover.
        rewrite length_drop in Hcover. unfold len in *. simpl in Hcover.
        lia. }
      destruct (Hwin 0%nat c1 eq_refl) as [Hin1 Ht1].
      replace (start + (size - overlap) + Z.of_nat 0 * (size - overlap))
        with (start + (size - overlap)) in * by lia.
      assert (Hsplit1 : split (text c1)
                = take (Z.to_nat size)
                    (drop (Z.to_nat (start + (size - overlap))) words)).
      { rewrite Ht1. apply split_join_words, Forall_take, Forall_drop, Hwords. }
      unfold fresh_words in *. cbn [flat_map].
      rewrite Hsplit.
      rewrite <- (take_drop (Z.to_nat size) (drop (Z.to_nat start) words))
        at 2.
      f_equal.
      rewrite <- drop_app_le.
      * rewrite Hcover, !drop_drop. f_equal. lia.
      * rewrite Hsplit1, length_take, length_drop. unfold len in *. lia.
Qed.

(** The number of windows over [n] words. *)
Definition window_count (n size overlap : Z) : Z :=
  if size <? n
  then chunking_properties.ceil_div (n - overlap) (size - overlap)
  else 1.

Lemma chunk_loop_count words pt pn size overlap :
  0 <= overlap < size ->
  forall fuel start li gi acc u res u',
    0 <= start < len words ->
    chunk_loop fuel words pt pn size overlap start li gi acc u
      = Some (res, u') ->
    len res = len acc + window_count (len words - start) size overlap.
Proof.
  intros Hso.
  induction fuel as [|fuel IH]; intros start li gi acc u res u' Hs Hc;
    simpl in Hc; destruct (Z.ltb_spec start (len words)) as [Hlt|Hge];
    try discriminate; try lia.
  destruct (Z.eqb_spec (Z.min (start + size) (len words)) (len words))
    as [Hend|Hend].
  - inversion Hc; subst res u'.
    rewrite chunking_properties.len_snoc. unfold window_count.
    destruct (Z.ltb_spec size (len words - start)); lia.
  - assert (Hmin : Z.min (start + size) (len words) = start + size) by lia.
    rewrite Hmin in Hc.
    replace (Z.max 0 (start + size - overlap))
      with (start + (size - overlap)) in Hc by lia.
    apply IH in Hc; [|lia].
    rewrite Hc, chunking_properties.len_snoc. clear IH Hc.
    unfold window_count.
    destruct (Z.ltb_spec size (len words - start)); [|lia].
    destruct (Z.ltb_spec size (len words - (start + (size - overlap)))).
    + assert (chunking_properties.ceil_div (len words - start - overlap)
                (size - overlap)
              = 1 + chunking_properties.ceil_div
                      (len words - (start + (size - overlap)) - overlap)
                      (size - overlap)); [|lia].
      apply chunking_properties.ceil_div_spec; [lia|].
      pose proof (proj1 (chunking_properties.ceil_div_spec
                           (len words - (start + (size - overlap)) - overlap)
                           (size - overlap) _ ltac:(lia)) eq_refl).
      nia.
    + assert (chunking_properties.ceil_div (len words - start - overlap)
                (size - overlap) = 2); [|lia].
      apply chunking_properties.ceil_div_spec; lia.
Qed.

(** X1: with [overlap_words < chunk_size_words] the chunk at position
    [k] of a page holds the [chunk_size_words] words of the page from
    word [k * (chunk_size_words - overlap_words)] on (fewer at the end
    of the page), joined by single spaces. *)
Theorem chunk_page_text_windows (fuel : nat) (page_text pdf_type : pystr)
    (page_number chunk_size_words overlap_words start_index : Z)
    (u u' : nat) (chunks : list Chunk) :
  0 < chunk_size_words -> overlap_words < chunk_size_words ->
  chunk_page_text fuel page_text pdf_type page_number chunk_size_words
    overlap_words start_index u = Some (chunks, u') ->
  forall (k : nat) c,
    chunks !! k = Some c ->
    let s := Z.of_nat k * (chunk_size_words - overlap_words) in
    s < len (split page_text)
    /\ text c
       = join (str " ")
           (take (Z.to_nat chunk_size_words)
              (drop (Z.to_nat s) (split page_text))).
Proof.
  intros Hsize Hso Hc k c Hk. unfold chunk_page_text in Hc.
  destruct (split page_text) as [|w ws] eqn:Hw.
  - injection Hc as <- <-. inversion Hk.
  - apply chunk_loop_windows in Hc as (new & -> & Hwin & _);
      [|rewrite <- Hw; apply split_words|assumption|assumption|lia].
    apply (Hwin k c Hk).
Qed.

(** X2: with [0 <= overlap_words < chunk_size_words] no word of the
    page is lost and none is added: the words of the first chunk,
    followed by the words of every later chunk without the
    [overlap_words] words it repeats from its predecessor, are the
    words of the page, in order. *)
Theorem chunk_page_text_covers_page (fuel : nat)
    (page_text pdf_type : pystr)
    (page_number chunk_size_words overlap_words start_index : Z)
    (u u' : nat) (chunks : list Chunk) :
  0 <= overlap_words < chunk_size_words ->
  chunk_page_text fuel page_text pdf_type page_number chunk_size_words
    overlap_words start_index u = Some (chunks, u') ->
  fresh_words overlap_words chunks = split page_text.
Proof.
  intros Hso Hc. unfold chunk_page_text in Hc.
  destruct (split page_text) as [|w ws] eqn:Hw.
  - injection Hc as <- <-. reflexivity.
  - apply chunk_loop_windows in Hc as (new & -> & _ & Hcover);
      [|rewrite <- Hw; apply split_words|lia|lia|lia].
    apply Hcover. lia.
Qed.

(** X3: with [0 <= overlap_words < chunk_size_words] a page of [n >= 1]
    words gives one chunk when [n <= chunk_size_words] and
    [ceil((n - overlap_words) / (chunk_size_words - overlap_words))]
    chunks otherwise, given fuel for one iteration per word. *)
Theorem chunk_page_text_count (fuel : nat) (page_text pdf_type : pystr)
    (page_number chunk_size_words overlap_words start_index : Z)
    (u : nat) :
  let n := len (split page_text) in
  0 <= overlap_words < chunk_size_words ->
  0 < n <= Z.of_nat fuel ->
  exists chunks u',
    chunk_page_text fuel page_text pdf_type page_number chunk_size_words
      overlap_words start_index u = Some (chunks, u')
    /\ len chunks
       = if chunk_size_words <? n
         then chunking_properties.ceil_div (n - overlap_words)
                (chunk_size_words - overlap_words)
         else 1.
Proof.
  intros n Hso Hn.
  destruct (chunking_properties.chunk_page_text_total page_text pdf_type
              page_number chunk_size_words overlap_words start_index u fuel)
    as (chunks & u' & Hc); [lia | fold n; lia |].
  exists chunks, u'. split; [exact Hc|].
  unfold chunk_page_text in Hc. subst n.
  destruct (split page_text) as [|w ws] eqn:Hw;
    [unfold len in Hn; simpl in Hn; lia|].
  apply (chunk_loop_count _ _ _ _ _ Hso) in Hc; [|lia].
  rewrite Hc. unfold window_count. rewrite Z.sub_0_r. reflexivity.
Qed.

(** X4: [chunk_page_text] returns no chunk exactly for a page text made
    of whitespace only (the empty text included), and for such a text
    it returns at once, whatever the window parameters. *)
Theorem chunk_page_text_empty_iff (fuel : nat) (page_text pdf_type : pystr)
    (page_number chunk_size_words overlap_words start_index : Z)
    (u : nat) :
  (forallb isspace page_text = true ->
   chunk_page_text fuel page_text pdf_type page_number chunk_size_words
     overlap_words start_index u = Some ([], u))
  /\ (forall u',
        chunk_page_text fuel page_text pdf_type page_number chunk_size_words
          overlap_words start_index u = Some ([], u') ->
        forallb isspace page_text = true).
Proof.
  unfold chunk_page_text. split.
  - intros Hsp. apply split_nil_iff in Hsp. rewrite Hsp. reflexivity.
  - intros u' Hc. apply split_nil_iff.
    destruct (split page_text) as [|w ws] eqn:Hw; [reflexivity|].
    exfalso. destruct fuel as [|fuel]; simpl in Hc.
    + destruct (Z.ltb_spec 0 (len (w :: ws))) as [|Hge]; [discriminate|].
      unfold len in Hge. simpl in Hge. lia.
    + destruct (Z.ltb_spec 0 (len (w :: ws))) as [|Hge];
        [|unfold len in Hge; simpl in Hge; lia].
      destruct (_ =? _); [discriminate|].
      apply chunking_properties.chunk_loop_shape in Hc as (new & Hnew & _).
      destruct new; discriminate.
Qed.

End with_env.

(** *** Runs on a page of five words *)

(** Windows of two words that overlap by one. *)
Definition five_words : pystr := str "a  b c" ++ NL ++ str "d e ".

Lemma chunk_page_text_windows_witness :
  match @chunk_page_text Mock.uuids 5 five_words (str "other") 1 2 1 0 0 with
  | Some (chunks, _) =>
      match chunks !! 1%nat with
      | Some c => text c = str "b c"
      | None => False
      end
  | None => False
  end.
Proof.
  destruct (@chunk_page_text Mock.uuids 5 five_words (str "other") 1 2 1 0 0)
    as [[chunks u']|] eqn:Hc; [|vm_compute in Hc; discriminate Hc].
  destruct (chunks !! 1%nat) as [c|] eqn:Hk.
  - destruct (@chunk_page_text_windows Mock.uuids 5 five_words (str "other")
                1 2 1 0 0 u' chunks ltac:(lia) ltac:(lia) Hc 1%nat c Hk)
      as [_ Ht].
    rewrite Ht. vm_compute. reflexivity.
  - vm_compute in Hc. injection Hc as <- _. discriminate Hk.
Defined.

Lemma chunk_page_text_covers_page_witness :
  match @chunk_page_text Mock.uuids 5 five_words (str "other") 1 2 1 0 0 with
  | Some (chunks, _) =>
      fresh_words 1 chunks = [str "a"; str "b"; str "c"; str "d"; str "e"]
  | None => False
  end.
Proof.
  destruct (@chunk_page_text Mock.uuids 5 five_words (str "other") 1 2 1 0 0)
    as [[chunks u']|] eqn:Hc; [|vm_compute in Hc; discriminate Hc].
  rewrite (@chunk_page_text_covers_page Mock.uuids 5 five_words (str "other")
             1 2 1 0 0 u' chunks ltac:(lia) Hc).
  vm_compute. reflexivity.
Defined.

Lemma chunk_page_text_count_witness :
  exists chunks u',
    @chunk_page_text Mock.uuids 5 five_words (str "other") 1 2 1 0 0
    = Some (chunks, u')
    /\ len chunks = 4.
Proof.
  destruct (@chunk_page_text_count Mock.uuids 5 five_words (str "other")
              1 2 1 0 0) as (chunks & u' & Hc & Hlen).
  - lia.
  - vm_compute. split; [reflexivity | discriminate].
  - exists chunks, u'. split; [exact Hc|]. rewrite Hlen. vm_compute.
    reflexivity.
Defined.

Lemma chunk_page_text_empty_iff_witness :
  @chunk_page_text Mock.uuids 0 (str "  " ++ NL ++ str " ") (str "other")
    1 0 7 0 0 = Some ([], O).
Proof.
  apply (@chunk_page_text_empty_iff Mock.uuids 0 (str "  " ++ NL ++ str " ")
           (str "other") 1 0 7 0 0).
  vm_compute. reflexivity.
Defined.

Lemma chunk_pdf_texts_normal_witness :
  match @chunk_pdf Mock.unicode Mock.uuids 3 chunking_properties.three_pages
          (str "other") 2 0 true 0 with
  | Some (chunks, _) =>
      Forall (fun c =>
                text c = join (str " ") (split (text c))
                /\ 0 < len (split (text c)) <= 2
                /\ strip (text c) = text c
                /\ text c <> []) chunks
  | None => False
  end.
Proof.
  destruct (@chunk_pdf Mock.unicode Mock.uuids 3
              chunking_properties.three_pages (str "other") 2 0 true 0)
    as [[chunks u']|] eqn:Hc; [|vm_compute in Hc; discriminate Hc].
  exact (@chunk_pdf_texts_normal Mock.unicode Mock.uuids 3
           chunking_properties.three_pages (str "other") 2 0 true 0 u' chunks
           ltac:(lia) Hc).
Defined.

Lemma chunk_pdf_ids_witness :
  match @chunk_pdf Mock.unicode Mock.uuids 3 chunking_properties.three_pages
          (str "other") 2 0 true 0 with
  | Some (chunks, u') =>
      List.map id chunks = [str "uuid-0"; str "uuid-1"; str "uuid-2"]
      /\ u' = 3%nat
  | None => False
  end.
Proof.
  destruct (@chunk_pdf Mock.unicode Mock.uuids 3
              chunking_properties.three_pages (str "other") 2 0 true 0)
    as [[chunks u']|] eqn:Hc; [|vm_compute in Hc; discriminate Hc].
  destruct (@chunk_pdf_ids Mock.unicode Mock.uuids 3
              chunking_properties.three_pages (str "other") 2 0 true 0 u'
              chunks Hc) as (Hid & Hu & _).
  assert (Hlen : length chunks = 3%nat).
  { vm_compute in Hc. injection Hc as <- _. reflexivity. }
  rewrite Hid, Hu, Hlen. split; vm_compute; reflexivity.
Defined.

End chunk_text_properties.

(** ** The outcomes of the LLM gateway *)

Module llm_outcome_properties.
Import llm_client llm_properties.

(** The time slept in all. *)
Definition total_sleep (sleeps : list Z) : Z := fold_right Z.add 0 sleeps.

Lemma waits_S (a k : nat) :
  waits a (S k) = Z.min (2 ^ Z.of_nat a) 15 :: waits (S a) k.
Proof. reflexivity. Qed.

Lemma total_sleep_waits (a k : nat) :
  Z.of_nat k <= total_sleep (waits a k) <= 15 * Z.of_nat k.
Proof.
  revert a. induction k as [|k IH]; intros a; [simpl; lia|].
  rewrite waits_S. cbn [total_sleep fold_right]. fold (total_sleep (waits (S a) k)).
  specialize (IH (S a)).
  pose proof (Z.pow_pos_nonneg 2 (Z.of_nat a) ltac:(lia) ltac:(lia)). lia.
Qed.

Section with_env.
Context `{!Unicode, !OpenAIClient}.

(** How a run of the retry loop ended after [k] transient failures
    from the attempt [a] on. *)
Definition ended (prompt : pystr) (limit at_ : nat) (r : res pystr) : Prop :=
  match r with
  | Ok output_text =>
      (at_ < limit)%nat /\ responses_create prompt at_ = Response output_text
  | Raise RuntimeError => at_ = limit
  | Raise (ApiError err) =>
      (at_ < limit)%nat /\ responses_create prompt at_ = Fails err
      /\ is_transient err = false
  | Raise _ => False
  end.

Lemma ask_llm_from_outcome prompt :
  forall remaining a r sleeps,
    ask_llm_from prompt remaining (Z.of_nat a) = (r, sleeps) ->
    exists k,
      (k <= remaining)%nat
      /\ sleeps = waits a k
      /\ transient_run prompt a k
      /\ ended prompt (a + remaining) (a + k) r.
Proof.
  induction remaining as [|remaining IH]; intros a r sleeps Hrun.
  - injection Hrun as <- <-. exists O. split; [lia|]. split; [reflexivity|].
    split; [intros i Hi; lia | simpl; lia].
  - cbn [ask_llm_from] in Hrun. rewrite Nat2Z.id in Hrun.
    destruct (responses_create prompt a) as [output_text|err] eqn:Hcall.
    + injection Hrun as <- <-. exists O. split; [lia|].
      split; [reflexivity|]. split; [intros i Hi; lia|].
      simpl. rewrite Nat.add_0_r. split; [lia | exact Hcall].
    + destruct (is_transient err) eqn:Htr.
      * replace (Z.of_nat a + 1) with (Z.of_nat (S a)) in Hrun by lia.
        destruct (ask_llm_from prompt remaining (Z.of_nat (S a)))
          as [r' sleeps'] eqn:Hrest.
        injection Hrun as <- <-.
        apply IH in Hrest as (k & Hk & -> & Htrans & Hend).
        exists (S k). split; [lia|]. split; [apply waits_S|]. split.
        -- intros i Hi. destruct (Nat.eq_dec i a) as [->|Hne];
             [eauto | apply Htrans; lia].
        -- replace (a + S remaining)%nat with (S a + remaining)%nat by lia.
           replace (a + S k)%nat with (S a + k)%nat by lia. exact Hend.
      * injection Hrun as <- <-. exists O. split; [lia|].
        split; [reflexivity|]. split; [intros i Hi; lia|].
        simpl. rewrite Nat.add_0_r. split; [lia | auto].
Qed.

(** X9: whatever the endpoint does, [ask_llm] ends in one of three
    ways after some number [k <= max_retries] of transient failures,
    having slept [min(2 ** i, 15)] seconds after the failure of each
    attempt [i < k] and never more than [15 * k] seconds in all: it
    returns the text of the response to attempt [k]; or it re-raises
    the error of attempt [k], which is not transient; or [k] is
    [max_retries] and it raises [RuntimeError]. It never calls the
    endpoint more than [max_retries] times. *)
Theorem ask_llm_outcomes (prompt : pystr) (max_retries : Z)
    (r : res pystr) (sleeps : list Z) :
  ask_llm_trace prompt max_retries = (r, sleeps) ->
  exists k : nat,
    Z.of_nat k <= Z.max 0 max_retries
    /\ sleeps = waits 0 k
    /\ transient_run prompt 0 k
    /\ match r with
       | Ok output_text =>
           Z.of_nat k < max_retries
           /\ responses_create prompt k = Response output_text
       | Raise RuntimeError => Z.of_nat k = Z.max 0 max_retries
       | Raise (ApiError err) =>
           Z.of_nat k < max_retries
           /\ responses_create prompt k = Fails err
           /\ is_transient err = false
       | Raise _ => False
       end
    /\ total_sleep sleeps <= 15 * Z.of_nat k.
Proof.
  unfold ask_llm_trace. intros Hrun.
  apply (ask_llm_from_outcome prompt _ O) in Hrun
    as (k & Hk & -> & Htrans & Hend).
  exists k. split; [lia|]. split; [reflexivity|]. split; [exact Htrans|].
  split; [|apply total_sleep_waits].
  simpl in Hend. destruct r as [t|e]; [|destruct e]; simpl in Hend;
    try tauto; try lia.
  - destruct Hend as (Hlt & Hcall). split; [lia|exact Hcall].
  - destruct Hend as (Hlt & Hcall & Hnt). split; [lia|auto].
Qed.

End with_env.

(** The run of [ask_llm] on the endpoint that is overloaded twice. *)
Lemma ask_llm_outcomes_witness :
  exists k : nat,
    Z.of_nat k <= Z.max 0 6
    /\ [1; 2] = waits 0 k
    /\ @transient_run Mock.unicode flaky_client (str "prompt") 0 k
    /\ (Z.of_nat k < 6
        /\ @responses_create flaky_client (str "prompt") k
           = Response (str "[]"))
    /\ total_sleep [1; 2] <= 15 * Z.of_nat k.
Proof.
  exact (@ask_llm_outcomes Mock.unicode flaky_client (str "prompt") 6
           (Ok (str "[]")) [1; 2] eq_refl).
Defined.

End llm_outcome_properties.

(** ** The texts of the classifier *)

Module classifier_text_properties.
Import pdf_classifier pystr_facts.

(** *** Substrings *)

Lemma startswith_app (s t p : pystr) :
  startswith s p = true -> startswith (s ++ t) p = true.
Proof.
  revert s. induction p as [|a p IH]; intros s;
    [intros _; apply parsing_properties.startswith_nil|].
  destruct s as [|b s]; simpl; [discriminate|].
  intros Hs. apply andb_prop in Hs as [-> Hs]. simpl. apply IH, Hs.
Qed.

Lemma contains_cons (c : N) (s p : pystr) :
  contains (c :: s) p = startswith (c :: s) p || contains s p.
Proof. reflexivity. Qed.

Lemma contains_app_r (s t p : pystr) :
  contains (s ++ t) p = false -> contains t p = false.
Proof.
  induction s as [|c s IH]; [tauto|].
  cbn [app]. rewrite contains_cons. intros H.
  apply orb_false_elim in H as [_ H]. apply IH, H.
Qed.

Lemma contains_app_l (s t p : pystr) :
  contains (s ++ t) p = false -> contains s p = false.
Proof.
  induction s as [|c s IH].
  - destruct p; [destruct t; discriminate | reflexivity].
  - cbn [app]. rewrite !contains_cons. intros H.
    apply orb_false_elim in H as [Hs H]. rewrite (IH H), orb_false_r.
    destruct (startswith (c :: s) p) eqn:Hp; [|reflexivity].
    apply (startswith_app _ t) in Hp. simpl in Hp, Hs. congruence.
Qed.

(** A text that is cut out of another one has no substring that the
    other one does not have. *)
Lemma contains_infix (pre s post p : pystr) :
  contains (pre ++ s ++ post) p = false -> contains s p = false.
Proof. intros H. apply contains_app_r, contains_app_l in H. exact H. Qed.

Lemma strip_contains (s p : pystr) :
  contains s p = false -> contains (strip s) p = false.
Proof.
  destruct (strip_decompose s) as (pre & post & Hs & _).
  intros H. rewrite Hs in H. apply contains_infix in H. exact H.
Qed.

Lemma strip_In (s : pystr) (c : N) : In c (strip s) -> In c s.
Proof.
  destruct (strip_decompose s) as (pre & post & Hs & _).
  intros H. rewrite Hs, !in_app_iff. auto.
Qed.

(** [s.replace(old, new)] leaves a text without [old] as it is. *)
Lemma replace_absent (s old new : pystr) :
  old <> [] -> contains s old = false -> replace s old new = s.
Proof.
  intros Hold. unfold replace. destruct old as [|o old]; [contradiction|].
  induction s as [|c s IH]; [reflexivity|].
  rewrite contains_cons. intros H. apply orb_false_elim in H as [Hs H].
  cbn [replace_aux]. rewrite Hs, IH by exact H. reflexivity.
Qed.

(** *** [strip] around a core *)

(** [s.strip()] and [s.strip(chars)] remove a prefix and a suffix of
    characters to drop around a core that neither starts nor ends with
    one. *)
Lemma trim_affixes {A} (p : A -> bool) (pre core post : list A) :
  forallb p pre = true -> forallb p post = true ->
  (forall c, head core = Some c -> p c = false) ->
  (forall c, last core = Some c -> p c = false) ->
  rev (drop_while p (rev (drop_while p (pre ++ core ++ post)))) = core.
Proof.
  intros Hpre Hpost Hh Hl.
  destruct core as [|x core].
  { simpl. destruct (drop_while_suffix p (pre ++ post)) as (a & Ha & _).
    assert (Hall : forallb p (pre ++ post) = true)
      by (apply forallb_app_true; auto).
    assert (Hd : drop_while p (pre ++ post) = []).
    { clear Ha. induction (pre ++ post) as [|y l IH]; [reflexivity|].
      simpl in *. apply andb_prop in Hall as [-> Hall]. auto. }
    rewrite Hd. reflexivity. }
  cbn [app].
  rewrite (parsing_properties.drop_while_app_all p pre x)
    by (auto; apply Hh; reflexivity).
  destruct (list.last (x :: core)) as [y|] eqn:Hy;
    [|apply last_None in Hy; discriminate].
  pose proof (Hl y eq_refl) as Hpy.
  apply last_Some in Hy as (l & Heq).
  change (x :: core ++ post) with ((x :: core) ++ post).
  rewrite Heq, rev_app_distr, (rev_app_distr l). change (rev [y]) with [y].
  cbn [app].
  rewrite (parsing_properties.drop_while_app_all p (rev post) y).
  - change (y :: rev l) with (rev [y] ++ rev l).
    rewrite <- rev_app_distr, rev_involutive. reflexivity.
  - rewrite forallb_forall in *. intros z Hz. apply Hpost, in_rev, Hz.
  - exact Hpy.
Qed.

Lemma strip_affixes (pre core post : pystr) :
  forallb isspace pre = true -> forallb isspace post = true ->
  tight core -> strip (pre ++ core ++ post) = core.
Proof. intros Hpre Hpost [Hh Hl]. apply trim_affixes; assumption. Qed.

Lemma strip_chars_affixes (chars pre core post : pystr) :
  forallb (in_chars chars) pre = true ->
  forallb (in_chars chars) post = true ->
  (forall c, head core = Some c -> in_chars chars c = false) ->
  (forall c, last core = Some c -> in_chars chars c = false) ->
  strip_chars chars (pre ++ core ++ post) = core.
Proof. apply trim_affixes. Qed.

(** *** [clean_text] *)

Lemma replace_nul (s : pystr) :
  replace s [0%N] [] = List.filter (fun c => negb (c =? 0)%N) s.
Proof.
  unfold replace. induction s as [|c s IH]; [reflexivity|].
  cbn [replace_aux]. rewrite parsing_properties.startswith_char.
  rewrite N.eqb_sym. simpl. destruct (c =? 0)%N; simpl; rewrite IH; reflexivity.
Qed.

Lemma squeeze_spaces_head (s : pystr) :
  forall c, exists t, squeeze_spaces (c :: s) = c :: t.
Proof.
  induction s as [|c' s IH]; intros c; [exists []; reflexivity|].
  cbn [squeeze_spaces].
  destruct (N.eqb_spec c 32) as [->|]; simpl; [|eauto].
  destruct (N.eqb_spec c' 32) as [->|]; [apply IH | eauto].
Qed.

Lemma squeeze_spaces_In (s : pystr) (x : N) :
  In x (squeeze_spaces s) -> In x s.
Proof.
  induction s as [|c s IH]; [tauto|].
  cbn [squeeze_spaces]. destruct s as [|c' s]; [tauto|].
  destruct ((c =? 32)%N && (c' =? 32)%N).
  - intros H. right. apply IH, H.
  - intros [->|H]; [left; reflexivity | right; apply IH, H].
Qed.

Lemma contains_pair (a c d : N) (s : pystr) :
  contains (a :: s) [c; d]
  = ((c =? a)%N && match s with b :: _ => (d =? b)%N | [] => false end)
    || contains s [c; d].
Proof.
  rewrite contains_cons. f_equal. cbn [startswith].
  destruct s as [|b s]; cbn [startswith]; [reflexivity|].
  rewrite parsing_properties.startswith_nil, andb_true_r. reflexivity.
Qed.

Lemma contains_pair_single (a c d : N) : contains [a] [c; d] = false.
Proof. rewrite contains_pair. simpl. rewrite andb_false_r. reflexivity. Qed.

(** After [re.sub(r"[ ]{2,}", " ", text)] no two spaces are adjacent. *)
Lemma squeeze_spaces_single (s : pystr) :
  contains (squeeze_spaces s) (str "  ") = false.
Proof.
  change (str "  ") with [32%N; 32%N].
  induction s as [|c s IH]; [reflexivity|].
  cbn [squeeze_spaces]. destruct s as [|c' s]; [apply contains_pair_single|].
  destruct ((c =? 32)%N && (c' =? 32)%N) eqn:Hcc; [exact IH|].
  destruct (squeeze_spaces_head s c') as (t & Ht).
  rewrite contains_pair, IH, Ht, orb_false_r.
  rewrite (N.eqb_sym 32 c), (N.eqb_sym 32 c'). exact Hcc.
Qed.

Lemma squeeze_newlines_cons (c : N) (s : pystr) :
  squeeze_newlines (c :: s)
  = match s with
    | c' :: c'' :: _ =>
        if (c =? 10)%N && (c' =? 10)%N && (c'' =? 10)%N
        then squeeze_newlines s
        else c :: squeeze_newlines s
    | _ => c :: squeeze_newlines s
    end.
Proof. destruct s as [|c' [|c'' s]]; reflexivity. Qed.

Lemma squeeze_newlines_head (s : pystr) :
  forall c, exists t, squeeze_newlines (c :: s) = c :: t.
Proof.
  induction s as [|c' s IH]; intros c; [exists []; reflexivity|].
  rewrite squeeze_newlines_cons. destruct s as [|c'' s]; [eauto|].
  destruct ((c =? 10)%N && (c' =? 10)%N && (c'' =? 10)%N) eqn:Hc; [|eauto].
  apply andb_prop in Hc as [Hc _]. apply andb_prop in Hc as [Hc Hc'].
  apply N.eqb_eq in Hc, Hc'. subst. apply IH.
Qed.

Lemma squeeze_newlines_In (s : pystr) (x : N) :
  In x (squeeze_newlines s) -> In x s.
Proof.
  induction s as [|c s IH]; [tauto|].
  rewrite squeeze_newlines_cons.
  assert (Hkeep : In x (c :: squeeze_newlines s) -> In x (c :: s))
    by (intros [->|H]; [left; reflexivity | right; apply IH, H]).
  destruct s as [|c' [|c'' s]]; try exact Hkeep.
  destruct ((c =? 10)%N && (c' =? 10)%N && (c'' =? 10)%N); [|exact Hkeep].
  intros H. right. apply IH, H.
Qed.

(** [re.sub(r"\n{3,}", "\n\n", text)] brings no two spaces together. *)
Lemma squeeze_newlines_spaces (s : pystr) :
  contains s (str "  ") = false ->
  contains (squeeze_newlines s) (str "  ") = false.
Proof.
  change (str "  ") with [32%N; 32%N].
  induction s as [|c s IH]; [reflexivity|].
  rewrite contains_pair. intros H. apply orb_false_elim in H as [Hc H].
  specialize (IH H). rewrite squeeze_newlines_cons.
  assert (Hkeep : contains (c :: squeeze_newlines s) [32%N; 32%N] = false).
  { rewrite contains_pair, IH, orb_false_r.
    destruct s as [|c' s]; [simpl; apply andb_false_r|].
    destruct (squeeze_newlines_head s c') as (t & ->). exact Hc. }
  destruct s as [|c' [|c'' s]]; try exact Hkeep.
  destruct ((c =? 10)%N && (c' =? 10)%N && (c'' =? 10)%N);
    [exact IH | exact Hkeep].
Qed.

Lemma startswith_triple (a c : N) (s : pystr) :
  startswith (a :: s) [c; c; c]
  = (c =? a)%N
    && match s with
       | b :: b' :: _ => (c =? b)%N && (c =? b')%N
       | _ => false
       end.
Proof.
  simpl. f_equal. destruct s as [|b [|b' s]]; simpl;
    rewrite ?andb_false_r, ?parsing_properties.startswith_nil, ?andb_true_r;
    reflexivity.
Qed.

Lemma squeeze_newlines_keep (c c' : N) (s : pystr) :
  (c' =? 10)%N = false ->
  squeeze_newlines (c :: c' :: s) = c :: squeeze_newlines (c' :: s).
Proof.
  intros Hc. rewrite squeeze_newlines_cons. destruct s; [reflexivity|].
  rewrite Hc, andb_false_r. reflexivity.
Qed.

(** After [re.sub(r"\n{3,}", "\n\n", text)] no three line ends are
    adjacent. *)
Lemma squeeze_newlines_double (s : pystr) :
  contains (squeeze_newlines s) (NL ++ NL ++ NL) = false.
Proof.
  change (NL ++ NL ++ NL) with [10%N; 10%N; 10%N].
  induction s as [|c s IH]; [reflexivity|].
  rewrite squeeze_newlines_cons.
  destruct s as [|c' [|c'' s]].
  - rewrite contains_cons, startswith_triple, andb_false_r. reflexivity.
  - change (squeeze_newlines [c']) with [c'].
    rewrite contains_cons, startswith_triple, andb_false_r.
    rewrite contains_cons, startswith_triple, andb_false_r. reflexivity.
  - destruct ((c =? 10)%N && (c' =? 10)%N && (c'' =? 10)%N) eqn:Hccc;
      [exact IH|].
    rewrite contains_cons, IH, orb_false_r.
    destruct (squeeze_newlines_head (c'' :: s) c') as (t & Ht).
    rewrite Ht in *. rewrite startswith_triple.
    rewrite (N.eqb_sym 10 c).
    destruct (c =? 10)%N; [|reflexivity].
    destruct t as [|b t]; [reflexivity|].
    rewrite (N.eqb_sym 10 c').
    destruct (c' =? 10)%N eqn:Hc'; [|reflexivity].
    simpl in Hccc. rewrite squeeze_newlines_keep in Ht by exact Hccc.
    destruct (squeeze_newlines_head s c'') as (t' & Ht').
    rewrite Ht' in Ht. injection Ht as <- _.
    rewrite (N.eqb_sym 10 c''), Hccc. reflexivity.
Qed.

Lemma squeeze_spaces_id (s : pystr) :
  contains s (str "  ") = false -> squeeze_spaces s = s.
Proof.
  change (str "  ") with [32%N; 32%N].
  induction s as [|c s IH]; [reflexivity|].
  rewrite contains_pair. intros H. apply orb_false_elim in H as [Hc H].
  cbn [squeeze_spaces]. destruct s as [|c' s]; [reflexivity|].
  rewrite (N.eqb_sym 32 c), (N.eqb_sym 32 c') in Hc.
  rewrite Hc, IH by exact H. reflexivity.
Qed.

Lemma squeeze_newlines_id (s : pystr) :
  contains s (NL ++ NL ++ NL) = false -> squeeze_newlines s = s.
Proof.
  change (NL ++ NL ++ NL) with [10%N; 10%N; 10%N].
  induction s as [|c s IH]; [reflexivity|].
  rewrite contains_cons, startswith_triple.
  intros H. apply orb_false_elim in H as [Hc H].
  cbn [squeeze_newlines]. rewrite (IH H).
  destruct s as [|c' [|c'' s]]; try reflexivity.
  rewrite (N.eqb_sym 10 c), (N.eqb_sym 10 c'), (N.eqb_sym 10 c''),
    andb_assoc in Hc.
  rewrite Hc. reflexivity.
Qed.

(** X10: the text [clean_text] returns is in normal form: it has no NUL
    character, no two adjacent spaces, no three adjacent line ends
    and no whitespace at its ends; and cleaning a cleaned text changes
    nothing. *)
Theorem clean_text_normal_form (text : pystr) :
  let cleaned := clean_text text in
  ~ In 0%N cleaned
  /\ contains cleaned (str "  ") = false
  /\ contains cleaned (NL ++ NL ++ NL) = false
  /\ strip cleaned = cleaned
  /\ clean_text cleaned = cleaned.
Proof.
  intros cleaned.
  assert (Hnul : ~ In 0%N cleaned).
  { intros H. subst cleaned. unfold clean_text in H.
    apply strip_In, squeeze_newlines_In, squeeze_spaces_In in H.
    rewrite replace_nul in H. apply filter_In in H as [_ H]. discriminate. }
  assert (Hsp : contains cleaned (str "  ") = false).
  { subst cleaned. unfold clean_text.
    apply strip_contains, squeeze_newlines_spaces, squeeze_spaces_single. }
  assert (Hnl : contains cleaned (NL ++ NL ++ NL) = false).
  { subst cleaned. unfold clean_text.
    apply strip_contains, squeeze_newlines_double. }
  assert (Hst : strip cleaned = cleaned).
  { subst cleaned. unfold clean_text. apply strip_tight_id, strip_is_tight. }
  repeat split; try assumption.
  unfold clean_text at 1. rewrite replace_nul.
  assert (Hf : List.filter (fun c => negb (c =? 0)%N) cleaned = cleaned).
  { clear -Hnul. induction cleaned as [|c l IH]; [reflexivity|].
    simpl. destruct (N.eqb_spec c 0) as [->|]; simpl.
    - exfalso. apply Hnul. left. reflexivity.
    - f_equal. apply IH. intros H. apply Hnul. right. exact H. }
  rewrite Hf, squeeze_spaces_id, squeeze_newlines_id by assumption.
  exact Hst.
Qed.

Section with_env.
Context `{!Unicode, !OpenAIClient, !PdfFiles, !JsonDecoder, !Prompts}.

(** X11: the text [extract_text] hands to the classifier never has more
    than [MAX_CHARS] characters and the 18 of the truncation mark,
    whatever the file holds and whether or not the OCR was used. *)
Theorem extract_text_bounded (pdf_path : pystr) :
  len (extract_text_of pdf_path) <= MAX_CHARS + 18.
Proof.
  unfold extract_text_of.
  match goal with |- context [clean_text ?e] => generalize (clean_text e) end.
  intros extracted. destruct (Z.ltb_spec MAX_CHARS (len extracted)); [|lia].
  rewrite !chunking_properties.len_app.
  pose proof (persistence_properties.py_slice_length extracted 0 MAX_CHARS
                ltac:(lia) ltac:(unfold MAX_CHARS; lia)) as Hs.
  change (len NL) with 1. change (len (str "...[TRUNCATED]...")) with 17.
  unfold MAX_CHARS in *. lia.
Qed.

(** X26: [detect_pdf_type] raises nothing but what [ask_llm] raises (the
    [RuntimeError] after the retries, or the error of the endpoint that
    is not transient) and the decoding error of the response: a file
    that cannot be read does not make it fail. When neither pdfplumber
    nor the OCR can read the file, the text is empty and the endpoint is
    asked all the same, with the prompt whose content is empty. *)
Theorem detect_pdf_type_errors (pdf_path : pystr) :
  (forall e,
      detect_pdf_type pdf_path = Raise e ->
      e = RuntimeError
      \/ (exists err, e = ApiError err /\ llm_client.is_transient err = false)
      \/ e = JSONDecodeError)
  /\ (forall e1 e2,
        pdfplumber_open pdf_path = Raise e1 ->
        ocr_texts pdf_path = Raise e2 ->
        extract_text_of pdf_path = []
        /\ classify_pdf pdf_path
           = llm_client.ask_llm
               (replace PDF_CLASSIFICATION_PROMPT (str "{{CONTENT}}") []) 6).
Proof.
  split.
  - intros e. unfold detect_pdf_type, classify_pdf, llm_client.ask_llm.
    destruct (llm_client.ask_llm_trace _ 6) as [r sleeps] eqn:Hrun.
    unfold llm_client.ask_llm_trace in Hrun.
    apply (llm_outcome_properties.ask_llm_from_outcome _ _ O) in Hrun
      as (k & _ & _ & _ & Hend).
    cbn [fst]. destruct r as [raw|e']; cbn [mbind res_bind].
    + unfold parse_response. destruct (json_loads _); [discriminate|].
      intros [= <-]. auto.
    + intros [= <-]. destruct e'; simpl in Hend; try contradiction; [auto|].
      right. left. destruct Hend as (_ & _ & Hnt). eauto.
  - intros e1 e2 Hopen Hocr.
    assert (Htext : extract_text_of pdf_path = []).
    { unfold extract_text_of. rewrite Hopen, Hocr. reflexivity. }
    split; [exact Htext|]. unfold classify_pdf. rewrite Htext. reflexivity.
Qed.

End with_env.

(** *** The cleaning of the classifier's response *)

Definition fence_char (c : N) : bool := isspace c || (c =? 96)%N.

(** A response body as a JSON object is one: it neither starts nor
    ends with whitespace or a backquote. *)
Definition bare (body : pystr) : Prop :=
  (forall c, head body = Some c -> fence_char c = false)
  /\ (forall c, last body = Some c -> fence_char c = false).

Lemma bare_tight (body : pystr) : bare body -> tight body.
Proof.
  intros [Hh Hl]. split; intros c Hc; [apply Hh in Hc | apply Hl in Hc];
    apply orb_false_elim in Hc as [Hc _]; exact Hc.
Qed.

Lemma in_backquotes (c : N) : in_chars (str "```") c = (c =? 96)%N.
Proof.
  unfold in_chars. simpl. rewrite orb_false_r, !orb_diag. reflexivity.
Qed.

Lemma bare_backquotes (body : pystr) :
  bare body ->
  (forall c, head body = Some c -> in_chars (str "```") c = false)
  /\ (forall c, last body = Some c -> in_chars (str "```") c = false).
Proof.
  intros [Hh Hl]. split; intros c Hc; [apply Hh in Hc | apply Hl in Hc];
    rewrite in_backquotes; apply orb_false_elim in Hc as [_ Hc]; exact Hc.
Qed.

Lemma last_app_cons {A} (l1 l2 : list A) (x : A) :
  last (l1 ++ x :: l2) = last (x :: l2).
Proof.
  induction l1 as [|y l1 IH]; [reflexivity|].
  cbn [app]. rewrite <- IH. destruct (l1 ++ x :: l2) eqn:E; [|reflexivity].
  destruct l1; discriminate.
Qed.

(** X12: a response body that does not contain the word json and is
    bare comes out of the cleaning of [detect_pdf_type] unchanged,
    whether the response is the body itself, the body in a code fence,
    or the body in a code fence tagged json; [detect_pdf_type] then
    decodes exactly the body. *)
Theorem clean_response_recovers_body `{!JsonDecoder} (body : pystr) :
  body <> [] -> bare body -> contains body (str "json") = false ->
  clean_response body = body
  /\ clean_response (str "```" ++ NL ++ body ++ NL ++ str "```") = body
  /\ clean_response (parsing_properties.json_fenced body) = body
  /\ parse_response (parsing_properties.json_fenced body)
     = match json_loads body with
       | Some parsed => Ok parsed
       | None => Raise JSONDecodeError
       end.
Proof.
  intros Hne Hbare Hnojson.
  pose proof (bare_tight body Hbare) as Htight.
  pose proof (bare_backquotes body Hbare) as [Hbh Hbl].
  assert (Hplain : clean_response body = body).
  { unfold clean_response.
    rewrite (strip_tight_id body) by exact Htight.
    rewrite <- (app_nil_r body) at 1.
    rewrite (strip_chars_affixes _ [] body []) by (auto; reflexivity).
    rewrite (strip_tight_id body) by exact Htight.
    rewrite replace_absent by (auto; discriminate).
    apply strip_tight_id, Htight. }
  assert (Hlast : forall pre c, last (pre ++ body) = Some c ->
                                last body = Some c).
  { intros pre c Hc. destruct body as [|x b]; [contradiction|].
    rewrite last_app_cons in Hc. exact Hc. }
  assert (Hfenced : clean_response (str "```" ++ NL ++ body ++ NL ++ str "```")
                    = body).
  { unfold clean_response.
    rewrite (strip_tight_id (str "```" ++ _)).
    2:{ split; intros c Hc.
        - injection Hc as <-. reflexivity.
        - rewrite !app_assoc in Hc. change (str "```") with ([96%N; 96%N] ++ [96%N]) in Hc at 2.
          rewrite app_assoc, last_snoc in Hc. injection Hc as <-. reflexivity. }
    replace (str "```" ++ NL ++ body ++ NL ++ str "```")
      with (str "```" ++ (NL ++ body ++ NL) ++ str "```")
      by parsing_properties.list_eq.
    rewrite (strip_chars_affixes _ (str "```") (NL ++ body ++ NL) (str "```")).
    - rewrite (strip_affixes NL body NL) by (auto; reflexivity).
      rewrite replace_absent by (auto; discriminate).
      apply strip_tight_id, Htight.
    - reflexivity.
    - reflexivity.
    - intros c Hc. injection Hc as <-. reflexivity.
    - intros c Hc. unfold NL in Hc. rewrite app_assoc, last_snoc in Hc.
      injection Hc as <-. reflexivity. }
  assert (Htagged : clean_response (parsing_properties.json_fenced body)
                    = body).
  { unfold clean_response, parsing_properties.json_fenced.
    rewrite (strip_tight_id (str "```json" ++ _)).
    2:{ split; intros c Hc.
        - injection Hc as <-. reflexivity.
        - rewrite !app_assoc in Hc. change (str "```") with ([96%N; 96%N] ++ [96%N]) in Hc.
          rewrite app_assoc, last_snoc in Hc. injection Hc as <-. reflexivity. }
    replace (str "```json" ++ NL ++ body ++ NL ++ str "```")
      with (str "```" ++ (str "json" ++ NL ++ body ++ NL) ++ str "```")
      by parsing_properties.list_eq.
    rewrite (strip_chars_affixes _ (str "```") _ (str "```")).
    - replace (str "json" ++ NL ++ body ++ NL)
        with ([] ++ (str "json" ++ NL ++ body) ++ NL)
        by parsing_properties.list_eq.
      rewrite (strip_affixes [] _ NL).
      + change (replace (str "json" ++ NL ++ body) (str "json") [])
          with (10%N :: replace body (str "json") []).
        rewrite replace_absent by (auto; discriminate).
        change (10%N :: body) with (NL ++ body).
        rewrite <- (app_nil_r body) at 1.
        apply (strip_affixes NL body []); auto.
      + reflexivity.
      + reflexivity.
      + split; intros c Hc.
        * injection Hc as <-. reflexivity.
        * apply (proj2 Htight). apply (Hlast (str "json" ++ NL)).
          rewrite <- app_assoc. exact Hc.
    - reflexivity.
    - reflexivity.
    - intros c Hc. injection Hc as <-. reflexivity.
    - intros c Hc. unfold NL in Hc. rewrite !app_assoc, last_snoc in Hc.
      injection Hc as <-. reflexivity. }
  repeat split; try assumption.
  unfold parse_response. rewrite Htagged. reflexivity.
Qed.

(** A verdict in a tagged fence. *)
Definition other_verdict : pystr := qstr "{'pdf_type': 'other'}".

Lemma clean_response_recovers_body_witness :
  clean_response (parsing_properties.json_fenced other_verdict)
  = other_verdict
  /\ @parse_response Mock.json_decoder
       (parsing_properties.json_fenced other_verdict)
     = Ok (JDict [(str "pdf_type", JStr (str "other"))]).
Proof.
  destruct (@clean_response_recovers_body Mock.json_decoder other_verdict)
    as (_ & _ & Hclean & Hparse).
  - discriminate.
  - split; intros c Hc; vm_compute in Hc; injection Hc as <-; reflexivity.
  - vm_compute. reflexivity.
  - split; [exact Hclean|]. rewrite Hparse. vm_compute. reflexivity.
Defined.

(** Files that cannot be read, by pdfplumber or by the OCR. *)
Definition unreadable_files : PdfFiles :=
  {| pdfplumber_open := fun _ => Raise (IOError (str "not a PDF"));
     ocr_texts := fun _ => Raise (IOError (str "no rasterizer")) |}.

Lemma detect_pdf_type_errors_witness :
  @detect_pdf_type Mock.unicode (Mock.canned_client other_verdict)
    unreadable_files Mock.json_decoder Mock.prompts (str "scan.pdf")
  = Ok (JDict [(str "pdf_type", JStr (str "other"))]).
Proof.
  destruct (@detect_pdf_type_errors Mock.unicode
              (Mock.canned_client other_verdict) unreadable_files
              Mock.json_decoder Mock.prompts (str "scan.pdf"))
    as [_ Hunreadable].
  destruct (Hunreadable _ _ eq_refl eq_refl) as [_ Hclassify].
  unfold detect_pdf_type. rewrite Hclassify. vm_compute. reflexivity.
Defined.

End classifier_text_properties.

(** ** Re-chunking, and the lines of a table *)

Module rendering_properties.
Import pdf_chunking.

(** A chunk without its id. *)
Definition content (c : Chunk) : pystr * Metadata := (text c, metadata c).

Definition contents (r : option (list Chunk * nat))
  : option (list (pystr * Metadata)) :=
  option_map (fun r => List.map content r.1) r.

Section with_env.
Context `{!Unicode}.

Lemma chunk_loop_contents (U1 U2 : UuidSource) words pt pn size overlap :
  forall fuel start li gi acc1 acc2 u1 u2,
    List.map content acc1 = List.map content acc2 ->
    contents (@chunk_loop U1 fuel words pt pn size overlap start li gi
                acc1 u1)
    = contents (@chunk_loop U2 fuel words pt pn size overlap start li gi
                  acc2 u2).
Proof.
  induction fuel as [|fuel IH]; intros start li gi acc1 acc2 u1 u2 Hacc;
    simpl; destruct (start <? len words); simpl; try reflexivity;
    try (f_equal; exact Hacc).
  assert (Hnext : forall c1 c2,
            content c1 = content c2 ->
            List.map content (acc1 ++ [c1]) = List.map content (acc2 ++ [c2])).
  { intros c1 c2 Hc. rewrite !List.map_app, Hacc. simpl. rewrite Hc.
    reflexivity. }
  destruct (Z.min (start + size) (len words) =? len words).
  - simpl. f_equal. apply Hnext. reflexivity.
  - apply IH, Hnext. reflexivity.
Qed.

Lemma chunk_page_text_contents (U1 U2 : UuidSource) fuel page_text pt pn
    size overlap g u1 u2 :
  contents (@chunk_page_text U1 fuel page_text pt pn size overlap g u1)
  = contents (@chunk_page_text U2 fuel page_text pt pn size overlap g u2).
Proof.
  unfold chunk_page_text. destruct (split page_text); [reflexivity|].
  apply chunk_loop_contents. reflexivity.
Qed.

Lemma chunk_pages_contents (U1 U2 : UuidSource) pt size overlap incl fuel :
  forall pages idx acc1 acc2 g u1 u2,
    List.map content acc1 = List.map content acc2 ->
    contents (@chunk_pages _ U1 fuel pages idx pt size overlap incl acc1 g u1)
    = contents (@chunk_pages _ U2 fuel pages idx pt size overlap incl acc2
                  g u2).
Proof.
  induction pages as [|page pages IH]; intros idx acc1 acc2 g u1 u2 Hacc;
    simpl; [f_equal; exact Hacc|].
  destruct (existsb isalnum (extract_page_content page idx incl 8000));
    simpl; [|apply IH, Hacc].
  pose proof (chunk_page_text_contents U1 U2 fuel
                (extract_page_content page idx incl 8000) pt idx size
                overlap g u1 u2) as Hp.
  destruct (@chunk_page_text U1 fuel _ pt idx size overlap g u1)
    as [[pc1 v1]|];
    destruct (@chunk_page_text U2 fuel _ pt idx size overlap g u2)
      as [[pc2 v2]|]; simpl in Hp; try discriminate; [|reflexivity].
  injection Hp as Hp.
  assert (Hlen : len pc1 = len pc2).
  { unfold len. rewrite <- (length_map content pc1), Hp, length_map.
    reflexivity. }
  rewrite Hlen. apply IH. rewrite !List.map_app, Hacc, Hp. reflexivity.
Qed.

(** X7: chunking the same pages again gives the same chunks up to their
    ids: whatever identifiers are drawn, the texts and the metadata of
    the chunks, and their order, are the same (and the call ends for
    the one source of identifiers exactly when it ends for the
    other). *)
Theorem chunk_pdf_same_up_to_ids (U1 U2 : UuidSource) (fuel : nat)
    (pages : list Page) (pdf_type : pystr)
    (chunk_size_words overlap_words : Z) (include_tables : bool)
    (u1 u2 : nat) :
  option_map (fun r => List.map (fun c => (text c, metadata c)) r.1)
    (@chunk_pdf _ U1 fuel pages pdf_type chunk_size_words overlap_words
       include_tables u1)
  = option_map (fun r => List.map (fun c => (text c, metadata c)) r.1)
      (@chunk_pdf _ U2 fuel pages pdf_type chunk_size_words overlap_words
         include_tables u2).
Proof. apply (chunk_pages_contents U1 U2). reflexivity. Qed.

End with_env.

(** *** The lines of a rendered table *)

(** The number of line ends in a text. *)
Definition line_ends (s : pystr) : nat := count_occ N.eq_dec s 10%N.

Lemma line_ends_app (s t : pystr) :
  line_ends (s ++ t) = (line_ends s + line_ends t)%nat.
Proof. apply count_occ_app. Qed.

Lemma line_ends_0 (s : pystr) : line_ends s = O <-> ~ In 10%N s.
Proof. unfold line_ends. symmetry. apply count_occ_not_In. Qed.

Lemma replace_char (s : pystr) (a b : N) :
  replace s [a] [b] = List.map (fun c => if (a =? c)%N then b else c) s.
Proof.
  unfold replace. induction s as [|c s IH]; [reflexivity|].
  cbn [replace_aux]. rewrite parsing_properties.startswith_char.
  simpl. destruct (a =? c)%N; simpl; rewrite IH; reflexivity.
Qed.

(** A cleaned cell has no line end. *)
Lemma clean_cell_line (cell : option pystr) : ~ In 10%N (clean_cell cell).
Proof.
  unfold clean_cell. intros Hin.
  apply classifier_text_properties.strip_In in Hin.
  change NL with [10%N] in Hin. change (str " ") with [32%N] in Hin.
  rewrite replace_char in Hin. apply in_map_iff in Hin as (c & Hc & _).
  destruct (N.eqb_spec 10 c); [discriminate | congruence].
Qed.

Lemma join_line (sep : pystr) (row : list pystr) :
  ~ In 10%N sep -> Forall (fun cell => ~ In 10%N cell) row ->
  ~ In 10%N (join sep row).
Proof.
  intros Hsep. induction 1 as [|cell row Hc Hrow IH]; [simpl; tauto|].
  destruct row as [|cell' row]; [exact Hc|].
  rewrite chunk_text_properties.join_cons_cons, !in_app_iff. tauto.
Qed.

Lemma md_line_line (row : list pystr) :
  Forall (fun cell => ~ In 10%N cell) row -> line_ends (md_line row) = O.
Proof.
  intros Hrow. apply line_ends_0. unfold md_line. rewrite !in_app_iff.
  intros [Hin|[Hin|Hin]].
  - vm_compute in Hin. intuition discriminate.
  - revert Hin. apply join_line; [|exact Hrow].
    vm_compute. intuition discriminate.
  - vm_compute in Hin. intuition discriminate.
Qed.

Lemma join_lines (lines : list pystr) :
  Forall (fun line => line_ends line = O) lines ->
  line_ends (join NL lines) = Nat.pred (length lines).
Proof.
  induction 1 as [|line lines Hl Hlines IH]; [reflexivity|].
  destruct lines as [|line' lines]; [simpl; exact Hl|].
  rewrite chunk_text_properties.join_cons_cons, !line_ends_app, Hl, IH.
  reflexivity.
Qed.

Lemma first_nonempty_row_bound (rows : list (list pystr)) :
  forall idx,
    rows <> [] ->
    (idx <= first_nonempty_row idx rows < idx + length rows)%nat
    \/ first_nonempty_row idx rows = O.
Proof.
  induction rows as [|row rows IH]; intros idx Hne; [contradiction|].
  simpl. destruct (existsb _ row); [left; lia|].
  destruct rows as [|row' rows]; [right; reflexivity|].
  destruct (IH (S idx) ltac:(discriminate)) as [Hb|Hz]; [left|right; exact Hz].
  simpl in *. lia.
Qed.

(** The number of line ends of the markdown of a table. *)
Lemma table_to_markdown_line_ends (table : Table) :
  table <> [] ->
  let header_idx :=
    first_nonempty_row O (List.map (List.map clean_cell) table) in
  (header_idx < length table)%nat
  /\ line_ends (table_to_markdown table)
     = (1 + (length table - 1 - header_idx))%nat.
Proof.
  intros Hne header_idx.
  assert (Hidx : (header_idx < length table)%nat).
  { destruct (first_nonempty_row_bound
                (List.map (List.map clean_cell) table) O) as [Hb|Hz].
    - destruct table; [contradiction|discriminate].
    - rewrite length_map in Hb. exact (proj2 Hb).
    - subst header_idx. rewrite Hz. destruct table; [contradiction|].
      simpl. lia. }
  split; [exact Hidx|].
  unfold table_to_markdown. destruct table as [|row0 table]; [contradiction|].
  set (cleaned := List.map (List.map clean_cell) (row0 :: table)) in *.
  fold header_idx.
  assert (Hclean : Forall (Forall (fun cell => ~ In 10%N cell)) cleaned).
  { subst cleaned. apply Forall_forall. intros r Hr.
    apply list_elem_of_In, in_map_iff in Hr as (r0 & <- & _).
    apply Forall_forall. intros cell Hcell.
    apply list_elem_of_In, in_map_iff in Hcell as (c0 & <- & _).
    apply clean_cell_line. }
  assert (Hnorm : forall (k : nat) r,
            Forall (fun cell => ~ In 10%N cell) r ->
            Forall (fun cell : pystr => ~ In 10%N cell)
              (r ++ repeat [] k)).
  { intros k r Hr. apply Forall_app. split; [exact Hr|].
    apply Forall_forall. intros cell Hcell.
    apply list_elem_of_In, repeat_spec in Hcell. subst cell. simpl. tauto. }
  rewrite join_lines.
  - cbn [length app]. rewrite !length_map, length_drop.
    subst cleaned. rewrite length_map. simpl. lia.
  - constructor; [|constructor].
    + apply md_line_line, Hnorm.
      destruct (nth_in_or_default header_idx cleaned []) as [Hin | ->];
        [|constructor].
      rewrite Forall_forall in Hclean. apply Hclean, list_elem_of_In, Hin.
    + apply md_line_line. apply Forall_forall. intros cell Hcell.
      apply list_elem_of_In, repeat_spec in Hcell. subst cell.
      vm_compute. intuition discriminate.
    + apply Forall_forall. intros line Hline.
      apply list_elem_of_In, in_map_iff in Hline as (r & <- & Hr).
      apply md_line_line.
      apply in_map_iff in Hr as (r0 & <- & Hr0). apply Hnorm.
      pose proof (Forall_drop _ (S header_idx) _ Hclean) as Hbody.
      rewrite Forall_forall in Hbody. apply Hbody, list_elem_of_In, Hr0.
Qed.

(** The lines of a text, as [s.split("\n")] gives them. *)
Fixpoint lines_from (cur s : pystr) : list pystr :=
  match s with
  | [] => [cur]
  | c :: s' =>
      if (c =? 10)%N then cur :: lines_from [] s'
      else lines_from (cur ++ [c]) s'
  end.

Definition text_lines (s : pystr) : list pystr := lines_from [] s.

Lemma lines_from_app (l : pystr) :
  ~ In 10%N l ->
  forall cur s, lines_from cur (l ++ s) = lines_from (cur ++ l) s.
Proof.
  induction l as [|c l IH]; intros Hl cur s.
  - rewrite app_nil_r. reflexivity.
  - cbn [app lines_from]. destruct (N.eqb_spec c 10) as [->|_].
    + exfalso. apply Hl. left. reflexivity.
    + rewrite IH by (intros Hin; apply Hl; right; exact Hin).
      rewrite <- app_assoc. reflexivity.
Qed.

(** Lines without a line end, joined by line ends, are the lines of the
    text they make. *)
Lemma text_lines_join (ls : list pystr) :
  ls <> [] ->
  Forall (fun l => ~ In 10%N l) ls ->
  text_lines (join NL ls) = ls.
Proof.
  intros Hne Hls. unfold text_lines.
  induction Hls as [|l ls Hl Hls IH]; [contradiction|].
  destruct ls as [|l' ls].
  - cbn [join]. rewrite <- (app_nil_r l) at 1.
    rewrite lines_from_app by exact Hl. reflexivity.
  - rewrite chunk_text_properties.join_cons_cons.
    rewrite lines_from_app by exact Hl. cbn [app NL lines_from].
    change (10 =? 10)%N with true. cbv iota.
    rewrite IH by discriminate. reflexivity.
Qed.

(** A row of cleaned cells that are all empty. *)
Definition blank_row (row : list pystr) : Prop :=
  Forall (fun cell => cell = []) row.

Lemma blank_row_spec (row : list pystr) :
  existsb (fun cell => negb (pystr_eqb cell [])) row = false
  <-> blank_row row.
Proof.
  unfold blank_row. induction row as [|cell row IH]; simpl.
  - split; [constructor | reflexivity].
  - rewrite orb_false_iff, negb_false_iff, IH. unfold pystr_eqb.
    rewrite bool_decide_eq_true. split.
    + intros [Hc Hr]. constructor; assumption.
    + intros Hr. apply Forall_cons in Hr. exact Hr.
Qed.

Lemma nonblank_row_spec (row : list pystr) :
  existsb (fun cell => negb (pystr_eqb cell [])) row = true
  <-> Exists (fun cell => cell <> []) row.
Proof.
  induction row as [|cell row IH]; simpl.
  - split; [discriminate | intros Hex; inversion Hex].
  - rewrite orb_true_iff, negb_true_iff, IH. unfold pystr_eqb.
    rewrite bool_decide_eq_false, Exists_cons. reflexivity.
Qed.

(** The cleaned rows of a table, cut at its header: the rows [above]
    are blank and the [header] is the first row with a cell that is
    not empty; when every row is blank the header is the first row. *)
Definition header_split (cleaned above : list (list pystr))
    (header : list pystr) (below : list (list pystr)) : Prop :=
  cleaned = above ++ header :: below
  /\ Forall blank_row above
  /\ (Exists (fun cell => cell <> []) header
      \/ above = [] /\ blank_row header /\ Forall blank_row below).

Lemma first_nonempty_row_blank (rows : list (list pystr)) :
  Forall blank_row rows -> forall idx, first_nonempty_row idx rows = O.
Proof.
  induction 1 as [|row rows Hrow _ IH]; intros idx; [reflexivity|].
  simpl. rewrite (proj2 (blank_row_spec row) Hrow). apply IH.
Qed.

Lemma first_nonempty_row_header (above : list (list pystr))
    (header : list pystr) (below : list (list pystr)) :
  Forall blank_row above ->
  Exists (fun cell => cell <> []) header ->
  forall idx,
    first_nonempty_row idx (above ++ header :: below)
    = (idx + length above)%nat.
Proof.
  intros Habove Hheader.
  induction Habove as [|row above Hrow _ IH]; intros idx; simpl.
  - rewrite (proj2 (nonblank_row_spec header) Hheader). lia.
  - rewrite (proj2 (blank_row_spec row) Hrow), IH. lia.
Qed.

Lemma header_split_idx (cleaned above : list (list pystr))
    (header : list pystr) (below : list (list pystr)) :
  header_split cleaned above header below ->
  first_nonempty_row O cleaned = length above.
Proof.
  intros (-> & Habove & [Hheader | (-> & Hheader & Hbelow)]).
  - apply (first_nonempty_row_header above header below Habove Hheader O).
  - apply first_nonempty_row_blank. constructor; assumption.
Qed.

Lemma header_split_exists (cleaned : list (list pystr)) :
  cleaned <> [] ->
  exists above header below, header_split cleaned above header below.
Proof.
  induction cleaned as [|row rows IH]; intros Hne; [contradiction|].
  destruct (existsb (fun cell => negb (pystr_eqb cell [])) row) eqn:Hrow.
  - exists [], row, rows. split; [reflexivity|]. split; [constructor|].
    left. apply nonblank_row_spec, Hrow.
  - apply blank_row_spec in Hrow.
    destruct rows as [|row' rows].
    + exists [], row, []. split; [reflexivity|]. split; [constructor|].
      right. split; [reflexivity|]. split; [exact Hrow | constructor].
    + destruct (IH ltac:(discriminate))
        as (above & header & below & Hcut & Habove & Hcase).
      destruct Hcase as [Hheader | (-> & Hheader & Hbelow)].
      * exists (row :: above), header, below. rewrite Hcut.
        split; [reflexivity|]. split; [constructor; assumption|].
        left. exact Hheader.
      * exists [], row, (row' :: rows).
        split; [reflexivity|]. split; [constructor|]. right.
        split; [reflexivity|]. split; [exact Hrow|].
        rewrite Hcut. constructor; assumption.
Qed.

(** X8: the markdown of a table with rows, read line by line, is the
    header, the separator and one line for each row below the header,
    each line in the form [| cell | cell |] with as many cells as the
    longest row has: shorter rows are filled up with empty cells. The
    header is the first row with a cell that is not empty after
    cleaning (the first row when there is none); the rows above it are
    blank and are left out. A line break inside a cell does not break
    a row: cleaning replaces it by a space. *)
Theorem table_to_markdown_lines (table : Table) :
  table <> [] ->
  let cleaned := List.map (List.map clean_cell) table in
  let width := list_max (List.map (@length pystr) cleaned) in
  let pad (row : list pystr) := row ++ repeat [] (width - length row) in
  (exists above header below, header_split cleaned above header below)
  /\ (forall above header below,
        header_split cleaned above header below ->
        text_lines (table_to_markdown table)
        = md_line (pad header)
          :: md_line (repeat (str "---") width)
          :: List.map (fun row => md_line (pad row)) below
        /\ line_ends (table_to_markdown table) = S (length below)
        /\ Forall (fun row => length (pad row) = width) (header :: below))
  /\ Forall (Forall (fun cell => ~ In 10%N cell)) cleaned.
Proof.
  intros Hne cleaned width pad.
  assert (Hclean : Forall (Forall (fun cell => ~ In 10%N cell)) cleaned).
  { subst cleaned. apply Forall_forall. intros r Hr.
    apply list_elem_of_In, in_map_iff in Hr as (r0 & <- & _).
    apply Forall_forall. intros cell Hcell.
    apply list_elem_of_In, in_map_iff in Hcell as (c0 & <- & _).
    apply clean_cell_line. }
  assert (Hcleaned : cleaned <> []).
  { subst cleaned. destruct table; [contradiction | discriminate]. }
  split; [apply header_split_exists, Hcleaned|]. split; [|exact Hclean].
  intros above header below Hsplit.
  pose proof (header_split_idx _ _ _ _ Hsplit) as Hidx.
  pose proof (table_to_markdown_line_ends table Hne) as Hends.
  cbv zeta in Hends. fold cleaned in Hends. rewrite Hidx in Hends.
  destruct Hends as [_ Hends].
  destruct Hsplit as (Hcut & _).
  assert (Hwidth : Forall (fun row => (length row <= width)%nat) cleaned).
  { pose proof (proj1 (list_max_le (List.map (@length pystr) cleaned) width)
                  (le_n _)) as Hmax.
    rewrite List.Forall_forall in Hmax. apply Forall_forall.
    intros row Hrow. apply Hmax, in_map, list_elem_of_In, Hrow. }
  assert (Hpad : forall row,
            (length row <= width)%nat -> length (pad row) = width).
  { intros row Hrow. subst pad. cbv beta.
    rewrite length_app, repeat_length. lia. }
  assert (Hrows : Forall (fun row => length (pad row) = width)
                    (header :: below)).
  { rewrite Hcut in Hwidth. apply Forall_app in Hwidth as [_ Hwidth].
    eapply Forall_impl; [exact Hwidth|]. exact Hpad. }
  assert (Hpadline : forall row,
            Forall (fun cell => ~ In 10%N cell) row ->
            ~ In 10%N (md_line (pad row))).
  { intros row Hrow. apply line_ends_0, md_line_line. subst pad. cbv beta.
    apply Forall_app. split; [exact Hrow|].
    apply Forall_forall. intros cell Hcell.
    apply list_elem_of_In, repeat_spec in Hcell. subst cell. simpl. tauto. }
  assert (Hparts : Forall (fun cell => ~ In 10%N cell) header
                   /\ Forall (Forall (fun cell => ~ In 10%N cell)) below).
  { rewrite Hcut in Hclean. apply Forall_app in Hclean as [_ Hclean].
    apply Forall_cons in Hclean. exact Hclean. }
  destruct Hparts as [Hheader Hbelow].
  split; [|split; [|exact Hrows]].
  - unfold table_to_markdown.
    destruct table as [|row0 table]; [contradiction|].
    fold cleaned. fold width. rewrite Hidx.
    assert (Hnth : nth (length above) cleaned [] = header)
      by (rewrite Hcut; apply nth_middle).
    assert (Hdrop : drop (S (length above)) cleaned = below).
    { rewrite Hcut, cons_middle, app_assoc.
      apply drop_app_length'. rewrite length_app. simpl. lia. }
    rewrite Hnth, Hdrop. fold (pad header).
    rewrite (Forall_inv Hrows).
    rewrite List.map_map. cbn [app].
    apply text_lines_join; [discriminate|].
    constructor; [apply Hpadline, Hheader|]. constructor.
    + apply line_ends_0, md_line_line. apply Forall_forall.
      intros cell Hcell.
      apply list_elem_of_In, repeat_spec in Hcell. subst cell.
      vm_compute. intuition discriminate.
    + apply Forall_forall. intros line Hline.
      apply list_elem_of_In, in_map_iff in Hline as (row & <- & Hrow).
      apply Hpadline. rewrite Forall_forall in Hbelow.
      apply Hbelow, list_elem_of_In, Hrow.
  - rewrite Hends. subst cleaned.
    pose proof (f_equal (@length (list pystr)) Hcut) as Hlen.
    rewrite length_map, length_app in Hlen. simpl in Hlen. lia.
Qed.

(** A table with a blank row above its header and a line break in a
    cell of its one body row. *)
Definition broken_cell_table : Table :=
  [ [None; Some (str "  ")];
    [Some (str "Item"); Some (str "Cost")];
    [Some (str "Portland" ++ NL ++ str "cement"); Some (str "120")] ].

Lemma table_to_markdown_lines_witness :
  text_lines (table_to_markdown broken_cell_table)
  = [ str "| Item | Cost |"; str "| --- | --- |";
      str "| Portland cement | 120 |" ].
Proof.
  destruct (table_to_markdown_lines broken_cell_table ltac:(discriminate))
    as (_ & Hlines & _).
  cbv zeta in Hlines.
  destruct (Hlines [[ []; [] ]] [str "Item"; str "Cost"]
              [[str "Portland cement"; str "120"]]) as (Htext & _).
  - split; [vm_compute; reflexivity|]. split.
    + repeat constructor.
    + left. constructor. discriminate.
  - rewrite Htext. vm_compute. reflexivity.
Defined.

End rendering_properties.

(** ** Page selection, tagging and rejected documents *)

Module extractor_edge_properties.
Import pdf_extractor pystr_facts.

Lemma drop_while_all {A} (p : A -> bool) (l : list A) :
  forallb p l = true -> drop_while p l = [].
Proof.
  induction l as [|x l IH]; [reflexivity|]. simpl.
  intros H. apply andb_prop in H as [-> H]. apply IH, H.
Qed.

(** A text of whitespace strips to the empty text. *)
Lemma strip_blank (s : pystr) : forallb isspace s = true -> strip s = [].
Proof.
  intros H. unfold strip, lstrip, rstrip.
  rewrite (drop_while_all isspace s) by exact H. reflexivity.
Qed.

Lemma pystr_eqb_true (a b : pystr) : pystr_eqb a b = true <-> a = b.
Proof. unfold pystr_eqb. apply bool_decide_eq_true. Qed.

Lemma pystr_eqb_false (a b : pystr) : pystr_eqb a b = false <-> a <> b.
Proof. unfold pystr_eqb. apply bool_decide_eq_false. Qed.

(** The text of a page is cut at 6000 characters. *)
Lemma extract_page_content_text (page : Page) (page_number : Z) :
  len (text (extract_page_content page page_number)) <= 6000.
Proof.
  unfold extract_page_content. cbn [text].
  destruct (Z.ltb_spec 6000 (len (strip (default [] (extract_text page)))));
    [|lia].
  pose proof (persistence_properties.py_slice_length
                (strip (default [] (extract_text page))) 0 6000
                ltac:(lia) ltac:(lia)). lia.
Qed.

(** *** The tables of a page and the digits of their headings *)

(** An ASCII digit. *)
Definition ascii_digit (c : N) : Prop := (48 <= c <= 57)%N.

Lemma pretty_N_char_digit (x : N) : ascii_digit (N_of_ascii (pretty_N_char x)).
Proof.
  unfold pretty_N_char, ascii_digit.
  repeat (case_match; try (vm_compute; split; discriminate)).
Qed.

Lemma pretty_N_go_digit (x : N) :
  forall s,
    Exists ascii_digit (str s) -> Exists ascii_digit (str (pretty_N_go x s)).
Proof.
  induction (N.lt_wf_0 x) as [x _ IH]. intros s Hs.
  destruct (N.eq_dec x 0%N) as [->|Hx]; [exact Hs|].
  rewrite pretty_N_go_step by lia. apply IH.
  - apply N.div_lt; lia.
  - apply Exists_cons_tl, Hs.
Qed.

Lemma pretty_N_digit (x : N) : Exists ascii_digit (str (pretty x)).
Proof.
  unfold pretty, pretty_N. destruct (decide (x = 0%N)) as [->|Hx].
  - apply Exists_cons_hd. vm_compute. split; discriminate.
  - rewrite pretty_N_go_step by lia. apply pretty_N_go_digit.
    apply Exists_cons_hd, pretty_N_char_digit.
Qed.

(** [str(n)] always holds a digit. *)
Lemma str_of_int_digit (n : Z) : Exists ascii_digit (str_of_int n).
Proof.
  unfold str_of_int, pretty, pretty_Z. destruct n as [|p|p].
  - apply Exists_cons_hd. vm_compute. split; discriminate.
  - apply (pretty_N_digit (Npos p)).
  - apply Exists_cons_tl. apply (pretty_N_digit (Npos p)).
Qed.


Lemma strip_nonblank (s : pystr) (c : N) :
  In c s -> isspace c = false -> strip s <> [].
Proof.
  intros Hin Hc Hs.
  destruct (strip_decompose s) as (pre & post & Hcut & Hpre & Hpost).
  rewrite Hs in Hcut. rewrite Hcut in Hin. cbn [app] in Hin.
  rewrite forallb_forall in Hpre, Hpost.
  apply in_app_or in Hin as [Hin|Hin];
    [apply Hpre in Hin | apply Hpost in Hin]; congruence.
Qed.

(** The markdown of a table with rows starts with a bar. *)
Lemma table_to_markdown_bar (tbl : Table) :
  tbl <> [] -> exists rest, table_to_markdown tbl = 124%N :: rest.
Proof.
  intros Hne. unfold table_to_markdown, pdf_chunking.table_to_markdown.
  destruct tbl as [|row tbl]; [contradiction|]. cbv zeta. cbn [app].
  rewrite chunk_text_properties.join_cons_cons.
  unfold pdf_chunking.md_line at 1.
  change (str "| ") with [124%N; 32%N]. cbn [app]. eauto.
Qed.

Lemma table_to_markdown_rendered (tbl : Table) :
  strip (table_to_markdown tbl) = [] <-> tbl = [].
Proof.
  split; [|intros ->; reflexivity].
  intros Hs. destruct tbl as [|row tbl]; [reflexivity|]. exfalso.
  destruct (table_to_markdown_bar (row :: tbl) ltac:(discriminate))
    as (rest & Hmd).
  revert Hs. apply (strip_nonblank _ 124%N); [|reflexivity].
  rewrite Hmd. left. reflexivity.
Qed.

(** The tables that are rendered are the ones with rows, and each
    comes under a heading that holds its number. *)
Lemma md_tables_from_rendered (tables : list Table) :
  forall t_idx,
    (md_tables_from t_idx tables <> []
     <-> exists tbl, In tbl tables /\ tbl <> [])
    /\ Forall (fun md => md <> [] /\ Exists ascii_digit md)
         (md_tables_from t_idx tables).
Proof.
  induction tables as [|tbl tables IH]; intros t_idx; cbn [md_tables_from].
  - split; [|constructor].
    split; [contradiction | intros (tbl & [] & _)].
  - destruct (IH (t_idx + 1)) as [Hiff Hall]. cbv zeta.
    destruct (strip (table_to_markdown tbl)) as [|c s] eqn:Hs.
    + apply table_to_markdown_rendered in Hs. subst tbl.
      split; [|exact Hall]. rewrite Hiff.
      split; intros (tbl & Hin & Hne); exists tbl;
        (split; [|exact Hne]).
      * right. exact Hin.
      * destruct Hin as [<-|Hin]; [contradiction | exact Hin].
    + split.
      * split; [|discriminate]. intros _. exists tbl.
        split; [left; reflexivity|]. intros ->. discriminate Hs.
      * constructor; [|exact Hall]. split; [discriminate|].
        change (str "### Table " ++ str_of_int t_idx ++ NL
                ++ table_to_markdown tbl)
          with (str "### Table "
                ++ (str_of_int t_idx ++ NL ++ table_to_markdown tbl)).
        apply Exists_app. right. apply Exists_app. left.
        apply str_of_int_digit.
Qed.

Lemma join_head (sep x : pystr) (l : list pystr) :
  exists rest, join sep (x :: l) = x ++ rest.
Proof.
  destruct l as [|y l].
  - exists []. cbn [join]. rewrite app_nil_r. reflexivity.
  - eexists. apply chunk_text_properties.join_cons_cons.
Qed.

(** What [extract_page_content] gives as [tables_markdown]: it is not
    empty exactly when the page has a table with rows, and then it
    holds a digit, the number in the heading of the first table
    rendered. *)
Lemma tables_markdown_rendered (page : Page) (page_number : Z) :
  (tables_markdown (extract_page_content page page_number) <> []
   <-> exists tbl, In tbl (default [] (extract_tables page)) /\ tbl <> [])
  /\ (tables_markdown (extract_page_content page page_number) <> [] ->
      Exists ascii_digit
        (tables_markdown (extract_page_content page page_number))).
Proof.
  unfold extract_page_content. cbn [tables_markdown].
  destruct (md_tables_from_rendered (default [] (extract_tables page)) 1)
    as [Hiff Hall].
  destruct (md_tables_from 1 (default [] (extract_tables page)))
    as [|md mds] eqn:Hmds.
  - split; [|intros Habs; contradiction Habs; reflexivity].
    rewrite <- Hiff. split; intros Habs; contradiction Habs; reflexivity.
  - apply Forall_cons in Hall as [[Hne Hdigit] _].
    destruct (join_head (NL ++ NL) md mds) as (rest & Hjoin).
    rewrite Hjoin. split.
    + rewrite <- Hiff. split; [discriminate|]. intros _ Habs.
      apply app_eq_nil in Habs as [Habs _]. contradiction.
    + intros _. apply Exists_app. left. exact Hdigit.
Qed.

Section with_env.
Context `{!Unicode, !OpenAIClient, !PdfFiles, !JsonDecoder, !Prompts,
          !ThreadPool}.

(** What makes the page filter of [process_single_pdf] keep a page. *)
Definition kept (pdf_type : pystr) (page_info : PageInfo) : Prop :=
  (text page_info <> [] \/ tables_markdown page_info <> [])
  /\ (pdf_type = str "construction_costing" ->
      existsb isdigit (text page_info ++ tables_markdown page_info) = true).

Lemma select_pages_In pdf_type :
  forall pages idx page_info,
    In page_info (select_pages pdf_type idx pages)
    <-> exists (i : nat) page,
          pages !! i = Some page
          /\ page_info = extract_page_content page (idx + Z.of_nat i)
          /\ kept pdf_type page_info.
Proof.
  induction pages as [|page pages IH]; intros idx page_info.
  - simpl. split; [tauto | intros (i & p & Hi & _); inversion Hi].
  - cbn [select_pages].
    set (pi0 := extract_page_content page idx).
    assert (Hrest : In page_info (select_pages pdf_type (idx + 1) pages)
              <-> exists (i : nat) p,
                    (page :: pages) !! S i = Some p
                    /\ page_info
                       = extract_page_content p (idx + Z.of_nat (S i))
                    /\ kept pdf_type page_info).
    { rewrite IH. split; intros (i & p & Hi & Hp & Hk); exists i, p;
        (split; [exact Hi|]); (split; [|exact Hk]); rewrite Hp; f_equal; lia. }
    assert (Hkept : kept pdf_type pi0
              <-> (pystr_eqb (text pi0) [] && pystr_eqb (tables_markdown pi0) []
                   = false)
                  /\ (pystr_eqb pdf_type (str "construction_costing")
                      && negb (existsb isdigit
                                 (text pi0 ++ tables_markdown pi0)) = false)).
    { unfold kept. rewrite !andb_false_iff, !pystr_eqb_false, negb_false_iff.
      split; intros [Hq1 Hq2]; (split; [exact Hq1|]).
      - destruct (decide (pdf_type = str "construction_costing")); auto.
      - intros Heq. destruct Hq2; [contradiction | assumption]. }
    assert (Hhead : forall (i : nat) p,
              (page :: pages) !! i = Some p ->
              page_info = extract_page_content p (idx + Z.of_nat i) ->
              kept pdf_type page_info ->
              (i = O /\ page_info = pi0 /\ kept pdf_type pi0)
              \/ In page_info (select_pages pdf_type (idx + 1) pages)).
    { intros [|i] p Hi Hp Hk.
      - left. injection Hi as <-. rewrite Z.add_0_r in Hp. subst page_info.
        auto.
      - right. apply Hrest. eauto. }
    destruct (pystr_eqb (text pi0) [] && pystr_eqb (tables_markdown pi0) [])
      eqn:Hempty;
      [|destruct (pystr_eqb pdf_type (str "construction_costing")
                  && negb (existsb isdigit (text pi0 ++ tables_markdown pi0)))
          eqn:Hdigit].
    + split.
      * intros Hin. apply Hrest in Hin as (i & p & Hq1 & Hq2 & Hq3). eauto.
      * intros (i & p & Hi & Hp & Hk).
        destruct (Hhead i p Hi Hp Hk) as [(_ & _ & Hk0)|Hin]; [|exact Hin].
        apply Hkept in Hk0 as [Hk0 _]. discriminate.
    + split.
      * intros Hin. apply Hrest in Hin as (i & p & Hq1 & Hq2 & Hq3). eauto.
      * intros (i & p & Hi & Hp & Hk).
        destruct (Hhead i p Hi Hp Hk) as [(_ & _ & Hk0)|Hin]; [|exact Hin].
        apply Hkept in Hk0 as [_ Hk0]. discriminate.
    + split.
      * intros [<-|Hin].
        -- exists O, page. split; [reflexivity|].
           split; [unfold pi0; f_equal; lia|]. apply Hkept. auto.
        -- apply Hrest in Hin as (i & p & Hq1 & Hq2 & Hq3). eauto.
      * intros (i & p & Hi & Hp & Hk).
        destruct (Hhead i p Hi Hp Hk) as [(_ & -> & _)|Hin];
          [left; reflexivity | right; exact Hin].
Qed.

(** The digit filter of costing documents, on the kept pages: a page
    with a rendered table always passes, as the heading of the table
    holds its number. *)
Lemma kept_costing (page : Page) (page_number : Z) :
  (forall c, (48 <= c <= 57)%N -> isdigit c = true) ->
  let page_info := extract_page_content page page_number in
  kept (str "construction_costing") page_info
  <-> ((exists tbl, In tbl (default [] (extract_tables page)) /\ tbl <> [])
       \/ existsb isdigit (text page_info) = true).
Proof.
  intros Hdigits page_info.
  destruct (tables_markdown_rendered page page_number) as [Hiff Hdigit].
  fold page_info in Hiff, Hdigit. rewrite <- Hiff. unfold kept.
  assert (Htables : tables_markdown page_info <> [] ->
            existsb isdigit (text page_info ++ tables_markdown page_info)
            = true).
  { intros Hne. rewrite existsb_app. apply orb_true_iff. right.
    apply existsb_exists. apply Hdigit in Hne.
    apply Exists_exists in Hne as (c & Hc & Hd).
    exists c. split; [apply list_elem_of_In, Hc | apply Hdigits, Hd]. }
  split.
  - intros [Hsome Hd]. specialize (Hd eq_refl).
    destruct (tables_markdown page_info) as [|c tm] eqn:Htm;
      [|left; discriminate].
    right. rewrite app_nil_r in Hd. exact Hd.
  - intros [Hne | Hd].
    + split; [right; exact Hne | intros _; apply Htables, Hne].
    + split.
      * left. intros Habs. rewrite Habs in Hd. discriminate Hd.
      * intros _. rewrite existsb_app, Hd. reflexivity.
Qed.

(** X13: the pages [process_single_pdf] hands to the LLM are exactly
    the pages of the file whose text or whose [tables_markdown] is not
    empty and, for a costing document, holds a digit; each comes with
    its position in the file, counted from 1, as its page number and
    with at most 6000 characters of text, and the page numbers ascend
    strictly. The [tables_markdown] of a page is not empty exactly
    when the page has a table with rows, and it comes with the
    generated headings [### Table k]: so, where the digits 0 to 9 count
    as digits, a costing page is handed on exactly when it has a table
    with rows, whatever the cells hold, or a digit in its text. *)
Theorem select_pages_exact (pdf_type : pystr) (pages : list Page)
    (page_info : PageInfo) :
  (In page_info (select_pages pdf_type 1 pages)
   <-> exists (i : nat) page,
         pages !! i = Some page
         /\ page_info = extract_page_content page (1 + Z.of_nat i)
         /\ (text page_info <> [] \/ tables_markdown page_info <> [])
         /\ (pdf_type = str "construction_costing" ->
             existsb isdigit (text page_info ++ tables_markdown page_info)
             = true))
  /\ (In page_info (select_pages pdf_type 1 pages) ->
      1 <= page_number page_info <= len pages
      /\ len (text page_info) <= 6000)
  /\ StronglySorted Z.lt
       (List.map page_number (select_pages pdf_type 1 pages))
  /\ (forall page n,
        tables_markdown (extract_page_content page n) <> []
        <-> exists tbl,
              In tbl (default [] (extract_tables page)) /\ tbl <> [])
  /\ ((forall c, (48 <= c <= 57)%N -> isdigit c = true) ->
      pdf_type = str "construction_costing" ->
      (In page_info (select_pages pdf_type 1 pages)
       <-> exists (i : nat) page,
             pages !! i = Some page
             /\ page_info = extract_page_content page (1 + Z.of_nat i)
             /\ ((exists tbl,
                    In tbl (default [] (extract_tables page)) /\ tbl <> [])
                 \/ existsb isdigit (text page_info) = true))).
Proof.
  split; [apply select_pages_In|]. split; [|split; [|split]].
  - intros Hin. apply select_pages_In in Hin as (i & page & Hi & -> & _).
    split; [|apply extract_page_content_text].
    apply lookup_lt_Some in Hi. simpl. unfold len. lia.
  - apply (extractor_properties.select_pages_ascending pdf_type pages 1).
  - intros page n. apply tables_markdown_rendered.
  - intros Hdigits ->. rewrite select_pages_In.
    split; intros (i & page & Hi & -> & Hkept); exists i, page;
      (split; [exact Hi|]); (split; [reflexivity|]);
      apply (kept_costing page (1 + Z.of_nat i) Hdigits); exact Hkept.
Qed.

(** The dict items of a page result carry a page number. *)
Definition tagged (item : json) : Prop :=
  match item with
  | JDict d => exists v, dict_get d (str "page_number") = Some v
  | _ => True
  end.

Lemma tag_page_tagged (page_number : Z) (obj : json) :
  tagged (tag_page page_number obj).
Proof.
  destruct obj as [| | | | | |d]; simpl; auto.
  unfold dict_has. destruct (dict_get d (str "page_number")) as [v|] eqn:Hd.
  - simpl. eauto.
  - simpl. rewrite persistence_properties.dict_get_set_eq. eauto.
Qed.

(** The page number that [tag_page] adds is the one of the page; a
    page number that the response gives stays. *)
Lemma tag_page_value (page_number : Z) (d : list (pystr * json)) :
  exists d',
    tag_page page_number (JDict d) = JDict d'
    /\ dict_get d' (str "page_number")
       = Some (default (JInt page_number) (dict_get d (str "page_number"))).
Proof.
  simpl. unfold dict_has.
  destruct (dict_get d (str "page_number")) as [v|] eqn:Hd.
  - exists d. auto.
  - eexists. split; [reflexivity|].
    apply persistence_properties.dict_get_set_eq.
Qed.

Definition tagged_type (pdf_type : pystr) : Prop :=
  pdf_type = str "construction_process"
  \/ pdf_type = str "project_schedule"
  \/ pdf_type = str "ura_circular".

Lemma process_page_tagged pdf_type prompt_template page_info pn items :
  tagged_type pdf_type ->
  _process_page_with_llm pdf_type prompt_template page_info = Ok (pn, items) ->
  Forall tagged items.
Proof.
  intros Htype. unfold _process_page_with_llm.
  assert (Hin : existsb (pystr_eqb pdf_type)
                  [str "construction_process"; str "project_schedule";
                   str "ura_circular"] = true).
  { destruct Htype as [-> | [-> | ->]]; reflexivity. }
  rewrite Hin.
  destruct (llm_client.ask_llm _ 6) as [raw|]; simpl; [|discriminate].
  destruct (safe_json_loads raw) as [| | | | |l| ]; intros [= <- <-];
    try constructor.
  apply Forall_forall. intros x Hx.
  apply list_elem_of_In, in_map_iff in Hx as (obj & <- & _).
  apply tag_page_tagged.
Qed.

Lemma collect_page_Forall (P : json -> Prop) pdf_type prompt_template :
  (forall page_info pn items,
      _process_page_with_llm pdf_type prompt_template page_info
      = Ok (pn, items) -> Forall P items) ->
  forall (order : list PageInfo) (acc : gmap Z (list json)),
    map_Forall (fun _ items => Forall P items) acc ->
    map_Forall (fun _ items => Forall P items)
      (fold_left (collect_page pdf_type prompt_template) order acc).
Proof.
  intros HP. induction order as [|p order IH]; intros acc Hacc; [exact Hacc|].
  simpl. apply IH. unfold collect_page.
  destruct (_process_page_with_llm pdf_type prompt_template p)
    as [[pn items]|e] eqn:Hp.
  - apply map_Forall_insert_2; [eapply HP; eauto | exact Hacc].
  - destruct (acc !! page_number p); [exact Hacc|].
    apply map_Forall_insert_2; [constructor | exact Hacc].
Qed.

Lemma flatten_Forall (P : json -> Prop) (m : gmap Z (list json)) :
  map_Forall (fun _ items => Forall P items) m -> Forall P (flatten m).
Proof.
  intros Hm. unfold flatten. apply Forall_forall. intros x Hx.
  apply list_elem_of_In, in_flat_map in Hx as (k & _ & Hx).
  destruct (m !! k) as [items|] eqn:Hk; [|destruct Hx].
  specialize (Hm k items Hk). rewrite Forall_forall in Hm.
  apply Hm, list_elem_of_In, Hx.
Qed.

(** X14: for a process, schedule or circular document every object of
    the [structured_data] that [process_single_pdf] returns carries a
    [page_number] entry, however many pages were processed and in
    whatever order their calls completed. *)
Theorem structured_data_tagged (pdf_path : pystr) (classifier : json)
    (r : Extraction) :
  process_single_pdf pdf_path classifier = Ok r ->
  pdf_type r = str "construction_process"
  \/ pdf_type r = str "project_schedule"
  \/ pdf_type r = str "ura_circular" ->
  Forall (fun item =>
            match item with
            | JDict d => exists v, dict_get d (str "page_number") = Some v
            | _ => True
            end) (structured_data r).
Proof.
  unfold process_single_pdf.
  destruct (lookup_template classifier) as [[pt template]|]; simpl;
    [|discriminate].
  destruct (pdfplumber_open pdf_path) as [pages|]; simpl; [|discriminate].
  intros Hr Htype.
  assert (Hpage : tagged_type pt ->
            forall page_info pn items,
              _process_page_with_llm pt template page_info = Ok (pn, items) ->
              Forall tagged items).
  { intros Ht page_info pn items. apply process_page_tagged, Ht. }
  destruct (select_pages pt 1 pages) as [|p1 [|p2 rest]].
  - injection Hr as <-. constructor.
  - destruct (_process_page_with_llm pt template p1) as [[pn items]|] eqn:Hp;
      simpl in Hr; [|discriminate].
    injection Hr as <-. simpl in *. apply (flatten_Forall tagged).
    apply map_Forall_insert_2; [|apply map_Forall_empty].
    eapply Hpage; eauto.
  - injection Hr as <-. simpl in *. apply (flatten_Forall tagged).
    apply collect_page_Forall; [apply Hpage, Htype | apply map_Forall_empty].
Qed.

(** The keys of [PROMPT_MAP]. *)
Definition supported (pdf_type : pystr) : Prop :=
  pdf_type = str "construction_process"
  \/ pdf_type = str "construction_costing"
  \/ pdf_type = str "project_schedule"
  \/ pdf_type = str "ura_circular".

Lemma prompt_for_supported (pdf_type : pystr) :
  (exists template, prompt_for PROMPT_MAP pdf_type = Some template)
  <-> supported pdf_type.
Proof.
  unfold PROMPT_MAP, supported. cbn [prompt_for].
  destruct (pystr_eqb (str "construction_process") pdf_type) eqn:E1;
    [apply pystr_eqb_true in E1; split; eauto|].
  destruct (pystr_eqb (str "construction_costing") pdf_type) eqn:E2;
    [apply pystr_eqb_true in E2; split; eauto|].
  destruct (pystr_eqb (str "project_schedule") pdf_type) eqn:E3;
    [apply pystr_eqb_true in E3; split; eauto|].
  destruct (pystr_eqb (str "ura_circular") pdf_type) eqn:E4;
    [apply pystr_eqb_true in E4; split; eauto 6|].
  apply pystr_eqb_false in E1, E2, E3, E4.
  split; [intros [template [=]]|].
  intros [Hs|[Hs|[Hs|Hs]]]; congruence.
Qed.

Lemma lookup_template_ok (d : list (pystr * json)) (t template : pystr) :
  lookup_template (JDict d) = Ok (t, template) ->
  dict_get d (str "pdf_type") = Some (JStr t)
  /\ prompt_for PROMPT_MAP t = Some template.
Proof.
  unfold lookup_template.
  destruct (dict_get d (str "pdf_type")) as [[| | | |t'| | ]|];
    try discriminate.
  destruct (prompt_for PROMPT_MAP t') as [template'|] eqn:Ht;
    [|discriminate].
  intros [= <- <-]. auto.
Qed.

Lemma process_single_pdf_ok (pdf_path : pystr) (d : list (pystr * json))
    (r : Extraction) :
  process_single_pdf pdf_path (JDict d) = Ok r ->
  supported (pdf_type r)
  /\ dict_get d (str "pdf_type") = Some (JStr (pdf_type r))
  /\ classifier_info r = JDict d.
Proof.
  unfold process_single_pdf.
  destruct (lookup_template (JDict d)) as [[t template]|] eqn:Hl;
    [|discriminate].
  apply lookup_template_ok in Hl as [Hd Ht].
  cbn [mbind res_bind].
  destruct (pdfplumber_open pdf_path) as [pages|]; [|discriminate].
  cbn [mbind res_bind].
  match goal with
  | |- (?m ≫= _) = _ -> _ => destruct m as [structured|]
  end; [|discriminate].
  intros [= <-]. cbn [pdf_type classifier_info]. split; [|auto].
  apply prompt_for_supported. eauto.
Qed.

Lemma process_single_pdf_unsupported (pdf_path : pystr)
    (d : list (pystr * json)) (t : pystr) :
  dict_get d (str "pdf_type") = Some (JStr t) ->
  ~ supported t ->
  process_single_pdf pdf_path (JDict d) = Raise ValueError.
Proof.
  intros Hd Hno. unfold process_single_pdf, lookup_template. rewrite Hd.
  destruct (prompt_for PROMPT_MAP t) as [template|] eqn:Ht; [|reflexivity].
  exfalso. apply Hno, prompt_for_supported. eauto.
Qed.

(** X15: [process_single_pdf] returns a result only for a verdict whose
    [pdf_type] is one of the four keys of [PROMPT_MAP]; for a verdict
    with another [pdf_type] string (as [other], which the classifier
    may answer) it raises [ValueError], and for a verdict without a
    [pdf_type] it raises [KeyError], in both cases whatever the file
    and the endpoint are, readable or not. *)
Theorem process_single_pdf_supported_types (pdf_path : pystr)
    (d : list (pystr * json)) :
  (forall r,
      process_single_pdf pdf_path (JDict d) = Ok r ->
      supported (pdf_type r)
      /\ dict_get d (str "pdf_type") = Some (JStr (pdf_type r))
      /\ classifier_info r = JDict d)
  /\ (forall pdf_type,
        dict_get d (str "pdf_type") = Some (JStr pdf_type) ->
        ~ supported pdf_type ->
        process_single_pdf pdf_path (JDict d) = Raise ValueError)
  /\ (dict_get d (str "pdf_type") = None ->
      process_single_pdf pdf_path (JDict d) = Raise KeyError).
Proof.
  split; [|split].
  - apply process_single_pdf_ok.
  - apply process_single_pdf_unsupported.
  - intros Hd. unfold process_single_pdf, lookup_template. rewrite Hd.
    reflexivity.
Qed.

(** A page without text and without tables. *)
Definition blank (page : Page) : Prop :=
  forallb isspace (default [] (extract_text page)) = true
  /\ default [] (extract_tables page) = [].

Lemma select_pages_blank pdf_type :
  forall pages idx, Forall blank pages -> select_pages pdf_type idx pages = [].
Proof.
  induction pages as [|page pages IH]; intros idx Hb; [reflexivity|].
  apply Forall_cons in Hb as [[Htext Htables] Hb].
  cbn [select_pages]. rewrite (IH _ Hb).
  unfold extract_page_content. cbn [text tables_markdown].
  rewrite (strip_blank _ Htext), Htables. reflexivity.
Qed.

(** X16: for a file that opens and whose pages all have only whitespace
    as text and no table, [process_single_pdf] returns a result with an
    empty [structured_data] for every supported type, whatever the
    endpoint would answer: a failing endpoint does not make it fail. *)
Theorem process_single_pdf_blank_document (pdf_path : pystr)
    (d : list (pystr * json)) (pdf_type : pystr) (pages : list Page) :
  dict_get d (str "pdf_type") = Some (JStr pdf_type) ->
  supported pdf_type ->
  pdfplumber_open pdf_path = Ok pages ->
  Forall blank pages ->
  process_single_pdf pdf_path (JDict d)
  = Ok {| filename := basename pdf_path;
          pdf_type := pdf_type;
          classifier_info := JDict d;
          structured_data := [] |}.
Proof.
  intros Hd Hs Hopen Hblank. unfold process_single_pdf, lookup_template.
  rewrite Hd. apply prompt_for_supported in Hs as (template & ->). simpl.
  rewrite Hopen. simpl. rewrite (select_pages_blank _ _ _ Hblank).
  reflexivity.
Qed.

End with_env.

(** *** Runs on canned documents *)

Definition schedule_verdict : json :=
  JDict [(str "pdf_type", JStr (str "project_schedule"))].

Definition circular_verdict : json :=
  JDict [(str "pdf_type", JStr (str "ura_circular"))].

(** An endpoint that is down. *)
Definition dead_client : OpenAIClient :=
  {| responses_create := fun _ _ => Fails (str "connection refused") |}.

(** A costing page without a digit in its text or in the cells of its
    table, and a page of text without a digit. *)
Definition wordy_table_page : Page :=
  {| extract_text := Some (str "Summary of works");
     extract_tables := Some [ [ [Some (str "Item"); Some (str "Unit")] ] ] |}.

Definition wordy_pages : list Page :=
  [wordy_table_page; Mock.text_page "no figures here"].

(** The page with the table is handed to the LLM, the page of text is
    not. *)
Lemma select_pages_exact_witness :
  In (extract_page_content wordy_table_page 1)
    (@select_pages Mock.unicode (str "construction_costing") 1 wordy_pages)
  /\ ~ In (extract_page_content (Mock.text_page "no figures here") 2)
         (@select_pages Mock.unicode (str "construction_costing") 1
            wordy_pages).
Proof.
  assert (Hdigits : forall c, (48 <= c <= 57)%N -> @isdigit Mock.unicode c = true).
  { intros c [Hlo Hhi]. unfold isdigit, Mock.unicode, Mock.is_ascii_digit.
    apply andb_true_iff. split; apply N.leb_le; assumption. }
  split.
  - apply (@select_pages_exact Mock.unicode (str "construction_costing")
             wordy_pages); [exact Hdigits | reflexivity|].
    exists O, wordy_table_page. split; [reflexivity|].
    split; [reflexivity|]. left.
    exists [ [Some (str "Item"); Some (str "Unit")] ].
    split; [left; reflexivity | discriminate].
  - intros Hin.
    apply (@select_pages_exact Mock.unicode (str "construction_costing")
             wordy_pages) in Hin; [|exact Hdigits | reflexivity].
    destruct Hin as (i & page & Hi & Hinfo & Hcase).
    destruct i as [|[|i]]; simpl in Hi; try discriminate Hi;
      injection Hi as <-.
    + apply (f_equal page_number) in Hinfo. discriminate Hinfo.
    + destruct Hcase as [(tbl & [] & _) | Hdigit].
      vm_compute in Hdigit. discriminate Hdigit.
Defined.

Lemma structured_data_tagged_witness :
  match @process_single_pdf Mock.unicode extractor_properties.moody_client
          (Mock.files_with [extractor_properties.good_page])
          Mock.json_decoder Mock.prompts Mock.reversing_pool
          (str "docs/plan.pdf") schedule_verdict with
  | Ok r =>
      Forall (fun item =>
                match item with
                | JDict d => exists v, dict_get d (str "page_number") = Some v
                | _ => True
                end) (structured_data r)
      /\ length (structured_data r) = 3%nat
  | Raise _ => False
  end.
Proof.
  destruct (@process_single_pdf Mock.unicode extractor_properties.moody_client
              (Mock.files_with [extractor_properties.good_page])
              Mock.json_decoder Mock.prompts Mock.reversing_pool
              (str "docs/plan.pdf") schedule_verdict)
    as [r|e] eqn:Hr; [|vm_compute in Hr; discriminate Hr].
  split.
  - apply (@structured_data_tagged Mock.unicode
             extractor_properties.moody_client
             (Mock.files_with [extractor_properties.good_page])
             Mock.json_decoder Mock.prompts Mock.reversing_pool
             (str "docs/plan.pdf") schedule_verdict r Hr).
    vm_compute in Hr. injection Hr as <-. right. left. reflexivity.
  - vm_compute in Hr. injection Hr as <-. reflexivity.
Defined.

Lemma process_single_pdf_supported_types_witness :
  @process_single_pdf Mock.unicode dead_client
    (Mock.files_with [extractor_properties.good_page]) Mock.json_decoder
    Mock.prompts Mock.reversing_pool (str "docs/letter.pdf")
    (JDict [(str "pdf_type", JStr (str "other"))])
  = Raise ValueError.
Proof.
  apply (@process_single_pdf_supported_types Mock.unicode dead_client
           (Mock.files_with [extractor_properties.good_page])
           Mock.json_decoder Mock.prompts Mock.reversing_pool
           (str "docs/letter.pdf")
           [(str "pdf_type", JStr (str "other"))] ) with (pdf_type := str "other").
  - reflexivity.
  - intros [Hs|[Hs|[Hs|Hs]]]; vm_compute in Hs; discriminate Hs.
Defined.

Lemma process_single_pdf_blank_document_witness :
  @process_single_pdf Mock.unicode dead_client
    (Mock.files_with [Mock.blank_page; Mock.text_page "   "])
    Mock.json_decoder Mock.prompts Mock.reversing_pool
    (str "docs/empty.pdf") circular_verdict
  = Ok {| filename := str "empty.pdf";
          pdf_type := str "ura_circular";
          classifier_info := circular_verdict;
          structured_data := [] |}.
Proof.
  unfold circular_verdict.
  rewrite (@process_single_pdf_blank_document Mock.unicode dead_client
             (Mock.files_with [Mock.blank_page; Mock.text_page "   "])
             Mock.json_decoder Mock.prompts Mock.reversing_pool
             (str "docs/empty.pdf")
             [(str "pdf_type", JStr (str "ura_circular"))]
             (str "ura_circular") [Mock.blank_page; Mock.text_page "   "]).
  - vm_compute. reflexivity.
  - reflexivity.
  - right. right. right. reflexivity.
  - reflexivity.
  - repeat constructor.
Defined.

End extractor_edge_properties.

(** ** The loader *)

Module loader_properties.
Import dlt_pipeline_loader prefect_pdf_flow.

Lemma normalize_parsed_data_list (l : list json) :
  normalize_parsed_data (JList l) = List.filter is_dict l.
Proof. reflexivity. Qed.

Lemma filter_is_dict_idem (l : list json) :
  List.filter is_dict (List.filter is_dict l) = List.filter is_dict l.
Proof.
  induction l as [|x l IH]; [reflexivity|]. simpl.
  destruct (is_dict x) eqn:Hx; simpl; rewrite ?Hx, IH; reflexivity.
Qed.

(** X17: [normalize_parsed_data] returns dicts only; normalising its own
    result again, or normalising what the normalisation at the start of
    [task_3_load] has produced, gives the same list; and the extraction
    dict of [process_single_pdf] is normalised to the dicts of its
    [structured_data]. *)
Theorem normalize_parsed_data_stable (parsed_data : json) :
  Forall (fun r => exists d, r = JDict d) (normalize_parsed_data parsed_data)
  /\ normalize_parsed_data (JList (normalize_parsed_data parsed_data))
     = normalize_parsed_data parsed_data
  /\ normalize_parsed_data (task_3_normalize parsed_data)
     = normalize_parsed_data parsed_data
  /\ (forall r : pdf_extractor.Extraction,
        normalize_parsed_data (extraction_dict r)
        = List.filter is_dict (pdf_extractor.structured_data r)).
Proof.
  split; [|split; [|split]].
  - unfold normalize_parsed_data. apply Forall_forall. intros r Hr.
    apply list_elem_of_In, filter_In in Hr as [_ Hr].
    destruct r; try discriminate. eauto.
  - rewrite normalize_parsed_data_list. unfold normalize_parsed_data.
    apply filter_is_dict_idem.
  - unfold normalize_parsed_data, task_3_normalize.
    destruct parsed_data as [| | | | | |d]; try reflexivity.
    destruct (dict_get d (str "structured_data")) as [[]|]; reflexivity.
  - intros r. reflexivity.
Qed.

(** A value read with [r.get(key)]. *)
Definition field (r : json) (key : pystr) : json :=
  match r with
  | JDict d => default JNull (dict_get d key)
  | _ => JNull
  end.

(** The rows of the three tables. *)
Definition task_row (document_id : pystr) (t : json) : json :=
  JDict [ (str "document_id", JStr document_id);
          (str "task_name", field t (str "task_name"));
          (str "duration_days", field t (str "duration_days"));
          (str "start_date", field t (str "start_date"));
          (str "finish_date", field t (str "finish_date")) ].

Definition rule_row (document_id : pystr) (r : json) : json :=
  JDict [ (str "document_id", JStr document_id);
          (str "rule_summary", field r (str "rule_summary"));
          (str "measurement_basis", field r (str "measurement_basis")) ].

Definition cost_item_row (document_id : pystr) (item : json) : json :=
  JDict [ (str "document_id", JStr document_id);
          (str "item_name", field item (str "item_name"));
          (str "quantity", field item (str "quantity"));
          (str "unit_price_yen", field item (str "unit_price"));
          (str "total_cost_yen", field item (str "total_cost"));
          (str "cost_type", field item (str "cost_type")) ].

(** A row that carries the document id. *)
Definition carries (document_id : pystr) (row : json) : Prop :=
  exists d,
    row = JDict d
    /\ dict_get d (str "document_id") = Some (JStr document_id).

Lemma task_rows_dicts (document_id : pystr) (l : list json) :
  Forall (fun r => is_dict r = true) l ->
  task_rows document_id l = Ok (List.map (task_row document_id) l).
Proof.
  induction 1 as [|t l Ht _ IH]; [reflexivity|].
  destruct t; try discriminate. cbn [task_rows]. rewrite IH. reflexivity.
Qed.

Lemma rule_rows_dicts (document_id : pystr) (l : list json) :
  Forall (fun r => is_dict r = true) l ->
  rule_rows document_id l = Ok (List.map (rule_row document_id) l).
Proof.
  induction 1 as [|t l Ht _ IH]; [reflexivity|].
  destruct t; try discriminate. cbn [rule_rows]. rewrite IH. reflexivity.
Qed.

(** The value of [block.get("items", [])]. *)
Definition items_of (block : json) : json :=
  match block with
  | JDict d => default (JList []) (dict_get d (str "items"))
  | _ => JList []
  end.

Definition iterable (v : json) : bool :=
  match v with
  | JList _ | JStr _ | JDict _ => true
  | _ => false
  end.

(** The rows a block gives: one for each dict of its list of items. *)
Definition block_rows (document_id : pystr) (block : json) : list json :=
  match items_of block with
  | JList items =>
      List.map (cost_item_row document_id) (List.filter is_dict items)
  | _ => []
  end.

Lemma omap_cost_row (document_id : pystr) (items : list json) :
  omap (cost_row document_id) items
  = List.map (cost_item_row document_id) (List.filter is_dict items).
Proof.
  induction items as [|item items IH]; [reflexivity|].
  destruct item; cbn [List.filter is_dict List.map]; rewrite <- IH;
    reflexivity.
Qed.

Lemma omap_cost_row_strs {A} (document_id : pystr) (f : A -> pystr)
    (l : list A) :
  omap (cost_row document_id) (List.map (fun x => JStr (f x)) l) = [].
Proof. induction l as [|x l IH]; [reflexivity | exact IH]. Qed.

Lemma cost_rows_dicts (document_id : pystr) (l : list json) :
  Forall (fun r => is_dict r = true) l ->
  cost_rows document_id l
  = if forallb (fun block => iterable (items_of block)) l
    then Ok (flat_map (block_rows document_id) l)
    else Raise TypeError.
Proof.
  induction 1 as [|block l Hb _ IH]; [reflexivity|].
  destruct block as [| | | | | |d]; try discriminate.
  cbn [cost_rows forallb flat_map get_default mbind res_bind].
  unfold block_rows at 1. cbn [items_of].
  destruct (default (JList []) (dict_get d (str "items")))
    as [| | | |s|items|d'] eqn:Hitems; cbn [iterate iterable andb];
    try reflexivity; rewrite IH;
    destruct (forallb (fun block => iterable (items_of block)) l);
    cbn [mbind res_bind]; try reflexivity.
  - rewrite (omap_cost_row_strs document_id (fun c => [c])). reflexivity.
  - rewrite omap_cost_row. reflexivity.
  - rewrite (omap_cost_row_strs document_id (fun kv : pystr * json => kv.1)).
    reflexivity.
Qed.

Lemma normalized_dicts (parsed_data : json) :
  Forall (fun r => is_dict r = true) (normalize_parsed_data parsed_data).
Proof.
  unfold normalize_parsed_data. apply Forall_forall. intros r Hr.
  apply list_elem_of_In, filter_In in Hr as [_ Hr]. exact Hr.
Qed.

Lemma carries_task_row document_id t : carries document_id (task_row document_id t).
Proof. eexists. split; reflexivity. Qed.

Lemma carries_rule_row document_id t : carries document_id (rule_row document_id t).
Proof. eexists. split; reflexivity. Qed.

Lemma carries_cost_row document_id t :
  carries document_id (cost_item_row document_id t).
Proof. eexists. split; reflexivity. Qed.

Lemma Forall_map_carries document_id (f : json -> json) (l : list json) :
  (forall x, carries document_id (f x)) ->
  Forall (carries document_id) (List.map f l).
Proof.
  intros Hf. apply Forall_forall. intros x Hx.
  apply list_elem_of_In, in_map_iff in Hx as (y & <- & _). apply Hf.
Qed.

Lemma carries_block_rows document_id l :
  Forall (carries document_id) (flat_map (block_rows document_id) l).
Proof.
  apply Forall_forall. intros x Hx.
  apply list_elem_of_In, in_flat_map in Hx as (b & _ & Hx).
  unfold block_rows in Hx. destruct (items_of b); try destruct Hx.
  apply in_map_iff in Hx as (y & <- & _). apply carries_cost_row.
Qed.

Section with_env.
Context `{!UuidSource, !Embeddings, !DltPipeline, !Clock}.

(** The rows that [load_structured_data] builds for a document, before
    it hands them to the pipeline; [None] when building them raises. *)
Definition rows_for (pdf_type document_id : pystr) (parsed_data : json)
  : option (pystr * list json) :=
  let records := normalize_parsed_data parsed_data in
  if pystr_eqb pdf_type (str "construction_costing") then
    if forallb (fun block => iterable (items_of block)) records
    then Some (str "cost_items", flat_map (block_rows document_id) records)
    else None
  else if pystr_eqb pdf_type (str "project_schedule") then
    Some (str "project_tasks", List.map (task_row document_id) records)
  else if pystr_eqb pdf_type (str "ura_circular") then
    Some (str "regulatory_rules", List.map (rule_row document_id) records)
  else Some ([], []).

Lemma rows_for_carry pdf_type document_id parsed_data table rows :
  rows_for pdf_type document_id parsed_data = Some (table, rows) ->
  Forall (carries document_id) rows.
Proof.
  unfold rows_for.
  repeat match goal with
         | |- context [if ?b then _ else _] => destruct b
         end; intros [= <- <-]; try constructor.
  - apply carries_block_rows.
  - apply Forall_map_carries, carries_task_row.
  - apply Forall_map_carries, carries_rule_row.
Qed.

(** [load_structured_data] in terms of the rows it builds. *)
Lemma load_structured_data_rows_for log pdf_type document_id parsed_data :
  load_structured_data log pdf_type document_id parsed_data
  = match rows_for pdf_type document_id parsed_data with
    | None => (Raises (Other TypeError), log)
    | Some (table, rows) => run_rows log (Ok rows) table
    end.
Proof.
  unfold load_structured_data, rows_for.
  pose proof (normalized_dicts parsed_data) as Hd.
  destruct (pystr_eqb pdf_type (str "construction_costing")).
  { rewrite (cost_rows_dicts _ _ Hd).
    destruct (forallb _ _); reflexivity. }
  destruct (pystr_eqb pdf_type (str "project_schedule")).
  { rewrite (task_rows_dicts _ _ Hd). reflexivity. }
  destruct (pystr_eqb pdf_type (str "ura_circular")).
  { rewrite (rule_rows_dicts _ _ Hd). reflexivity. }
  reflexivity.
Qed.

(** The runs that [load_structured_data] adds. *)
Lemma load_structured_data_runs (log : list Run)
    (pdf_type document_id : pystr) (parsed_data : json) :
  exists new,
    snd (load_structured_data log pdf_type document_id parsed_data)
    = log ++ new
    /\ (length new <= 1)%nat
    /\ Forall (fun run => Forall (carries document_id) (rows run)) new.
Proof.
  rewrite load_structured_data_rows_for.
  destruct (rows_for pdf_type document_id parsed_data) as [[table rows_]|]
    eqn:Hrows.
  - pose proof (rows_for_carry _ _ _ _ _ Hrows) as Hcarry.
    unfold run_rows, run. destruct rows_ as [|row rows_].
    + exists []. rewrite app_nil_r. repeat split; auto.
    + eexists [_]. split; [reflexivity|]. split; [simpl; lia|].
      constructor; [exact Hcarry | constructor].
  - exists []. rewrite app_nil_r. repeat split; auto.
Qed.

(** X18: whatever the type and the data, [load_structured_data] makes
    at most one run on the pipeline; the run appends to the table of
    the type, its rows are not empty and each carries the document id.
    It raises only a [TypeError] of the costing branch, before any
    run, or what the run raises; in particular no record of the
    normalised data makes it fail for lack of a [get]. *)
Theorem load_structured_data_one_run (log : list Run)
    (pdf_type document_id : pystr) (parsed_data : json) :
  let '(r, log') :=
    load_structured_data log pdf_type document_id parsed_data in
  exists new,
    log' = log ++ new
    /\ (length new <= 1)%nat
    /\ Forall (fun run =>
                 rows run <> []
                 /\ write_disposition run = str "append"
                 /\ Forall (carries document_id) (rows run)
                 /\ (pdf_type = str "construction_costing"
                     /\ table_name run = str "cost_items"
                     \/ pdf_type = str "project_schedule"
                        /\ table_name run = str "project_tasks"
                     \/ pdf_type = str "ura_circular"
                        /\ table_name run = str "regulatory_rules")) new
    /\ match r with
       | Returns _ => True
       | Raises e =>
           e = Other TypeError /\ new = []
           /\ pdf_type = str "construction_costing"
           \/ exists run e',
                new = [run] /\ pipeline_run log run = RunFails e'
                /\ e = Other e'
       end.
Proof.
  rewrite load_structured_data_rows_for.
  destruct (rows_for pdf_type document_id parsed_data) as [[table rows_]|]
    eqn:Hrows.
  - pose proof (rows_for_carry _ _ _ _ _ Hrows) as Hcarry.
    unfold run_rows. destruct rows_ as [|row rows_].
    + exists []. rewrite app_nil_r. repeat split; auto.
    + unfold run.
      set (r := {| rows := row :: rows_; table_name := table;
                   write_disposition := str "append" |}).
      assert (Htable : pdf_type = str "construction_costing"
                       /\ table = str "cost_items"
                       \/ pdf_type = str "project_schedule"
                          /\ table = str "project_tasks"
                       \/ pdf_type = str "ura_circular"
                          /\ table = str "regulatory_rules").
      { unfold rows_for in Hrows.
        destruct (pystr_eqb pdf_type (str "construction_costing")) eqn:E1.
        { apply extractor_edge_properties.pystr_eqb_true in E1.
          destruct (forallb _ _); [|discriminate].
          injection Hrows as <- _. auto. }
        destruct (pystr_eqb pdf_type (str "project_schedule")) eqn:E2.
        { apply extractor_edge_properties.pystr_eqb_true in E2.
          injection Hrows as <- _. auto. }
        destruct (pystr_eqb pdf_type (str "ura_circular")) eqn:E3.
        { apply extractor_edge_properties.pystr_eqb_true in E3.
          injection Hrows as <- _. auto. }
        discriminate. }
      exists [r]. split; [reflexivity|]. split; [simpl; lia|]. split.
      * constructor; [|constructor]. subst r. cbn.
        split; [discriminate|]. split; [reflexivity|]. auto.
      * destruct (pipeline_run log r) as [ids|e'] eqn:Hrun; [exact I|].
        right. exists r, e'. auto.
  - exists []. rewrite app_nil_r. split; [reflexivity|].
    split; [simpl; lia|]. split; [constructor|]. left.
    split; [reflexivity|]. split; [reflexivity|].
    unfold rows_for in Hrows.
    destruct (pystr_eqb pdf_type (str "construction_costing")) eqn:E1;
      [apply extractor_edge_properties.pystr_eqb_true in E1; exact E1|].
    repeat match type of Hrows with
           | context [if ?b then _ else _] => destruct b
           end; discriminate.
Qed.

(** The runs a table load adds: none for no rows. *)
Definition inserted (table : pystr) (rows_ : list json) : list Run :=
  match rows_ with
  | [] => []
  | _ => [ {| rows := rows_; table_name := table;
              write_disposition := str "append" |} ]
  end.

Lemma run_rows_inserted log rows_ table :
  snd (run_rows log (Ok rows_) table) = log ++ inserted table rows_
  /\ (rows_ = [] -> run_rows log (Ok rows_) table = (Returns tt, log)).
Proof.
  unfold run_rows, inserted. destruct rows_ as [|row rows_].
  - rewrite app_nil_r. auto.
  - split; [reflexivity | discriminate].
Qed.

Ltac decide_type :=
  repeat match goal with
         | |- context [pystr_eqb ?a ?b] =>
             first
               [ rewrite (proj2 (extractor_edge_properties.pystr_eqb_true a b))
                   by reflexivity
               | rewrite (proj2 (extractor_edge_properties.pystr_eqb_false a b))
                   by (try assumption; vm_compute; discriminate) ]
         end.

(** X19: what [load_structured_data] hands to the pipeline, by type. A
    schedule gives one [project_tasks] row per dict record and a
    circular one [regulatory_rules] row per dict record, in the order
    of the records, each with the document id and the fields of the
    record, [None] for a field the record lacks. A costing document
    gives one [cost_items] row per dict among the [items] of each
    block, when the [items] of every block can be iterated; when some
    block's [items] is [null], a number or a boolean, it raises
    [TypeError] and hands over nothing, the rows of the other blocks
    included. For every other type, [construction_process] included,
    it hands over nothing and returns. No run is made for an empty list
    of rows. *)
Theorem load_structured_data_tables (log : list Run)
    (document_id : pystr) (parsed_data : json) :
  let records := normalize_parsed_data parsed_data in
  snd (load_structured_data log (str "project_schedule") document_id
         parsed_data)
  = log ++ inserted (str "project_tasks")
             (List.map (task_row document_id) records)
  /\ snd (load_structured_data log (str "ura_circular") document_id
            parsed_data)
     = log ++ inserted (str "regulatory_rules")
                (List.map (rule_row document_id) records)
  /\ (forallb (fun block => iterable (items_of block)) records = true ->
      snd (load_structured_data log (str "construction_costing")
             document_id parsed_data)
      = log ++ inserted (str "cost_items")
                 (flat_map (block_rows document_id) records))
  /\ (forallb (fun block => iterable (items_of block)) records = false ->
      load_structured_data log (str "construction_costing") document_id
        parsed_data
      = (Raises (Other TypeError), log))
  /\ (forall pdf_type,
        pdf_type <> str "construction_costing" ->
        pdf_type <> str "project_schedule" ->
        pdf_type <> str "ura_circular" ->
        load_structured_data log pdf_type document_id parsed_data
        = (Returns tt, log)).
Proof.
  intros records. rewrite !load_structured_data_rows_for. unfold rows_for.
  fold records. split; [|split; [|split; [|split]]].
  - decide_type. apply run_rows_inserted.
  - decide_type. apply run_rows_inserted.
  - intros ->. decide_type. apply run_rows_inserted.
  - intros ->. decide_type. reflexivity.
  - intros pdf_type Hc Hs Hu. rewrite load_structured_data_rows_for.
    unfold rows_for. decide_type. reflexivity.
Qed.

(** The row of [documents_master]. *)
Definition master_run (pdf_name pdf_type : pystr) : Run :=
  {| rows := [ JDict [ (str "pdf_name", JStr pdf_name);
                       (str "pdf_type", JStr pdf_type);
                       (str "created_at", JStr utcnow_isoformat) ] ];
     table_name := str "documents_master";
     write_disposition := str "append" |}.

Lemma load_document_record_spec pdf_name pdf_type :
  load_document_record [] pdf_name pdf_type
  = (match pipeline_run [] (master_run pdf_name pdf_type) with
     | Loaded (document_id :: _) => Returns document_id
     | Loaded [] => Raises IndexError
     | RunFails e => Raises (Other e)
     end, [master_run pdf_name pdf_type]).
Proof.
  unfold load_document_record, run. fold (master_run pdf_name pdf_type).
  destruct (pipeline_run [] (master_run pdf_name pdf_type)) as [[|i ids]|e];
    reflexivity.
Qed.

(** The first run is the one of the master row, whatever happens
    after it. *)
Lemma load_document_into_system_runs pdf_name pdf_type parsed_data chunks u
    r trace u' :
  load_document_into_system pdf_name pdf_type parsed_data chunks u
  = (r, trace, u') ->
  exists later, runs trace = master_run pdf_name pdf_type :: later.
Proof.
  unfold load_document_into_system. rewrite load_document_record_spec.
  destruct (pipeline_run [] (master_run pdf_name pdf_type))
    as [[|doc ids]|e]; try (intros [= <- <- <-]; exists []; reflexivity).
  pose proof (load_structured_data_runs [master_run pdf_name pdf_type]
                pdf_type doc parsed_data) as Hone.
  destruct (load_structured_data [master_run pdf_name pdf_type] pdf_type doc
              parsed_data) as [[[]|e] log'];
    cbn [snd] in Hone; destruct Hone as (new & -> & _).
  - destruct (dlt_pipeline.store_chunks_in_chroma_with_doc_id chunks doc u)
      as [[store u1]|e]; intros [= <- <- <-]; exists new; reflexivity.
  - intros [= <- <- <-]. exists new. reflexivity.
Qed.

(** A metadata dict that carries the document id. *)
Definition stamped (document_id : pystr) (m : json) : Prop :=
  exists d,
    m = JDict d /\ dict_get d (str "document_id") = Some (JStr document_id).

(** X20: when [load_document_into_system] returns a document id, the
    first run of the pipeline was the one row of [documents_master]
    with the name, the type and the time of the call, the id returned
    is the first load id of that run, every row of every later run
    carries that id, and so does the metadata of every chunk written
    to the vector store: the relational rows and the vectors of a
    document are linked by the same id. *)
Theorem load_document_into_system_links (pdf_name pdf_type : pystr)
    (parsed_data : json) (chunks : list (list (pystr * json)))
    (u u' : nat) (document_id : pystr) (trace : SystemTrace) :
  load_document_into_system pdf_name pdf_type parsed_data chunks u
  = (Returns document_id, trace, u') ->
  exists later store,
    runs trace = master_run pdf_name pdf_type :: later
    /\ (exists ids,
          pipeline_run [] (master_run pdf_name pdf_type)
          = Loaded (document_id :: ids))
    /\ (length later <= 1)%nat
    /\ Forall (fun run => Forall (carries document_id) (rows run)) later
    /\ chroma trace = Some store
    /\ Forall (fun add => Forall (stamped document_id) (metadatas add))
         (added store).
Proof.
  unfold load_document_into_system. rewrite load_document_record_spec.
  destruct (pipeline_run [] (master_run pdf_name pdf_type))
    as [[|doc ids]|e] eqn:Hmaster; try discriminate.
  pose proof (load_structured_data_runs [master_run pdf_name pdf_type]
                pdf_type doc parsed_data) as Hone.
  destruct (load_structured_data [master_run pdf_name pdf_type] pdf_type doc
              parsed_data) as [[[]|e] log'].
  2:{ discriminate. }
  cbn [snd] in Hone. destruct Hone as (new & -> & Hlen & Hnew).
  destruct (dlt_pipeline.store_chunks_in_chroma_with_doc_id chunks doc u)
    as [[store u1]|e] eqn:Hstore; [|discriminate].
  intros [= <- <- <-]. exists new, store. cbn [runs chroma].
  split; [reflexivity|]. split; [eauto|]. split; [exact Hlen|]. split.
  - exact Hnew.
  - split; [reflexivity|].
    apply persistence_properties.store_with_doc_id_spec in Hstore
      as (cleaned & Hok & Hshape).
    destruct cleaned as [|c cleaned].
    + destruct Hshape as [_ ->]. constructor.
    + destruct Hshape as [_ ->]. constructor; [|constructor].
      cbn [metadatas]. apply Forall_forall. intros m Hm.
      apply list_elem_of_In, in_map_iff in Hm as (c' & <- & Hc').
      rewrite Forall_forall in Hok.
      apply list_elem_of_In, Hok in Hc' as (_ & _ & (md & Hmd & Hdoc)).
      exists md. unfold dlt_pipeline.field. rewrite Hmd. auto.
Qed.

(** X21: the load is not atomic. When the [documents_master] row has
    been loaded and the costing data then holds a block whose [items]
    cannot be iterated, [load_document_into_system] raises [TypeError]
    after the one run of the master row: the document stays in
    [documents_master] without cost items, and no chunk of it reaches
    the vector store. *)
Theorem load_document_into_system_not_atomic (pdf_name : pystr)
    (parsed_data : json) (chunks : list (list (pystr * json))) (u : nat)
    (document_id : pystr) (ids : list pystr) :
  pipeline_run [] (master_run pdf_name (str "construction_costing"))
  = Loaded (document_id :: ids) ->
  forallb (fun block => iterable (items_of block))
    (normalize_parsed_data parsed_data) = false ->
  load_document_into_system pdf_name (str "construction_costing")
    parsed_data chunks u
  = (Raises (Other TypeError),
     {| runs := [master_run pdf_name (str "construction_costing")];
        chroma := None |}, u).
Proof.
  intros Hmaster Hitems. unfold load_document_into_system.
  rewrite load_document_record_spec, Hmaster.
  rewrite load_structured_data_rows_for. unfold rows_for.
  decide_type. rewrite Hitems. reflexivity.
Qed.

End with_env.

(** *** Runs on a canned pipeline *)

(** A pipeline whose every run succeeds, with a load id that counts
    the runs made before it. *)
Definition counting_pipeline : DltPipeline :=
  {| pipeline_run := fun log _ =>
       Loaded [str "load-" ++ str_of_int (len log)] |}.

Definition fixed_clock : Clock :=
  {| utcnow_isoformat := str "2024-05-01T09:30:00" |}.

(** A schedule with one task and a stray string. *)
Definition one_task : json :=
  JList [ JDict [ (str "task_name", JStr (str "Excavation"));
                  (str "duration_days", JInt 12) ];
          JStr (str "see next page") ].

Lemma load_structured_data_tables_witness :
  snd (@load_structured_data counting_pipeline [] (str "project_schedule")
         (str "load-0") one_task)
  = [ {| rows :=
           [ JDict [ (str "document_id", JStr (str "load-0"));
                     (str "task_name", JStr (str "Excavation"));
                     (str "duration_days", JInt 12);
                     (str "start_date", JNull);
                     (str "finish_date", JNull) ] ];
         table_name := str "project_tasks";
         write_disposition := str "append" |} ].
Proof.
  pose proof (@load_structured_data_tables counting_pipeline []
                (str "load-0") one_task) as Htables.
  cbv zeta in Htables. destruct Htables as [Hs _].
  rewrite Hs. vm_compute. reflexivity.
Defined.

Lemma load_document_into_system_links_witness :
  match @load_document_into_system Mock.uuids Mock.embeddings
          counting_pipeline fixed_clock (str "plan.pdf")
          (str "project_schedule") one_task
          [persistence_properties.plain_chunk] 0 with
  | (Returns document_id, trace, _) =>
      exists later store,
        runs trace
        = @master_run fixed_clock (str "plan.pdf") (str "project_schedule")
          :: later
        /\ (exists ids,
              @pipeline_run counting_pipeline []
                (@master_run fixed_clock (str "plan.pdf")
                   (str "project_schedule"))
              = Loaded (document_id :: ids))
        /\ (length later <= 1)%nat
        /\ Forall (fun run => Forall (carries document_id) (rows run)) later
        /\ chroma trace = Some store
        /\ Forall (fun add => Forall (stamped document_id) (metadatas add))
             (added store)
  | (Raises _, _, _) => False
  end.
Proof.
  destruct (@load_document_into_system Mock.uuids Mock.embeddings
              counting_pipeline fixed_clock (str "plan.pdf")
              (str "project_schedule") one_task
              [persistence_properties.plain_chunk] 0)
    as [[[document_id|e] trace] u'] eqn:Hload.
  - exact (@load_document_into_system_links Mock.uuids Mock.embeddings
             counting_pipeline fixed_clock (str "plan.pdf")
             (str "project_schedule") one_task
             [persistence_properties.plain_chunk] 0 u' document_id trace
             Hload).
  - vm_compute in Hload. discriminate Hload.
Defined.

(** Costing data with a block whose items are null. *)
Definition null_items : json :=
  JList [ JDict [ (str "section", JStr (str "Earthworks"));
                  (str "items", JNull) ] ].

Lemma load_document_into_system_not_atomic_witness :
  @load_document_into_system Mock.uuids Mock.embeddings counting_pipeline
    fixed_clock (str "boq.pdf") (str "construction_costing") null_items
    [persistence_properties.plain_chunk] 0
  = (Raises (Other TypeError),
     {| runs := [@master_run fixed_clock (str "boq.pdf")
                   (str "construction_costing")];
        chroma := None |}, O).
Proof.
  apply (@load_document_into_system_not_atomic Mock.uuids Mock.embeddings
           counting_pipeline fixed_clock (str "boq.pdf") null_items
           [persistence_properties.plain_chunk] 0 (str "load-0") []).
  - reflexivity.
  - reflexivity.
Defined.

End loader_properties.

(** ** The batches of the embedding store *)

Module embedding_properties.
Import pdf_embedding.

Lemma take_add_app {A} (l : list A) (n m : nat) :
  take (n + m) l = take n l ++ take m (drop n l).
Proof.
  revert l. induction n as [|n IH]; intros l; [reflexivity|].
  destruct l as [|x l]; [rewrite drop_nil, !take_nil; reflexivity|].
  simpl. f_equal. apply IH.
Qed.

(** Consecutive windows of [w] elements, from the window [j] on, put
    together again. *)
Lemma concat_windows {A} (l : list A) (w : nat) :
  forall m j,
    concat (List.map (fun k => take w (drop (k * w) l)) (seq j m))
    = take (m * w) (drop (j * w) l).
Proof.
  induction m as [|m IH]; intros j; [reflexivity|].
  cbn [seq List.map concat]. rewrite IH.
  replace (S m * w)%nat with (w + m * w)%nat by lia.
  rewrite take_add_app, drop_drop. do 3 f_equal. lia.
Qed.

(** A batch of the loop, as a window. *)
Lemma batch_window {A} (l : list A) (batch_size : Z) (k : nat) :
  0 < batch_size ->
  py_slice l (Z.of_nat k * batch_size)
    (Z.min (Z.of_nat k * batch_size + batch_size) (len l))
  = take (Z.to_nat batch_size) (drop (k * Z.to_nat batch_size) l).
Proof.
  intros Hb.
  destruct (Z.lt_ge_cases (Z.of_nat k * batch_size) (len l)) as [Hin|Hout].
  - rewrite chunk_text_properties.window_take_drop by lia.
    do 2 f_equal. lia.
  - unfold py_slice, norm_index, len in *.
    destruct (Z.ltb_spec (Z.of_nat k * batch_size) 0); [lia|].
    destruct (Z.ltb_spec
                (Z.min (Z.of_nat k * batch_size + batch_size)
                   (Z.of_nat (length l))) 0); [lia|].
    rewrite !(drop_ge l) by nia. rewrite !take_nil. reflexivity.
Qed.

Section with_env.
Context `{!Embeddings}.

Lemma embed_batches_calls texts total batch_size :
  forall starts calls vectors,
    embed_batches texts total batch_size starts = Ok (calls, vectors) ->
    calls
    = List.map (fun start =>
                  py_slice texts start (Z.min (start + batch_size) total))
        starts
    /\ vectors = flat_map embed_documents calls
    /\ len vectors = len (concat calls).
Proof.
  induction starts as [|start starts IH]; intros calls vectors; simpl.
  - intros [= <- <-]. auto.
  - destruct (Z.eqb_spec
                (len (embed_documents
                        (py_slice texts start
                           (Z.min (start + batch_size) total))))
                (len (py_slice texts start
                        (Z.min (start + batch_size) total))))
      as [Hlen|]; [|discriminate]. simpl.
    destruct (embed_batches texts total batch_size starts)
      as [[calls' vectors']|] eqn:Hrest; simpl; [|discriminate].
    intros [= <- <-]. destruct (IH _ _ eq_refl) as (-> & -> & Hl).
    split; [reflexivity|]. split; [reflexivity|].
    cbn [concat]. rewrite !chunking_properties.len_app, Hlen, Hl.
    reflexivity.
Qed.

Lemma fields_map (key : pystr) (chunks : list (list (pystr * json)))
    (vs : list json) :
  fields key chunks = Ok vs ->
  vs = List.map (dlt_pipeline.field key) chunks.
Proof.
  revert vs. induction chunks as [|c chunks IH]; intros vs; simpl.
  - intros [= <-]. reflexivity.
  - unfold dlt_pipeline.field at 1.
    destruct (dict_get c key) as [v|]; [|discriminate].
    destruct (fields key chunks) as [vs'|]; simpl; [|discriminate].
    intros [= <-]. rewrite (IH vs' eq_refl). reflexivity.
Qed.

Lemma fields_present (key : pystr) (chunks : list (list (pystr * json))) :
  Forall (fun c => dict_has c key = true) chunks ->
  exists vs, fields key chunks = Ok vs.
Proof.
  induction 1 as [|c chunks Hc _ (vs & IH)]; [exists []; reflexivity|].
  simpl. unfold dict_has in Hc.
  destruct (dict_get c key) as [v|]; [|discriminate].
  rewrite IH. simpl. eauto.
Qed.

Lemma embed_batches_returns texts total batch_size :
  (forall ts, len (embed_documents ts) = len ts) ->
  forall starts, exists calls vectors,
    embed_batches texts total batch_size starts = Ok (calls, vectors).
Proof.
  intros Hembed. induction starts as [|start starts (calls & vectors & IH)];
    [simpl; eauto|].
  simpl. rewrite Hembed, Z.eqb_refl. simpl. rewrite IH. simpl. eauto.
Qed.

Lemma store_chunks_in_chroma_ok
    (chunks : list (list (pystr * json))) (batch_size : Z)
    (trace : StoreTrace) (stored : Z) :
  0 < batch_size ->
  store_chunks_in_chroma chunks batch_size = Ok (trace, stored) ->
  stored = len chunks
  /\ concat (embed_calls trace)
     = List.map (dlt_pipeline.field (str "text")) chunks
  /\ match chunks with
     | [] => added trace = []
     | _ =>
         exists add,
           added trace = [add]
           /\ ids add = List.map (dlt_pipeline.field (str "id")) chunks
           /\ documents add
              = List.map (dlt_pipeline.field (str "text")) chunks
           /\ embeddings add = flat_map embed_documents (embed_calls trace)
           /\ len (embeddings add) = len chunks
           /\ len (metadatas add) = len chunks
     end.
Proof.
  intros Hbs. unfold store_chunks_in_chroma.
  destruct chunks as [|c chunks]; [intros [= <- <-]; auto|].
  cbv beta iota. generalize (c :: chunks). intros cs.
  destruct (fields (str "id") cs) as [ids_|] eqn:Hids; simpl;
    [|discriminate].
  destruct (fields (str "text") cs) as [texts|] eqn:Htexts; simpl;
    [|discriminate].
  apply fields_map in Hids, Htexts.
  unfold range_from_0.
  destruct (Z.eqb_spec batch_size 0); [lia|].
  destruct (Z.ltb_spec batch_size 0); [lia|]. simpl.
  destruct (embed_batches texts (len texts) batch_size _)
    as [[calls vectors]|] eqn:Hb; simpl; [|discriminate].
  intros [= <- <-]. cbn [embed_calls added].
  apply embed_batches_calls in Hb as (Hcalls & Hvec & Hlen).
  assert (Hcat : concat calls = texts).
  { rewrite Hcalls, List.map_map.
    rewrite (List.map_ext _
               (fun k => take (Z.to_nat batch_size)
                           (drop (k * Z.to_nat batch_size) texts)))
      by (intros k; apply batch_window; lia).
    rewrite concat_windows. rewrite drop_0. apply take_ge.
    unfold len.
    pose proof (Z.div_mod (Z.of_nat (length texts) + batch_size - 1)
                  batch_size ltac:(lia)).
    pose proof (Z.mod_pos_bound (Z.of_nat (length texts) + batch_size - 1)
                  batch_size ltac:(lia)).
    assert (0 <= (Z.of_nat (length texts) + batch_size - 1) / batch_size)
      by (apply Z.div_pos; lia).
    nia. }
  assert (Hn : len texts = len cs).
  { rewrite Htexts. unfold len. rewrite length_map. reflexivity. }
  split; [reflexivity|]. split; [rewrite Hcat; exact Htexts|].
  eexists. split; [reflexivity|]. cbn [ids documents embeddings metadatas].
  repeat split; try assumption.
  - rewrite Hlen, Hcat. exact Hn.
  - unfold len. rewrite length_map. reflexivity.
Qed.

(** X22: with a positive [batch_size], when [store_chunks_in_chroma]
    returns, the texts of its embedding calls, put one after the
    other, are the texts of the chunks in their order: every text is
    embedded exactly once. The one [collection.add] then gets the ids
    and the texts of all the chunks and as many vectors as there are
    chunks, the vectors of the batches in the order of the batches;
    the count returned is the number of chunks. And it does return
    when every chunk has an id and a text and the endpoint gives one
    vector per text. *)
Theorem store_chunks_in_chroma_partition
    (chunks : list (list (pystr * json))) (batch_size : Z) :
  0 < batch_size ->
  (forall trace stored,
      store_chunks_in_chroma chunks batch_size = Ok (trace, stored) ->
      stored = len chunks
      /\ concat (embed_calls trace)
         = List.map (dlt_pipeline.field (str "text")) chunks
      /\ match chunks with
         | [] => added trace = []
         | _ =>
             exists add,
               added trace = [add]
               /\ ids add = List.map (dlt_pipeline.field (str "id")) chunks
               /\ documents add
                  = List.map (dlt_pipeline.field (str "text")) chunks
               /\ embeddings add
                  = flat_map embed_documents (embed_calls trace)
               /\ len (embeddings add) = len chunks
               /\ len (metadatas add) = len chunks
         end)
  /\ (Forall (fun c => dict_has c (str "id") = true
                       /\ dict_has c (str "text") = true) chunks ->
      (forall texts, len (embed_documents texts) = len texts) ->
      exists trace,
        store_chunks_in_chroma chunks batch_size = Ok (trace, len chunks)).
Proof.
  intros Hbs. split.
  - intros trace stored. apply store_chunks_in_chroma_ok, Hbs.
  - intros Hkeys Hembed. unfold store_chunks_in_chroma.
    destruct chunks as [|c chunks]; [eexists; reflexivity|].
    cbv beta iota. revert Hkeys. generalize (c :: chunks). intros cs Hkeys.
    destruct (fields_present (str "id") cs) as (ids_ & ->).
    { eapply Forall_impl; [exact Hkeys|]. intros x Hx. apply Hx. }
    destruct (fields_present (str "text") cs) as (texts & ->).
    { eapply Forall_impl; [exact Hkeys|]. intros x Hx. apply Hx. }
    simpl. unfold range_from_0.
    destruct (Z.eqb_spec batch_size 0); [lia|].
    destruct (Z.ltb_spec batch_size 0); [lia|]. simpl.
    destruct (embed_batches_returns texts (len texts) batch_size Hembed
                (List.map (fun k : nat => Z.of_nat k * batch_size)
                   (seq 0 (Z.to_nat ((len texts + batch_size - 1)
                                     / batch_size)))))
      as (calls & vectors & ->).
    simpl. eauto.
Qed.

(** *** The chunks kept by [store_chunks_in_chroma_with_doc_id] *)

(** A chunk whose text is a string that is not blank. *)
Definition has_text (c : list (pystr * json)) : bool :=
  match dict_get c (str "text") with
  | Some (JStr t) => negb (pystr_eqb (strip t) [])
  | _ => false
  end.

Definition lacks_id (c : list (pystr * json)) : bool :=
  negb (dict_has c (str "id")).

Section with_ids.
Context `{!UuidSource}.

Lemma prepare_chunk_counter document_id c u c' keep u' :
  dlt_pipeline.prepare_chunk document_id c u = Ok (c', keep, u') ->
  u' = (if lacks_id c then S u else u).
Proof.
  unfold dlt_pipeline.prepare_chunk, lacks_id.
  destruct (dict_has c (str "id")); cbv beta iota zeta;
    match goal with
    | |- match ?x with _ => _ end = _ -> _ => destruct x as [[]|]
    end; intros [= _ _ <-]; reflexivity.
Qed.

Lemma prepare_chunk_keep document_id c u c' keep u' :
  dlt_pipeline.prepare_chunk document_id c u = Ok (c', keep, u') ->
  keep = has_text c
  /\ dlt_pipeline.field (str "text") c' = dlt_pipeline.field (str "text") c
  /\ (dict_has c (str "id") = true ->
      dlt_pipeline.field (str "id") c' = dlt_pipeline.field (str "id") c).
Proof.
  intros Hp.
  apply persistence_properties.prepare_chunk_spec in Hp
    as ((i & Hi & Hid) & Htext & _ & Hkeep).
  split; [|split].
  - unfold has_text. destruct keep.
    + destruct (proj1 Hkeep eq_refl) as (t & -> & Hne).
      symmetry. apply negb_true_iff.
      apply extractor_edge_properties.pystr_eqb_false, Hne.
    + destruct (dict_get c (str "text")) as [[| | | |t| | ]|]; try reflexivity.
      destruct (pystr_eqb (strip t) []) eqn:Ht; [reflexivity|].
      apply extractor_edge_properties.pystr_eqb_false in Ht.
      assert (Habs : false = true) by (apply Hkeep; eauto). discriminate.
  - unfold dlt_pipeline.field. rewrite Htext. reflexivity.
  - unfold dict_has, dlt_pipeline.field. intros Hhas. rewrite Hi.
    destruct Hid as [-> | [Hnone _]]; [reflexivity|].
    rewrite Hnone in Hhas. discriminate.
Qed.

Lemma prepare_chunks_kept document_id :
  forall chunks u after cleaned u',
    dlt_pipeline.prepare_chunks document_id chunks u
    = Ok (after, cleaned, u') ->
    List.map (dlt_pipeline.field (str "text")) cleaned
    = List.map (dlt_pipeline.field (str "text")) (List.filter has_text chunks)
    /\ u' = (u + length (List.filter lacks_id chunks))%nat
    /\ (Forall (fun c => dict_has c (str "id") = true) chunks ->
        List.map (dlt_pipeline.field (str "id")) cleaned
        = List.map (dlt_pipeline.field (str "id"))
            (List.filter has_text chunks)).
Proof.
  induction chunks as [|c chunks IH]; intros u after cleaned u'; simpl.
  - intros [= <- <- <-]. split; [reflexivity|]. split; [lia|reflexivity].
  - destruct (dlt_pipeline.prepare_chunk document_id c u)
      as [[[c' keep] u1]|] eqn:Hc; simpl; [|discriminate].
    destruct (dlt_pipeline.prepare_chunks document_id chunks u1)
      as [[[after' cleaned'] u2]|] eqn:Hrest; simpl; [|discriminate].
    intros [= <- <- <-].
    destruct (IH _ _ _ _ Hrest) as (Htexts & Hu & Hids).
    pose proof (prepare_chunk_counter _ _ _ _ _ _ Hc) as Hu1.
    apply prepare_chunk_keep in Hc as (-> & Htext & Hid).
    split; [|split].
    + destruct (has_text c); simpl; rewrite ?Htext, Htexts; reflexivity.
    + rewrite Hu, Hu1. destruct (lacks_id c); simpl; lia.
    + intros Hall. apply Forall_cons in Hall as [Hc Hall].
      destruct (has_text c); simpl; rewrite ?(Hid Hc), (Hids Hall);
        reflexivity.
Qed.

(** The id a chunk leaves the loop with: the one it came with or, for
    a chunk that came without, the identifier drawn for it, which
    follows those drawn for the chunks [before] it that came without
    an id. *)
Definition id_after (u : nat) (before : list (list (pystr * json)))
    (c : list (pystr * json)) : json :=
  match dict_get c (str "id") with
  | Some i => i
  | None => JStr (uuid4 (u + length (List.filter lacks_id before)))
  end.

Lemma prepare_chunk_id document_id c u c' keep u' :
  dlt_pipeline.prepare_chunk document_id c u = Ok (c', keep, u') ->
  dlt_pipeline.field (str "id") c' = id_after u [] c.
Proof.
  intros Hp.
  apply persistence_properties.prepare_chunk_spec in Hp
    as ((i & Hi & Hid) & _).
  unfold dlt_pipeline.field, id_after. rewrite Hi. simpl.
  destruct Hid as [-> | [-> ->]]; [reflexivity|].
  rewrite Nat.add_0_r. reflexivity.
Qed.

Lemma id_after_cons (u : nat) (c0 : list (pystr * json))
    (before : list (list (pystr * json))) (c : list (pystr * json)) :
  id_after u (c0 :: before) c
  = id_after (if lacks_id c0 then S u else u) before c.
Proof.
  unfold id_after. destruct (dict_get c (str "id")); [reflexivity|].
  cbn [List.filter]. destruct (lacks_id c0); simpl; do 2 f_equal; lia.
Qed.

(** The ids of the chunks kept, one by one. *)
Lemma prepare_chunks_ids document_id :
  forall chunks u after cleaned u',
    dlt_pipeline.prepare_chunks document_id chunks u
    = Ok (after, cleaned, u') ->
    forall before c rest,
      chunks = before ++ c :: rest ->
      has_text c = true ->
      List.map (dlt_pipeline.field (str "id")) cleaned
        !! length (List.filter has_text before)
      = Some (id_after u before c).
Proof.
  induction chunks as [|c0 chunks IH]; intros u after cleaned u'; simpl.
  - intros _ [|b before] c rest Habs; discriminate Habs.
  - destruct (dlt_pipeline.prepare_chunk document_id c0 u)
      as [[[c0' keep] u1]|] eqn:Hc; simpl; [|discriminate].
    destruct (dlt_pipeline.prepare_chunks document_id chunks u1)
      as [[[after' cleaned'] u2]|] eqn:Hrest; simpl; [|discriminate].
    intros [= <- <- <-] before c rest Hsplit Htext.
    pose proof (prepare_chunk_counter _ _ _ _ _ _ Hc) as Hu1.
    pose proof (prepare_chunk_id _ _ _ _ _ _ Hc) as Hid.
    apply prepare_chunk_keep in Hc as (-> & _ & _).
    destruct before as [|b before]; cbn [app] in Hsplit;
      injection Hsplit as <- ->.
    + rewrite Htext. cbn [List.filter length List.map]. simpl.
      rewrite Hid. reflexivity.
    + rewrite id_after_cons, <- Hu1. cbn [List.filter].
      specialize (IH _ _ _ _ Hrest before c rest eq_refl Htext).
      destruct (has_text c0); cbn [length List.map]; simpl; exact IH.
Qed.

(** X27: [store_chunks_in_chroma_with_doc_id] writes exactly the chunks
    whose text is a string that is not blank, in the order of the
    input, none twice: the documents of its one [collection.add] are
    the texts of those chunks, and the id written for each of them is
    the id the chunk came with or, for a chunk that came without one,
    the identifier drawn for it. One identifier is drawn for every
    chunk that came without an id, in the order of the input, also
    for a chunk that is then left out as blank. *)
Theorem store_with_doc_id_keeps_order
    (chunks : list (list (pystr * json))) (document_id : pystr)
    (u u' : nat) (trace : StoreTrace) :
  dlt_pipeline.store_chunks_in_chroma_with_doc_id chunks document_id u
  = Ok (trace, u') ->
  let kept := List.filter has_text chunks in
  u' = (u + length (List.filter lacks_id chunks))%nat
  /\ match kept with
     | [] => added trace = [] /\ embed_calls trace = []
     | _ =>
         exists add,
           added trace = [add]
           /\ embed_calls trace = [documents add]
           /\ documents add = List.map (dlt_pipeline.field (str "text")) kept
           /\ length (ids add) = length kept
           /\ (forall before c rest,
                 chunks = before ++ c :: rest ->
                 has_text c = true ->
                 ids add !! length (List.filter has_text before)
                 = Some (match dict_get c (str "id") with
                         | Some i => i
                         | None =>
                             JStr (uuid4
                                     (u + length
                                            (List.filter lacks_id before)))
                         end))
           /\ (Forall (fun c => dict_has c (str "id") = true) chunks ->
               ids add = List.map (dlt_pipeline.field (str "id")) kept)
     end.
Proof.
  unfold dlt_pipeline.store_chunks_in_chroma_with_doc_id.
  destruct (dlt_pipeline.prepare_chunks document_id chunks u)
    as [[[after cleaned] u1]|] eqn:Hprep; simpl; [|discriminate].
  pose proof (prepare_chunks_ids _ _ _ _ _ _ Hprep) as Hat.
  apply prepare_chunks_kept in Hprep as (Htexts & Hu & Hids).
  intros Hrun. set (kept := List.filter has_text chunks) in *.
  destruct cleaned as [|c cleaned]; injection Hrun as <- <-;
    (split; [exact Hu|]).
  - destruct kept; [auto | discriminate Htexts].
  - destruct kept as [|k kept]; [discriminate Htexts|].
    eexists. split; [reflexivity|]. cbn [embed_calls documents ids].
    split; [reflexivity|]. split; [exact Htexts|].
    split; [|split; [exact Hat | exact Hids]].
    pose proof (f_equal (@length json) Htexts) as Hlen.
    rewrite !length_map in Hlen. rewrite <- Hlen.
    apply (length_map (dlt_pipeline.field (str "id")) (c :: cleaned)).
Qed.

End with_ids.

End with_env.

(** Three chunks in batches of two. *)
Lemma store_chunks_in_chroma_partition_witness :
  match @store_chunks_in_chroma Mock.embeddings
          (repeat persistence_properties.plain_chunk 3) 2 with
  | Ok (trace, stored) =>
      stored = 3
      /\ List.map (@length json) (embed_calls trace) = [2%nat; 1%nat]
      /\ concat (embed_calls trace)
         = repeat (JStr (str "some text")) 3
  | Raise _ => False
  end.
Proof.
  destruct (@store_chunks_in_chroma_partition Mock.embeddings
              (repeat persistence_properties.plain_chunk 3) 2 ltac:(lia))
    as [Hok _].
  destruct (@store_chunks_in_chroma Mock.embeddings
              (repeat persistence_properties.plain_chunk 3) 2)
    as [[trace stored]|e] eqn:Hrun; [|vm_compute in Hrun; discriminate Hrun].
  destruct (Hok trace stored eq_refl) as (Hstored & Hcat & _).
  split; [rewrite Hstored; reflexivity|]. split; [|rewrite Hcat; reflexivity].
  vm_compute in Hrun. injection Hrun as <- _. reflexivity.
Defined.

(** A chunk without id and with a blank text, and a chunk without id
    that has a text. *)
Definition blank_chunk : list (pystr * json) :=
  [ (str "text", JStr (str "   ")) ].

Definition anonymous_chunk : list (pystr * json) :=
  [ (str "text", JStr (str "more text")) ].

(** A chunk with an id, a blank chunk without and a chunk with a text
    and no id: the second draws the identifier 0 and is left out, the
    third is written under the identifier 1. *)
Lemma store_with_doc_id_keeps_order_witness :
  match @dlt_pipeline.store_chunks_in_chroma_with_doc_id Mock.uuids
          Mock.embeddings
          [persistence_properties.plain_chunk; blank_chunk;
           anonymous_chunk] (str "load-0") 0 with
  | Ok (trace, u') =>
      u' = 2%nat
      /\ exists add,
           added trace = [add]
           /\ documents add
              = [JStr (str "some text"); JStr (str "more text")]
           /\ length (ids add) = 2%nat
           /\ ids add !! 0%nat = Some (JStr (str "c"))
           /\ ids add !! 1%nat = Some (JStr (@uuid4 Mock.uuids 1))
  | Raise _ => False
  end.
Proof.
  destruct (@dlt_pipeline.store_chunks_in_chroma_with_doc_id Mock.uuids
              Mock.embeddings
              [persistence_properties.plain_chunk; blank_chunk;
               anonymous_chunk] (str "load-0") 0)
    as [[trace u']|e] eqn:Hrun; [|vm_compute in Hrun; discriminate Hrun].
  pose proof (@store_with_doc_id_keeps_order Mock.embeddings Mock.uuids
                _ _ _ _ _ Hrun) as Hkept.
  cbv zeta in Hkept. destruct Hkept as (Hu & Hadd).
  split; [rewrite Hu; reflexivity|].
  change (List.filter has_text
            [persistence_properties.plain_chunk; blank_chunk;
             anonymous_chunk])
    with [persistence_properties.plain_chunk; anonymous_chunk] in Hadd.
  destruct Hadd as (add & Hadded & _ & Hdocs & Hlen & Hat & _).
  exists add. split; [exact Hadded|]. split; [exact Hdocs|].
  split; [exact Hlen|]. split.
  - exact (Hat [] persistence_properties.plain_chunk
             [blank_chunk; anonymous_chunk] eq_refl eq_refl).
  - exact (Hat [persistence_properties.plain_chunk; blank_chunk]
             anonymous_chunk [] eq_refl eq_refl).
Defined.

End embedding_properties.

(** ** The ingestion flow *)

Module flow_properties.
Import dlt_pipeline_loader prefect_pdf_flow loader_properties.

(** The metadata of a chunk with the document id added. *)
Definition stamped_metadata (document_id : pystr) (c : pdf_chunking.Chunk)
  : json :=
  let m := pdf_chunking.metadata c in
  JDict [ (str "pdf_type", JStr (pdf_chunking.pdf_type m));
          (str "page_number", JInt (pdf_chunking.page_number m));
          (str "local_chunk_index", JInt (pdf_chunking.local_chunk_index m));
          (str "global_chunk_index",
           JInt (pdf_chunking.global_chunk_index m));
          (str "document_id", JStr document_id) ].

(** The chunk dict as the store leaves it. *)
Definition stamped_dict (document_id : pystr) (c : pdf_chunking.Chunk)
  : list (pystr * json) :=
  [ (str "id", JStr (pdf_chunking.id c));
    (str "text", JStr (pdf_chunking.text c));
    (str "metadata", stamped_metadata document_id c) ].

(** Evaluation of the key comparisons of dict operations on literal
    keys. *)
Ltac eval_keys :=
  repeat (cbn [dict_get dict_set];
          match goal with
          | |- context [pystr_eqb (str ?a) (str ?b)] =>
              let v := eval vm_compute in (pystr_eqb (str a) (str b)) in
              change (pystr_eqb (str a) (str b)) with v
          end; cbv iota).

Section with_env.
Context `{!Unicode, !UuidSource, !OpenAIClient, !PdfFiles, !JsonDecoder,
          !Prompts, !ThreadPool, !Embeddings, !DltPipeline, !Clock}.

Lemma prepare_chunk_dict (document_id : pystr) (c : pdf_chunking.Chunk)
    (u : nat) :
  strip (pdf_chunking.text c) <> [] ->
  dlt_pipeline.prepare_chunk document_id (chunk_dict c) u
  = Ok (stamped_dict document_id c, true, u).
Proof.
  intros Htext. unfold dlt_pipeline.prepare_chunk, chunk_dict, dict_has.
  eval_keys.
  rewrite (proj2 (extractor_edge_properties.pystr_eqb_false _ _) Htext).
  reflexivity.
Qed.

Lemma prepare_chunks_dicts (document_id : pystr)
    (chunks : list pdf_chunking.Chunk) (u : nat) :
  Forall (fun c => strip (pdf_chunking.text c) <> []) chunks ->
  dlt_pipeline.prepare_chunks document_id (List.map chunk_dict chunks) u
  = Ok (List.map (stamped_dict document_id) chunks,
        List.map (stamped_dict document_id) chunks, u).
Proof.
  induction 1 as [|c chunks Hc _ IH]; [reflexivity|].
  cbn [List.map dlt_pipeline.prepare_chunks].
  rewrite (prepare_chunk_dict document_id c u Hc). cbn [mbind res_bind].
  rewrite IH. reflexivity.
Qed.

(** What the store writes for a list of chunks of the chunker. *)
Definition chunks_add (document_id : pystr)
    (chunks : list pdf_chunking.Chunk) : ChromaAdd :=
  let texts := List.map (fun c => JStr (pdf_chunking.text c)) chunks in
  {| ids := List.map (fun c => JStr (pdf_chunking.id c)) chunks;
     embeddings := embed_documents texts;
     documents := texts;
     metadatas := List.map (stamped_metadata document_id) chunks |}.

Lemma store_chunk_dicts (document_id : pystr)
    (chunks : list pdf_chunking.Chunk) (u : nat) :
  Forall (fun c => strip (pdf_chunking.text c) <> []) chunks ->
  exists store,
    dlt_pipeline.store_chunks_in_chroma_with_doc_id
      (List.map chunk_dict chunks) document_id u = Ok (store, u)
    /\ added store
       = match chunks with
         | [] => []
         | _ => [chunks_add document_id chunks]
         end
    /\ embed_calls store
       = match chunks with
         | [] => []
         | _ => [List.map (fun c => JStr (pdf_chunking.text c)) chunks]
         end.
Proof.
  intros Hc. unfold dlt_pipeline.store_chunks_in_chroma_with_doc_id.
  rewrite (prepare_chunks_dicts _ _ _ Hc). cbn [mbind res_bind].
  destruct chunks as [|c chunks]; [eexists; repeat split; reflexivity|].
  cbn [List.map]. eexists. split; [reflexivity|].
  cbn [added embed_calls]. unfold chunks_add. cbn [List.map].
  rewrite !List.map_map. split; reflexivity.
Qed.

Lemma subscript_lookup (classifier : json) (e : exn) :
  subscript classifier (str "pdf_type") = Raise e ->
  pdf_extractor.lookup_template classifier = Raise e.
Proof.
  unfold subscript, pdf_extractor.lookup_template.
  destruct classifier as [| | | | | |d]; try (intros [= <-]; reflexivity).
  destruct (dict_get d (str "pdf_type")); [discriminate|].
  intros [= <-]. reflexivity.
Qed.

Lemma process_single_pdf_subscript (pdf_path : pystr) (classifier : json)
    (r : pdf_extractor.Extraction) :
  pdf_extractor.process_single_pdf pdf_path classifier = Ok r ->
  subscript classifier (str "pdf_type") = Ok (JStr (pdf_extractor.pdf_type r))
  /\ extractor_edge_properties.supported (pdf_extractor.pdf_type r).
Proof.
  destruct classifier as [| | | | | |d]; try discriminate.
  intros Hr.
  destruct (extractor_edge_properties.process_single_pdf_ok pdf_path d r Hr)
    as (Hs & Hd & _).
  unfold subscript. rewrite Hd. auto.
Qed.

(** The flow up to [task_3_load]. *)
Lemma flow_before (fuel : nat) (pdf_path : pystr) (u : nat) :
  pdf_ingestion_flow fuel pdf_path u
  = match pdf_classifier.detect_pdf_type pdf_path with
    | Raise e => Some {| result := Raises (Other e); system := None |}
    | Ok classifier =>
        match pdf_extractor.process_single_pdf pdf_path classifier with
        | Raise e => Some {| result := Raises (Other e); system := None |}
        | Ok r =>
            match task_3_load fuel pdf_path (pdf_extractor.pdf_type r)
                    (extraction_dict r) u with
            | None => None
            | Some run =>
                Some {| result :=
                          match result run with
                          | Returns document_id =>
                              Returns
                                (JDict [(str "document_id", document_id)])
                          | Raises e => Raises e
                          end;
                        system := system run |}
            end
        end
    end.
Proof.
  unfold pdf_ingestion_flow, task_1_classify, task_2_extract.
  destruct (pdf_classifier.detect_pdf_type pdf_path) as [classifier|e];
    [|reflexivity].
  cbn [mbind res_bind].
  destruct (pdf_extractor.process_single_pdf pdf_path classifier)
    as [r|e] eqn:Hr.
  - apply process_single_pdf_subscript in Hr as [Hsub _].
    rewrite Hsub. reflexivity.
  - destruct (subscript classifier (str "pdf_type")) as [t|e'] eqn:Hsub;
      [reflexivity|].
    apply (subscript_lookup classifier e') in Hsub.
    unfold pdf_extractor.process_single_pdf in Hr. rewrite Hsub in Hr.
    injection Hr as <-. reflexivity.
Qed.

(** X23: the flow stores nothing unless the classification and the
    extraction have both succeeded: an exception of either ends the
    flow with that exception before [load_document_into_system] is
    reached. In particular a document whose verdict has a type outside
    [PROMPT_MAP] (as [other]) ends the flow with [ValueError]: it gets
    no row in [documents_master] and none of its text is chunked or
    embedded. *)
Theorem flow_stores_nothing_on_failure (fuel : nat) (pdf_path : pystr)
    (u : nat) :
  (forall e,
      pdf_classifier.detect_pdf_type pdf_path = Raise e ->
      pdf_ingestion_flow fuel pdf_path u
      = Some {| result := Raises (Other e); system := None |})
  /\ (forall classifier e,
        pdf_classifier.detect_pdf_type pdf_path = Ok classifier ->
        pdf_extractor.process_single_pdf pdf_path classifier = Raise e ->
        pdf_ingestion_flow fuel pdf_path u
        = Some {| result := Raises (Other e); system := None |})
  /\ (forall d pdf_type,
        pdf_classifier.detect_pdf_type pdf_path = Ok (JDict d) ->
        dict_get d (str "pdf_type") = Some (JStr pdf_type) ->
        ~ extractor_edge_properties.supported pdf_type ->
        pdf_ingestion_flow fuel pdf_path u
        = Some {| result := Raises (Other ValueError); system := None |}).
Proof.
  rewrite flow_before. split; [|split].
  - intros e ->. reflexivity.
  - intros classifier e -> ->. reflexivity.
  - intros d t -> Hd Hno.
    rewrite (extractor_edge_properties.process_single_pdf_unsupported
               pdf_path d t Hd Hno).
    reflexivity.
Qed.

(** X24: when the flow returns, it returns the dict with the document
    id of [load_document_into_system], which is the first load id of
    the run that wrote the row of [documents_master], the first run of
    the pipeline; and every chunk that [chunk_document] made of the
    file, with its id and its text, is written to the vector store in
    one call, its metadata extended by that document id: no chunk of
    the chunker is dropped as blank and none gets a new id. *)
Theorem flow_stores_every_chunk (fuel : nat) (pdf_path : pystr) (u : nat)
    (run : FlowRun) (v : json) :
  pdf_ingestion_flow fuel pdf_path u = Some run ->
  result run = Returns v ->
  exists classifier r pages chunks u1 document_id trace later store,
    pdf_classifier.detect_pdf_type pdf_path = Ok classifier
    /\ pdf_extractor.process_single_pdf pdf_path classifier = Ok r
    /\ pdfplumber_open pdf_path = Ok pages
    /\ pdf_chunking.chunk_document fuel pages (pdf_extractor.pdf_type r)
         400 50 true u = Some (chunks, u1)
    /\ v = JDict [(str "document_id", JStr document_id)]
    /\ system run = Some trace
    /\ runs trace
       = master_run (pdf_extractor.basename pdf_path)
           (pdf_extractor.pdf_type r) :: later
    /\ (exists ids,
          pipeline_run []
            (master_run (pdf_extractor.basename pdf_path)
               (pdf_extractor.pdf_type r))
          = Loaded (document_id :: ids))
    /\ chroma trace = Some store
    /\ added store
       = match chunks with
         | [] => []
         | _ => [chunks_add document_id chunks]
         end.
Proof.
  rewrite flow_before.
  destruct (pdf_classifier.detect_pdf_type pdf_path) as [classifier|e];
    [|intros [= <-]; discriminate].
  destruct (pdf_extractor.process_single_pdf pdf_path classifier)
    as [r|e] eqn:Hr; [|intros [= <-]; discriminate].
  unfold task_3_load, chunk_document_at.
  destruct (pdfplumber_open pdf_path) as [pages|e] eqn:Hopen;
    [|intros [= <-]; discriminate].
  destruct (pdf_chunking.chunk_document fuel pages (pdf_extractor.pdf_type r)
              400 50 true u) as [[chunks u1]|] eqn:Hchunks; [|discriminate].
  assert (Htexts : Forall (fun c => strip (pdf_chunking.text c) <> [])
                     chunks).
  { apply (chunk_text_properties.chunk_pdf_nonblank fuel pages
             (pdf_extractor.pdf_type r) 400 50 true u u1 chunks);
      [lia | exact Hchunks]. }
  destruct (load_document_into_system (pdf_extractor.basename pdf_path)
              (pdf_extractor.pdf_type r)
              (task_3_normalize (extraction_dict r))
              (List.map chunk_dict chunks) u1)
    as [[[doc|e] trace] u2] eqn:Hload;
    intros [= <-]; cbn [result system]; [|discriminate].
  intros [= <-].
  pose proof (load_document_into_system_runs _ _ _ _ _ _ _ _ Hload)
    as (later & Hruns).
  unfold load_document_into_system in Hload.
  rewrite load_document_record_spec in Hload.
  destruct (pipeline_run [] _) as [[|doc0 ids]|e0] eqn:Hmaster;
    try discriminate.
  destruct (load_structured_data _ _ _ _) as [[[]|e1] log'];
    [|discriminate].
  destruct (store_chunk_dicts doc0 chunks u1 Htexts)
    as (store & Hstore & Hadded & _).
  rewrite Hstore in Hload. injection Hload as <- <- <-.
  exists classifier, r, pages, chunks, u1, doc0. do 2 eexists.
  exists store. cbn [runs chroma] in *.
  split; [reflexivity|]. split; [exact Hr|]. split; [reflexivity|].
  split; [exact Hchunks|]. split; [reflexivity|]. split; [reflexivity|].
  split; [exact Hruns|]. split; [exists ids; exact Hmaster|].
  split; [reflexivity | exact Hadded].
Qed.

(** X25: the flow always ends: the chunker runs with its default window
    of 400 words and overlap of 50, for which fuel for the longest
    page is enough. *)
Theorem flow_ends (pdf_path : pystr) (u : nat) :
  exists fuel0, forall fuel,
    (fuel0 <= fuel)%nat -> pdf_ingestion_flow fuel pdf_path u <> None.
Proof.
  assert (Hchunk : forall pdf_type,
            exists fuel0, forall fuel,
              (fuel0 <= fuel)%nat ->
              chunk_document_at fuel pdf_path pdf_type u <> None).
  { intros pdf_type. unfold chunk_document_at.
    destruct (pdfplumber_open pdf_path) as [pages|e];
      [|exists O; discriminate].
    destruct (chunking_properties.chunk_pages_total pdf_type 400 50 true
                ltac:(lia) pages 1) as (fuel0 & Hf).
    exists fuel0. intros fuel Hfuel.
    destruct (Hf fuel [] 0 u Hfuel) as (res & u' & Hres).
    unfold pdf_chunking.chunk_document, pdf_chunking.chunk_pdf.
    rewrite Hres. discriminate. }
  destruct (pdf_classifier.detect_pdf_type pdf_path) as [classifier|e] eqn:Hd.
  2:{ exists O. intros fuel _. rewrite flow_before, Hd. discriminate. }
  destruct (pdf_extractor.process_single_pdf pdf_path classifier)
    as [r|e] eqn:Hr.
  2:{ exists O. intros fuel _. rewrite flow_before, Hd, Hr. discriminate. }
  destruct (Hchunk (pdf_extractor.pdf_type r)) as (fuel0 & Hf).
  exists fuel0. intros fuel Hfuel. rewrite flow_before, Hd, Hr.
  unfold task_3_load. specialize (Hf fuel Hfuel).
  destruct (chunk_document_at fuel pdf_path (pdf_extractor.pdf_type r) u)
    as [[[chunks u1]|e]|]; [| |contradiction].
  - destruct (load_document_into_system _ _ _ _ _) as [[? ?] ?].
    discriminate.
  - discriminate.
Qed.

End with_env.

(** *** Runs of the flow on canned files *)

Lemma flow_stores_nothing_on_failure_witness :
  @pdf_ingestion_flow Mock.unicode Mock.uuids
    extractor_properties.classifying_client extractor_properties.named_files
    Mock.json_decoder Mock.prompts Mock.reversing_pool Mock.embeddings
    counting_pipeline fixed_clock 0 (str "garbled.pdf") 0
  = Some {| result := Raises (Other JSONDecodeError); system := None |}.
Proof.
  apply (@flow_stores_nothing_on_failure Mock.unicode Mock.uuids
           extractor_properties.classifying_client
           extractor_properties.named_files Mock.json_decoder Mock.prompts
           Mock.reversing_pool Mock.embeddings counting_pipeline fixed_clock
           0 (str "garbled.pdf") 0).
  vm_compute. reflexivity.
Defined.

Lemma flow_stores_every_chunk_witness :
  match @pdf_ingestion_flow Mock.unicode Mock.uuids
          extractor_properties.classifying_client
          extractor_properties.named_files Mock.json_decoder Mock.prompts
          Mock.reversing_pool Mock.embeddings counting_pipeline fixed_clock
          5 (str "boq.pdf") 0 with
  | Some run =>
      result run = Returns (JDict [(str "document_id", JStr (str "load-0"))])
      /\ (exists ids,
            @pipeline_run counting_pipeline []
              (@master_run fixed_clock (str "boq.pdf")
                 (str "construction_costing"))
            = Loaded (str "load-0" :: ids))
      /\ exists trace store chunks,
           system run = Some trace
           /\ chroma trace = Some store
           /\ length chunks = 1%nat
           /\ added store = [@chunks_add Mock.embeddings (str "load-0") chunks]
  | None => False
  end.
Proof.
  destruct (@pdf_ingestion_flow Mock.unicode Mock.uuids
              extractor_properties.classifying_client
              extractor_properties.named_files Mock.json_decoder Mock.prompts
              Mock.reversing_pool Mock.embeddings counting_pipeline
              fixed_clock 5 (str "boq.pdf") 0) as [run|] eqn:Hflow;
    [|vm_compute in Hflow; discriminate Hflow].
  assert (Hres : result run
                 = Returns (JDict [(str "document_id",
                                    JStr (str "load-0"))])).
  { vm_compute in Hflow. injection Hflow as <-. reflexivity. }
  split; [exact Hres|].
  destruct (@flow_stores_every_chunk Mock.unicode Mock.uuids
              extractor_properties.classifying_client
              extractor_properties.named_files Mock.json_decoder Mock.prompts
              Mock.reversing_pool Mock.embeddings counting_pipeline
              fixed_clock 5 (str "boq.pdf") 0 run _ Hflow Hres)
    as (classifier & r & pages & chunks & u1 & doc & trace & later & store
        & Hclass & Hextract & Hopen & Hchunks & Hv & Hsys & Hruns
        & (ids & Hmaster) & Hchroma & Hadded).
  injection Hv as <-.
  vm_compute in Hclass. injection Hclass as <-.
  vm_compute in Hextract. injection Hextract as <-.
  assert (Hlen : length chunks = 1%nat).
  { vm_compute in Hopen. injection Hopen as <-.
    vm_compute in Hchunks. injection Hchunks as <- _. reflexivity. }
  split; [exists ids; exact Hmaster|].
  exists trace, store, chunks. repeat split; try assumption.
  rewrite Hadded. destruct chunks; [discriminate Hlen | reflexivity].
Defined.

End flow_properties.
